(** * Syscoin asset service: script codec, record codec, life-cycle validator

    A shallow embedding of [asset.cpp] (script decoding, record
    (de)serialisation, expiration policy, lazy-expiry read and
    [CheckAssetInputs]) together with the properties the specification
    states about them. *)

From Stdlib Require Import ZArith List Bool String Lia.
From Stdlib Require Import Strings.Byte.
From stdpp Require Import base option countable gmap list.

Local Open Scope Z_scope.

(** ** Bytes

    [std::vector<unsigned char>] is a [list byte]; [byte_val] is the
    numeric value of an [unsigned char]. *)

Definition vch := list byte.

Definition byte_val (b : byte) : Z := Z.of_N (Byte.to_N b).

#[global] Instance byte_eq_decision : EqDecision byte := Byte.byte_eq_dec.

#[global] Instance byte_countable : Countable byte :=
  inj_countable Byte.to_N Byte.of_N Byte.of_to_N.

Definition byte_of (z : Z) : byte :=
  match Byte.of_N (Z.to_N (z mod 256)) with
  | Some b => b
  | None => x00
  end.

(** Little-endian value of a byte string ([ReadLE16], [ReadLE32],
    [ser_readdata64]) and the bytes of a value on a given width. *)
Fixpoint ReadLE (bs : list byte) : Z :=
  match bs with
  | [] => 0
  | b :: bs' => byte_val b + 256 * ReadLE bs'
  end.

Fixpoint WriteLE (width : nat) (v : Z) : list byte :=
  match width with
  | O => []
  | S w => byte_of v :: WriteLE w (v / 256)
  end.

(** ** Constants and services declared outside [asset.cpp]

    The numeric values of the service tags ([script.h]) and of the size
    bounds and flags ([alias.h]) are not fixed here; being members of one
    C++ [enum] used as [case] labels, the three sub-operations the
    validator switches on are pairwise distinct. [HashHex data] stands for
    [vchFromValue(Hash(data.begin(), data.end()).GetHex())], and
    [TransactionDescription op] for the two strings that
    [GetSyscoinTransactionDescription(op, strResponseEnglish, ASSET)]
    produces (the returned one first). *)
Record Host := mkHost {
  OP_SYSCOIN_ASSET : Z;
  OP_ASSET_ACTIVATE : Z;
  OP_ASSET_UPDATE : Z;
  OP_ASSET_TRANSFER : Z;
  OP_ASSET_MINT : Z;
  MAX_NAME_LENGTH : Z;
  MAX_VALUE_LENGTH : Z;
  MAX_ID_LENGTH : Z;
  SYSCOIN_TX_VERSION : Z;
  ACCEPT_TRANSFER_ASSETS : Z;
  HashHex : vch -> vch;
  TransactionDescription : Z -> string * string;
  tags_distinct :
    OP_ASSET_ACTIVATE <> OP_ASSET_UPDATE
    /\ OP_ASSET_ACTIVATE <> OP_ASSET_TRANSFER
    /\ OP_ASSET_UPDATE <> OP_ASSET_TRANSFER
}.

(** * Script codec *)

Module Script.

(** Modelled from the spec: the opcode table of the host script language
    ([script.h]) is not part of the sources at hand; these are the values
    of the Bitcoin script language, in which the small-integer pushes are
    [OP_1] to [OP_16] and [OP_PUSHDATA4] is the last push opcode. *)
Definition OP_0 : Z := 0.
Definition OP_PUSHDATA1 : Z := 76.
Definition OP_PUSHDATA2 : Z := 77.
Definition OP_PUSHDATA4 : Z := 78.
Definition OP_1 : Z := 81.
Definition OP_16 : Z := 96.
Definition OP_2DROP : Z := 109.
Definition OP_DROP : Z := 117.
Definition OP_INVALIDOPCODE : Z := 255.

Definition CScript := list byte.

(** Result of one call of a C++ function that has reference out-parameters
    and may hit an [assert]. *)
Inductive run (A : Type) : Type :=
| Returns (a : A)
| AssertionFailed
| OutOfFuel.
Arguments Returns {A} a.
Arguments AssertionFailed {A}.
Arguments OutOfFuel {A}.

(** What [CScript::GetOp] leaves in its reference arguments. *)
Record GetOpResult := mkGetOp {
  op_ok : bool;          (* the return value *)
  op_pc : nat;           (* the cursor after the call *)
  op_code : Z;           (* opcodeRet *)
  op_vch : vch           (* *pvchRet *)
}.

Definition bytes_left (s : CScript) (pc : nat) : Z :=
  Z.of_nat (length s) - Z.of_nat pc.

(** Modelled from the spec: the script tokenizer [CScript::GetOp]
    ([script.h]) is not part of the sources at hand. One token is an
    opcode byte; opcodes up to [OP_PUSHDATA4] carry an immediate operand
    whose length is the opcode itself, or the next 1, 2 or 4 bytes. A
    token that runs past the end of the script makes the call fail, with
    [OP_INVALIDOPCODE] left in the opcode. *)
Definition GetOp (s : CScript) (pc : nat) : GetOpResult :=
  match nth_error s pc with
  | None => mkGetOp false pc OP_INVALIDOPCODE []
  | Some b =>
    let opcode := byte_val b in
    let pc := S pc in
    if opcode <=? OP_PUSHDATA4 then
      let width : nat :=
        if opcode <? OP_PUSHDATA1 then 0%nat
        else if opcode =? OP_PUSHDATA1 then 1%nat
        else if opcode =? OP_PUSHDATA2 then 2%nat
        else 4%nat in
      if bytes_left s pc <? Z.of_nat width then
        mkGetOp false pc OP_INVALIDOPCODE []
      else
        let nSize :=
          if opcode <? OP_PUSHDATA1 then opcode
          else ReadLE (firstn width (skipn pc s)) in
        let pc := (pc + width)%nat in
        if bytes_left s pc <? nSize then
          mkGetOp false pc OP_INVALIDOPCODE []
        else
          mkGetOp true (pc + Z.to_nat nSize)%nat opcode
                  (firstn (Z.to_nat nSize) (skipn pc s))
    else mkGetOp true pc opcode []
  end.

(** [CScript::DecodeOP_N]: asserts that the opcode is a small integer. *)
Definition DecodeOP_N (opcode : Z) : run Z :=
  if opcode =? OP_0 then Returns 0
  else if (OP_1 <=? opcode) && (opcode <=? OP_16)
       then Returns (opcode - (OP_1 - 1))
       else AssertionFailed.

Section AssetScript.

Variable host : Host.

Definition IsAssetOp (op : Z) : bool :=
  (op =? OP_ASSET_ACTIVATE host)
  || (op =? OP_ASSET_MINT host)
  || (op =? OP_ASSET_UPDATE host)
  || (op =? OP_ASSET_TRANSFER host).

Definition assetFromOp (op : Z) : string :=
  if op =? OP_ASSET_ACTIVATE host then "assetactivate"%string
  else if op =? OP_ASSET_UPDATE host then "assetupdate"%string
  else if op =? OP_ASSET_MINT host then "assetmint"%string
  else if op =? OP_ASSET_TRANSFER host then "assettransfer"%string
  else "<unknown asset op>"%string.

Definition is_drop (opcode : Z) : bool :=
  (opcode =? OP_DROP) || (opcode =? OP_2DROP).

Definition is_push (opcode : Z) : bool :=
  (0 <=? opcode) && (opcode <=? OP_PUSHDATA4).

(** What [DecodeAssetScript] leaves behind: its return value and the
    reference arguments [op], [vvch] and [pc]. *)
Record Decoded := mkDecoded {
  d_ret : bool;
  d_op : Z;
  d_vvch : list vch;
  d_pc : nat
}.

(** The [for (;;)] loop collecting the pushed arguments. The result is
    [(found, pc, opcode, vvch)]; [found = false] stands for the
    [return false] inside the loop. *)
Fixpoint read_args (fuel : nat) (s : CScript) (pc : nat) (vvch : list vch)
  : run (bool * nat * Z * list vch) :=
  match fuel with
  | O => OutOfFuel
  | S fuel' =>
    let r := GetOp s pc in
    if negb (op_ok r) then Returns (false, op_pc r, op_code r, vvch)
    else if is_drop (op_code r) then Returns (true, op_pc r, op_code r, vvch)
    else if negb (is_push (op_code r))
         then Returns (false, op_pc r, op_code r, vvch)
    else read_args fuel' s (op_pc r) (vvch ++ [op_vch r])
  end.

(** The [while] loop that moves the cursor past every trailing drop. *)
Fixpoint skip_drops (fuel : nat) (s : CScript) (pc : nat) (opcode : Z)
  : run nat :=
  match fuel with
  | O => OutOfFuel
  | S fuel' =>
    if is_drop opcode then
      let r := GetOp s pc in
      if negb (op_ok r) then Returns (op_pc r)
      else skip_drops fuel' s (op_pc r) (op_code r)
    else Returns pc
  end.

Definition DecodeAssetScript_at (s : CScript) (op : Z) (pc : nat)
  : run Decoded :=
  let fuel := S (length s) in
  let vvch : list vch := [] in
  let r1 := GetOp s pc in
  if negb (op_ok r1) then Returns (mkDecoded false op vvch (op_pc r1))
  else if (op_code r1 <? OP_1) || (op_code r1 >? OP_16)
       then Returns (mkDecoded false op vvch (op_pc r1))
  else
    match DecodeOP_N (op_code r1) with
    | AssertionFailed => AssertionFailed
    | OutOfFuel => OutOfFuel
    | Returns op =>
      if negb (op =? OP_SYSCOIN_ASSET host)
      then Returns (mkDecoded false op vvch (op_pc r1))
      else
        let r2 := GetOp s (op_pc r1) in
        if negb (op_ok r2) then Returns (mkDecoded false op vvch (op_pc r2))
        else if (op_code r2 <? OP_1) || (op_code r2 >? OP_16)
             then Returns (mkDecoded false op vvch (op_pc r2))
        else
          match DecodeOP_N (op_code r2) with
          | AssertionFailed => AssertionFailed
          | OutOfFuel => OutOfFuel
          | Returns op =>
            if negb (IsAssetOp op)
            then Returns (mkDecoded false op vvch (op_pc r2))
            else
              match read_args fuel s (op_pc r2) vvch with
              | AssertionFailed => AssertionFailed
              | OutOfFuel => OutOfFuel
              | Returns (false, pc, _, vvch) =>
                  Returns (mkDecoded false op vvch pc)
              | Returns (true, pc, opcode, vvch) =>
                match skip_drops fuel s pc opcode with
                | AssertionFailed => AssertionFailed
                | OutOfFuel => OutOfFuel
                | Returns pc => Returns (mkDecoded true op vvch (pred pc))
                end
              end
          end
    end.

(** The three-argument overload starts at [script.begin()]. *)
Definition DecodeAssetScript (s : CScript) (op : Z) : run Decoded :=
  DecodeAssetScript_at s op 0.

End AssetScript.

End Script.

(** * Record codec *)

Module Codec.

(** The asset record ([CAsset], declared in [asset.h]); the fields are the
    ones [asset.cpp] reads and writes. [txHash] is a [uint256] and
    [nHeight] a [uint64_t]. *)
Record CAsset := mkAsset {
  vchAsset : vch;
  vchAlias : vch;
  vchName : vch;
  vchPubData : vch;
  sCategory : vch;
  vchLinkAlias : vch;
  nHeight : Z;
  txHash : Z
}.

(** [CAsset::SetNull] leaves an empty record, which is also what a freshly
    constructed [CAsset] holds; [CAsset::IsNull] recognises it by its
    empty id. *)
Definition nullAsset : CAsset := mkAsset [] [] [] [] [] [] 0 0.

Definition IsNull (a : CAsset) : bool := bool_decide (vchAsset a = []).

(** ** Stream primitives

    Modelled from the spec: the serialisation framework ([serialize.h],
    [streams.h]) and the field list of [CAsset] ([asset.h]) are not part
    of the sources at hand. The wire format is canonical and
    length-bounded per field: a byte vector is its length as a compact
    size followed by its bytes, an integer is little-endian on its full
    width, and the fields come in the order asset id, owner alias, name,
    public data, category, link alias, height, transaction hash. A read
    past the end of the stream, a non-canonical compact size and a size
    above [MAX_SIZE] throw. *)

Definition MAX_SIZE : Z := 33554432.

(** [None] is a thrown [std::ios_base::failure]. *)
Definition read_bytes (n : nat) (s : list byte) : option (list byte * list byte) :=
  if (length s <? n)%nat then None else Some (firstn n s, skipn n s).

Definition read_int (width : nat) (s : list byte) : option (Z * list byte) :=
  match read_bytes width s with
  | Some (bs, rest) => Some (ReadLE bs, rest)
  | None => None
  end.

Definition WriteCompactSize (n : Z) : list byte :=
  if n <? 253 then WriteLE 1 n
  else if n <=? 65535 then byte_of 253 :: WriteLE 2 n
  else if n <=? 4294967295 then byte_of 254 :: WriteLE 4 n
  else byte_of 255 :: WriteLE 8 n.

Definition ReadCompactSize (s : list byte) : option (Z * list byte) :=
  match read_int 1 s with
  | None => None
  | Some (chSize, s1) =>
    let checked (low : Z) (r : option (Z * list byte)) :=
      match r with
      | Some (n, rest) =>
          if n <? low then None
          else if n >? MAX_SIZE then None
          else Some (n, rest)
      | None => None
      end in
    if chSize <? 253 then checked 0 (Some (chSize, s1))
    else if chSize =? 253 then checked 253 (read_int 2 s1)
    else if chSize =? 254 then checked 65536 (read_int 4 s1)
    else checked 4294967296 (read_int 8 s1)
  end.

Definition write_vector (v : vch) : list byte :=
  WriteCompactSize (Z.of_nat (length v)) ++ v.

Definition read_vector (s : list byte) : option (vch * list byte) :=
  match ReadCompactSize s with
  | Some (n, rest) => read_bytes (Z.to_nat n) rest
  | None => None
  end.

(** [dsAsset << *this] *)
Definition stream_out (a : CAsset) : list byte :=
  write_vector (vchAsset a)
  ++ write_vector (vchAlias a)
  ++ write_vector (vchName a)
  ++ write_vector (vchPubData a)
  ++ write_vector (sCategory a)
  ++ write_vector (vchLinkAlias a)
  ++ WriteLE 8 (nHeight a)
  ++ WriteLE 32 (txHash a).

(** [dsAsset >> *this]; bytes left in the stream are returned. *)
Definition stream_in (s : list byte) : option (CAsset * list byte) :=
  '(id, s) ← read_vector s;
  '(alias, s) ← read_vector s;
  '(name, s) ← read_vector s;
  '(pub, s) ← read_vector s;
  '(cat, s) ← read_vector s;
  '(link, s) ← read_vector s;
  '(height, s) ← read_int 8 s;
  '(hash, s) ← read_int 32 s;
  Some (mkAsset id alias name pub cat link height hash, s).

Section Record_codec.

Variable host : Host.

(** [CAsset::Serialize] *)
Definition Serialize (a : CAsset) : vch := stream_out a.

(** [CAsset::UnserializeFromData]: the return value and the object it
    leaves in [*this]. A throw inside the [try] block and a hash that
    does not match both null the object. *)
Definition UnserializeFromData (vchData vchHash : vch) : bool * CAsset :=
  match stream_in vchData with
  | Some (a, _) =>
      let vchAssetData := Serialize a in
      let vchRandAsset := HashHex host vchAssetData in
      if bool_decide (vchRandAsset <> vchHash) then (false, nullAsset)
      else (true, a)
  | None => (false, nullAsset)
  end.

End Record_codec.

(** The records the wire format can carry: every length fits the stream's
    size bound and the two integers fit their width. *)
Definition valid_asset (a : CAsset) : Prop :=
  Z.of_nat (length (vchAsset a)) <= MAX_SIZE
  /\ Z.of_nat (length (vchAlias a)) <= MAX_SIZE
  /\ Z.of_nat (length (vchName a)) <= MAX_SIZE
  /\ Z.of_nat (length (vchPubData a)) <= MAX_SIZE
  /\ Z.of_nat (length (sCategory a)) <= MAX_SIZE
  /\ Z.of_nat (length (vchLinkAlias a)) <= MAX_SIZE
  /\ 0 <= nHeight a < 2 ^ 64
  /\ 0 <= txHash a < 2 ^ 256.

End Codec.

(** * Expiration policy, persistent store and life-cycle validator *)

Module Validator.

Import Codec.

(** ** The identity registry ([alias.h], [alias.cpp])

    Modelled from the spec: the registry resolves an alias id to whether
    it exists, to its unprunable expiration and to its transfer-acceptance
    flags; it also keeps a history of service activity per identity, from
    which the entries of one transaction can be erased. An unprunable
    record is null when its guid is empty. *)
Record CAliasUnprunable := mkUnprunable {
  vchGUID : vch;
  nExpireTime : Z
}.

Definition unprunable_IsNull (u : CAliasUnprunable) : bool :=
  bool_decide (vchGUID u = []).

Record CAliasIndex := mkAliasIndex {
  nAcceptTransferFlags : Z
}.

Record AliasTxHistory := mkAliasTxHistory {
  h_user1 : vch;
  h_user2 : vch;
  h_user3 : vch;
  h_txid : Z;
  h_height : Z;
  h_type : string;
  h_guid : vch
}.

Record CAliasDB := mkAliasDB {
  aliases : gmap vch CAliasIndex;
  aliasunprunable : gmap vch CAliasUnprunable;
  aliastxhistory : list AliasTxHistory
}.

Definition ReadAliasUnprunable (adb : CAliasDB) (alias : vch)
  : option CAliasUnprunable := aliasunprunable adb !! alias.

Definition GetAlias (adb : CAliasDB) (alias : vch) : option CAliasIndex :=
  aliases adb !! alias.

Definition WriteAliasIndexTxHistory (adb : CAliasDB) (e : AliasTxHistory)
  : CAliasDB :=
  mkAliasDB (aliases adb) (aliasunprunable adb) (aliastxhistory adb ++ [e]).

Definition EraseAliasIndexTxHistory (adb : CAliasDB) (txid : Z) : CAliasDB :=
  mkAliasDB (aliases adb) (aliasunprunable adb)
            (filter (fun e => h_txid e <> txid) (aliastxhistory adb)).

(** ** The asset store ([CAssetDB])

    Modelled from the spec: the key-value accessors of [CAssetDB] are
    declared in [asset.h]. The store keeps, per asset id, the current
    record (key prefix asseti), the previous-version snapshot (assetp)
    and the settlement-lock marker (assetl). A write or erase reports
    failure, and changes nothing, when the underlying database refuses it
    ([writable = false]). The two external collections are the read-model
    mirror: the current projection per asset id and the history, one
    document per transaction hash; [None] is a mirror that is not
    configured. *)
Record CAssetDB := mkAssetDB {
  asseti : gmap vch CAsset;
  assetp : gmap vch CAsset;
  assetl : gmap vch bool;
  writable : bool;
  asset_collection : option (gmap vch CAsset);
  assethistory_collection : option (gmap Z (CAsset * string))
}.

Definition ReadAsset (db : CAssetDB) (id : vch) : option CAsset :=
  asseti db !! id.

Definition ReadLastAsset (db : CAssetDB) (id : vch) : option CAsset :=
  assetp db !! id.

Definition ReadISLock (db : CAssetDB) (id : vch) : option bool :=
  assetl db !! id.

Definition Write_asseti (db : CAssetDB) (id : vch) (a : CAsset)
  : bool * CAssetDB :=
  if writable db
  then (true, mkAssetDB (<[id := a]> (asseti db)) (assetp db) (assetl db)
                        (writable db) (asset_collection db)
                        (assethistory_collection db))
  else (false, db).

Definition Write_assetp (db : CAssetDB) (id : vch) (a : CAsset)
  : bool * CAssetDB :=
  if writable db
  then (true, mkAssetDB (asseti db) (<[id := a]> (assetp db)) (assetl db)
                        (writable db) (asset_collection db)
                        (assethistory_collection db))
  else (false, db).

Definition Write_assetl (db : CAssetDB) (id : vch) (locked : bool)
  : bool * CAssetDB :=
  if writable db
  then (true, mkAssetDB (asseti db) (assetp db) (<[id := locked]> (assetl db))
                        (writable db) (asset_collection db)
                        (assethistory_collection db))
  else (false, db).

Definition EraseISLock (db : CAssetDB) (id : vch) : bool * CAssetDB :=
  if writable db
  then (true, mkAssetDB (asseti db) (assetp db) (delete id (assetl db))
                        (writable db) (asset_collection db)
                        (assethistory_collection db))
  else (false, db).

(** ** The chain state the validator reads: the median time of the tip
    and the two database handles, which may be unset. *)
Record Node := mkNode {
  medianTimePast : Z;
  paliasdb : option CAliasDB;
  passetdb : option CAssetDB
}.

(** Conversion to [uint64_t]. *)
Definition to_uint64 (z : Z) : Z := z mod 2 ^ 64.

(** ** Transactions

    Modelled from the spec: the host runtime supplies the transaction
    hash and the extraction of the auxiliary payload with its commitment
    hash ([GetSyscoinData]); [SyscoinData = None] is a transaction that
    carries none. *)
Record CTransaction := mkTx {
  nVersion : Z;
  IsCoinBase : bool;
  GetHash : Z;
  SyscoinData : option (vch * vch)
}.

(** What a call of [CheckAssetInputs] leaves behind: the return value, the
    [errorMessage] reference and the chain state. Indexing an empty
    argument vector is undefined. *)
Inductive Result :=
| Returned (ret : bool) (errorMessage : string) (node : Node)
| UndefinedBehaviour.

(** Straight-line code with early [return]s. *)
Inductive flow (A : Type) :=
| Continue (a : A)
| Stop (r : Result).
Arguments Continue {A} a.
Arguments Stop {A} r.

Definition flow_bind {A B} (m : flow A) (k : A -> flow B) : flow B :=
  match m with
  | Continue a => k a
  | Stop r => Stop r
  end.

Notation "x <~ m ;; k" := (flow_bind m (fun x => k))
  (at level 100, m at next level, right associativity).

Definition finish (m : flow Result) : Result :=
  match m with
  | Continue r => r
  | Stop r => r
  end.

(** ** Error messages *)

Definition ERR_2000 : string :=
  "SYSCOIN_ASSET_CONSENSUS_ERROR: ERRCODE: 2000 - Non-Syscoin transaction found".
Definition ERR_2001 : string :=
  "SYSCOIN_ASSET_CONSENSUS_ERROR ERRCODE: 2001 - Cannot unserialize data inside of this transaction relating to a asset".
Definition ERR_2002 : string :=
  "SYSCOIN_ASSET_CONSENSUS_ERROR: ERRCODE: 2002 - Asset arguments incorrect size".
Definition ERR_2003 : string :=
  "SYSCOIN_ASSET_CONSENSUS_ERROR: ERRCODE: 2003 - Hash provided doesn't match the calculated hash of the data".
Definition ERR_4003 : string :=
  "SYSCOIN_ASSET_CONSENSUS_ERROR: ERRCODE: 4003 - Alias input mismatch".
Definition ERR_2005 : string :=
  "SYSCOIN_ASSET_CONSENSUS_ERROR: ERRCODE: 2005 - Asset category too big".
Definition ERR_2007 : string :=
  "SYSCOIN_ASSET_CONSENSUS_ERROR: ERRCODE: 2007 - Asset public data too big".
Definition ERR_2010 : string :=
  "SYSCOIN_ASSET_CONSENSUS_ERROR: ERRCODE: 2010 - Asset linked alias not allowed in activate".
Definition ERR_2012 : string :=
  "SYSCOIN_ASSET_CONSENSUS_ERROR: ERRCODE: 2012 - Asset title too big or is empty".
Definition ERR_2013 : string :=
  "SYSCOIN_ASSET_CONSENSUS_ERROR: ERRCODE: 2013 - Must use a asset category".
Definition ERR_2015 : string :=
  "SYSCOIN_ASSET_CONSENSUS_ERROR: ERRCODE: 2015 - Asset name cannot be changed".
Definition ERR_2017 : string :=
  "SYSCOIN_ASSET_CONSENSUS_ERROR: ERRCODE: 2017 - Must use a asset category".
Definition ERR_2021 : string :=
  "SYSCOIN_ASSET_CONSENSUS_ERROR: ERRCODE: 2021 - Asset transaction has unknown op".
Definition ERR_2022 : string :=
  "SYSCOIN_ASSET_CONSENSUS_ERROR: ERRCODE: 2022 - Failed to read from asset DB".
Definition ERR_2026_locked : string :=
  "SYSCOIN_ASSET_CONSENSUS_ERROR: ERRCODE: 2026 - Block height of service request must be less than or equal to the stored service block height.".
Definition ERR_1096_lock : string :=
  "SYSCOIN_ASSET_CONSENSUS_ERROR: ERRCODE: 1096 - Failed to erase Instant Send lock from asset DB".
Definition ERR_1096_prev : string :=
  "SYSCOIN_ASSET_CONSENSUS_ERROR: ERRCODE: 1096 - Failed to write previous asset to asset DB".
Definition ERR_2026_lower : string :=
  "SYSCOIN_ASSET_CONSENSUS_ERROR: ERRCODE: 2026 - Block height of service request cannot be lower than stored service block height.".
Definition ERR_2024 : string :=
  "SYSCOIN_ASSET_CONSENSUS_ERROR: ERRCODE: 2024 - Cannot find alias you are transferring to.".
Definition ERR_2025 : string :=
  "SYSCOIN_ASSET_CONSENSUS_ERROR: ERRCODE: 2025 - The alias you are transferring to does not accept assets".
Definition ERR_2026_owner : string :=
  "SYSCOIN_ASSET_CONSENSUS_ERROR: ERRCODE: 2026 - Cannot edit this asset. Asset owner must sign off on this change.".
Definition ERR_2027 : string :=
  "SYSCOIN_ASSET_CONSENSUS_ERROR: ERRCODE: 2027 - Asset already exists".
Definition ERR_2028 : string :=
  "SYSCOIN_ASSET_CONSENSUS_ERROR: ERRCODE: 2028 - Failed to write to assetifcate DB".

(** ** String predicates on categories

    [boost::algorithm::starts_with] and its case-insensitive variant, on
    the bytes [stringFromVch] copies one by one. *)
Definition starts_with (input test : vch) : bool :=
  bool_decide (firstn (length test) input = test).

Definition to_lower (b : byte) : byte :=
  let v := byte_val b in
  if (65 <=? v) && (v <=? 90) then byte_of (v + 32) else b.

Definition istarts_with (input test : vch) : bool :=
  starts_with (map to_lower input) (map to_lower test).

Definition assets_prefix : vch := list_byte_of_string "assets".

Section Validation.

Variable host : Host.

(** ** Expiration policy *)

Definition GetAssetExpiration (node : Node) (asset : CAsset) : Z :=
  let nTime := to_uint64 (medianTimePast node + 1) in
  match paliasdb node with
  | Some adb =>
      match ReadAliasUnprunable adb (vchAlias asset) with
      | Some aliasUnprunable =>
          if negb (unprunable_IsNull aliasUnprunable)
          then nExpireTime aliasUnprunable
          else nTime
      | None => nTime
      end
  | None => nTime
  end.

(** ** Lazy-expiry read: the return value and the record left in [txPos] *)

Definition GetAsset (node : Node) (vchAsset : vch) (txPos : CAsset)
  : bool * CAsset :=
  match passetdb node with
  | None => (false, txPos)
  | Some db =>
      match ReadAsset db vchAsset with
      | None => (false, txPos)
      | Some txPos =>
          if to_uint64 (medianTimePast node) >=? GetAssetExpiration node txPos
          then (false, nullAsset)
          else (true, txPos)
      end
  end.

(** ** The read-model mirror *)

Definition WriteAssetIndexHistory (db : CAssetDB) (asset : CAsset) (op : Z)
  : CAssetDB :=
  match assethistory_collection db with
  | None => db
  | Some h =>
      let h' :=
        match h !! txHash asset with
        | Some _ => h
        | None => <[txHash asset := (asset, Script.assetFromOp host op)]> h
        end in
      mkAssetDB (asseti db) (assetp db) (assetl db) (writable db)
                (asset_collection db) (Some h')
  end.

Definition WriteAssetIndex (db : CAssetDB) (asset : CAsset) (op : Z)
  : CAssetDB :=
  match asset_collection db with
  | None => db
  | Some c =>
      let db := mkAssetDB (asseti db) (assetp db) (assetl db) (writable db)
                          (Some (<[vchAsset asset := asset]> c))
                          (assethistory_collection db) in
      WriteAssetIndexHistory db asset op
  end.

(** [EraseAssetIndexHistory(const std::string& id)]: by document id. *)
Definition EraseAssetIndexHistory (db : CAssetDB) (id : Z) : CAssetDB :=
  match assethistory_collection db with
  | None => db
  | Some h =>
      mkAssetDB (asseti db) (assetp db) (assetl db) (writable db)
                (asset_collection db) (Some (delete id h))
  end.

(** Modelled from the spec: [CAssetDB::WriteAsset] is declared in
    [asset.h]. The record is written as the new current version; outside
    strict mode a non-null previous version is retained as the snapshot,
    in strict mode the settlement lock is set; the mirror is notified
    whatever the outcome of the writes. *)
Definition WriteAsset (db : CAssetDB) (asset prevAsset : CAsset) (op : Z)
    (fJustCheck : bool) : bool * CAssetDB :=
  let '(writeState, db) := Write_asseti db (vchAsset asset) asset in
  let '(writeState, db) :=
    if negb fJustCheck && negb (IsNull prevAsset) then
      if writeState then Write_assetp db (vchAsset asset) prevAsset
      else (false, db)
    else if fJustCheck then
      if writeState then Write_assetl db (vchAsset asset) fJustCheck
      else (false, db)
    else (writeState, db) in
  (writeState, WriteAssetIndex db asset op).

(** ** The life-cycle validator *)

Section Call.

(** The arguments of [CheckAssetInputs]; [nOut] is not used by its body. *)
Variables (tx : CTransaction) (op : Z)
          (vvchArgs vvchAliasArgs : list vch)
          (fJustCheck : bool) (nHeight : Z) (dontaddtodb : bool).

(** Lines up to the alias-input check: the record carried by the
    transaction, or an early return. *)
Definition read_candidate (node : Node) (errorMessage : string)
  : flow CAsset :=
  if IsCoinBase tx && negb fJustCheck && negb dontaddtodb
  then Stop (Returned true errorMessage node)
  else if negb (nVersion tx =? SYSCOIN_TX_VERSION host)
  then Stop (Returned true ERR_2000 node)
  else
    match SyscoinData tx with
    | None => Stop (Returned true ERR_2001 node)
    | Some (vchData, vchHash) =>
      let '(ok, theAsset) := UnserializeFromData host vchData vchHash in
      if negb ok then Stop (Returned true ERR_2001 node)
      else
        _ <~ (if fJustCheck then
                if negb (length vvchArgs =? 1)%nat
                then Stop (Returned false ERR_2002 node)
                else if bool_decide (Some vchHash <> vvchArgs !! 0%nat)
                then Stop (Returned true ERR_2003 node)
                else Continue tt
              else Continue tt) ;;
        match vvchAliasArgs !! 0%nat with
        | None => Stop UndefinedBehaviour
        | Some aliasArg =>
            if bool_decide (vchAlias theAsset <> aliasArg)
            then Stop (Returned (negb fJustCheck) ERR_4003 node)
            else Continue theAsset
        end
    end.

(** The shape checks made in strict mode only. *)
Definition strict_checks (node : Node) (theAsset : CAsset) : flow unit :=
  if fJustCheck then
    if Z.of_nat (length (sCategory theAsset)) >? MAX_NAME_LENGTH host
    then Stop (Returned false ERR_2005 node)
    else if Z.of_nat (length (vchPubData theAsset)) >? MAX_VALUE_LENGTH host
    then Stop (Returned false ERR_2007 node)
    else if op =? OP_ASSET_ACTIVATE host then
      if negb (bool_decide (vchLinkAlias theAsset = []))
      then Stop (Returned false ERR_2010 node)
      else if (Z.of_nat (length (vchName theAsset)) >? MAX_ID_LENGTH host)
              || bool_decide (vchName theAsset = [])
      then Stop (Returned false ERR_2012 node)
      else if negb (starts_with (sCategory theAsset) assets_prefix)
      then Stop (Returned true ERR_2013 node)
      else Continue tt
    else if op =? OP_ASSET_UPDATE host then
      if negb (bool_decide (vchName theAsset = []))
      then Stop (Returned false ERR_2015 node)
      else if (Z.of_nat (length (sCategory theAsset)) >? 0)
              && negb (istarts_with (sCategory theAsset) assets_prefix)
      then Stop (Returned true ERR_2017 node)
      else Continue tt
    else if op =? OP_ASSET_TRANSFER host then Continue tt
    else Stop (Returned false ERR_2021 node)
  else Continue tt.

(** The stored record the operation is applied to, after the height rule
    and the reconciliation of a settlement lock. The databases are passed
    on because the reconciliation changes them. *)
Definition load_stored (medianTime : Z) (adb : CAliasDB) (db : CAssetDB)
    (errorMessage : string) (theAsset : CAsset)
  : flow (CAsset * CAliasDB * CAssetDB) :=
  let node := mkNode medianTime (Some adb) (Some db) in
  let id := vchAsset theAsset in
  let '(found, dbAsset) := GetAsset node id nullAsset in
  if negb found then
    if negb (op =? OP_ASSET_ACTIVATE host)
    then Stop (Returned true ERR_2022 node)
    else Continue (dbAsset, adb, db)
  else
    let bSendLocked :=
      match ReadISLock db id with
      | Some locked => locked
      | None => false
      end in
    if negb fJustCheck && bSendLocked then
      if Codec.nHeight dbAsset >=? to_uint64 nHeight
      then Stop (Returned true ERR_2026_locked node)
      else if negb (txHash dbAsset =? GetHash tx) then
        let txHashHex := txHash dbAsset in
        let dbAsset :=
          if negb (op =? OP_ASSET_ACTIVATE host) then
            match ReadLastAsset db id with
            | Some last => last
            | None => nullAsset
            end
          else dbAsset in
        if negb dontaddtodb then
          let '(erased, db) := EraseISLock db id in
          if negb erased
          then Stop (Returned false ERR_1096_lock
                              (mkNode medianTime (Some adb) (Some db)))
          else
            let adb := EraseAliasIndexTxHistory adb txHashHex in
            let db := EraseAssetIndexHistory db txHashHex in
            Continue (dbAsset, adb, db)
        else Continue (dbAsset, adb, db)
      else
        if negb dontaddtodb then
          let '(written, db) := Write_assetp db id dbAsset in
          if negb written
          then Stop (Returned false ERR_1096_prev
                              (mkNode medianTime (Some adb) (Some db)))
          else
            let '(erased, db) := EraseISLock db id in
            if negb erased
            then Stop (Returned false ERR_1096_lock
                                (mkNode medianTime (Some adb) (Some db)))
            else Stop (Returned true errorMessage
                                (mkNode medianTime (Some adb) (Some db)))
        else Stop (Returned true errorMessage node)
    else if Codec.nHeight dbAsset >? to_uint64 nHeight
    then Stop (Returned true ERR_2026_lower node)
    else Continue (dbAsset, adb, db).

Definition with_inherited (theAsset dbAsset : CAsset) : CAsset :=
  mkAsset (vchAsset theAsset)
          (vchAlias theAsset)
          (vchName dbAsset)
          (if bool_decide (vchPubData theAsset = [])
           then vchPubData dbAsset else vchPubData theAsset)
          (if bool_decide (sCategory theAsset = [])
           then sCategory dbAsset else sCategory theAsset)
          (vchLinkAlias theAsset)
          (Codec.nHeight theAsset)
          (txHash theAsset).

Definition with_owner (theAsset : CAsset) (owner : vch) : CAsset :=
  mkAsset (vchAsset theAsset) owner (vchName theAsset) (vchPubData theAsset)
          (sCategory theAsset) (vchLinkAlias theAsset)
          (Codec.nHeight theAsset) (txHash theAsset).

(** The operation itself: inheritance, transfer and owner check, or the
    existence check of an activation. *)
Definition apply_operation (node : Node) (adb : CAliasDB)
    (theAsset dbAsset : CAsset) : flow CAsset :=
  if negb (op =? OP_ASSET_ACTIVATE host) then
    let theAsset := with_inherited theAsset dbAsset in
    theAsset <~
      (if op =? OP_ASSET_TRANSFER host then
         match GetAlias adb (vchLinkAlias theAsset) with
         | None => Stop (Returned true ERR_2024 node)
         | Some alias =>
             let theAsset := with_owner theAsset (vchLinkAlias theAsset) in
             if Z.land (nAcceptTransferFlags alias)
                       (ACCEPT_TRANSFER_ASSETS host) =? 0
             then Stop (Returned true ERR_2025 node)
             else Continue theAsset
         end
       else Continue theAsset) ;;
    if (op =? OP_ASSET_UPDATE host) || (op =? OP_ASSET_TRANSFER host) then
      if bool_decide (vchAlias dbAsset <> vchAlias theAsset)
      then Stop (Returned true ERR_2026_owner node)
      else Continue theAsset
    else Continue theAsset
  else
    if fJustCheck then
      let '(exists_, theAsset) := GetAsset node (vchAsset theAsset) theAsset in
      if exists_ then Stop (Returned true ERR_2027 node)
      else Continue theAsset
    else Continue theAsset.

(** The record with its transient field cleared and its
    transaction-dependent values set. *)
Definition stamped (theAsset : CAsset) : CAsset :=
  mkAsset (vchAsset theAsset) (vchAlias theAsset) (vchName theAsset)
          (vchPubData theAsset) (sCategory theAsset) []
          (to_uint64 nHeight) (GetHash tx).

(** The write path. [user1] and [user2] were taken from the record as it
    came in. *)
Definition commit (medianTime : Z) (adb : CAliasDB) (db : CAssetDB)
    (errorMessage : string) (user1 user2 user3 : vch)
    (theAsset dbAsset : CAsset) : Result :=
  let adb :=
    if negb dontaddtodb then
      let '(strResponse, strResponseEnglish) :=
        TransactionDescription host op in
      if negb (String.eqb strResponse EmptyString)
      then WriteAliasIndexTxHistory adb
             (mkAliasTxHistory user1 user2 user3 (GetHash tx) nHeight
                               strResponseEnglish (vchAsset theAsset))
      else adb
    else adb in
  let theAsset := stamped theAsset in
  if negb dontaddtodb then
    let '(written, db) := WriteAsset db theAsset dbAsset op fJustCheck in
    if negb written
    then Returned false ERR_2028 (mkNode medianTime (Some adb) (Some db))
    else Returned true errorMessage (mkNode medianTime (Some adb) (Some db))
  else Returned true errorMessage (mkNode medianTime (Some adb) (Some db)).

Definition CheckAssetInputs (node : Node) (errorMessage : string) : Result :=
  match paliasdb node, passetdb node with
  | Some adb, Some db =>
      finish (
        theAsset <~ read_candidate node errorMessage ;;
        _ <~ strict_checks node theAsset ;;
        let user1 := vchAlias theAsset in
        let user2 :=
          if (op =? OP_ASSET_TRANSFER host)
             && negb (bool_decide (vchLinkAlias theAsset = []))
          then vchLinkAlias theAsset else [] in
        let user3 : vch := [] in
        stored <~
           load_stored (medianTimePast node) adb db errorMessage theAsset ;;
        let '(dbAsset, adb, db) := stored in
        theAsset <~
           apply_operation (mkNode (medianTimePast node) (Some adb) (Some db))
                           adb theAsset dbAsset ;;
        Continue (commit (medianTimePast node) adb db errorMessage
                         user1 user2 user3 theAsset dbAsset))
  | _, _ => Returned false errorMessage node
  end.

End Call.

End Validation.

End Validator.

(** * The specification's vocabulary *)

Module Spec.

Import Script.

(** ** Script codec (section 4.1)

    A token is a small-integer push when the tokenizer reads it and its
    opcode lies between [OP_1] and [OP_16]; such a token stands for the
    number counted from [OP_1]. *)
Definition small_int_token (s : CScript) (pc : nat) : option Z :=
  let r := GetOp s pc in
  if op_ok r && (OP_1 <=? op_code r) && (op_code r <=? OP_16)
  then Some (op_code r - (OP_1 - 1))
  else None.

(** The first token does not identify the asset protocol. *)
Definition unknown_leading_opcode (host : Host) (s : CScript) : Prop :=
  small_int_token s 0 <> Some (OP_SYSCOIN_ASSET host).

(** The second token, read where the first one ended, is no activate,
    update, transfer or mint tag. *)
Definition out_of_range_suboperation (host : Host) (s : CScript) : Prop :=
  match small_int_token s (op_pc (GetOp s 0)) with
  | Some v => IsAssetOp host v = false
  | None => True
  end.

(** Reading tokens from [pc], the pushed arguments are not followed by a
    drop opcode: the script ends (or its last push is cut short), or some
    other opcode comes first. *)
Inductive missing_terminator (s : CScript) : nat -> Prop :=
| script_ends pc :
    op_ok (GetOp s pc) = false ->
    missing_terminator s pc
| other_opcode pc :
    op_ok (GetOp s pc) = true ->
    op_code (GetOp s pc) <> OP_DROP ->
    op_code (GetOp s pc) <> OP_2DROP ->
    OP_PUSHDATA4 < op_code (GetOp s pc) ->
    missing_terminator s pc
| after_push pc :
    op_ok (GetOp s pc) = true ->
    0 <= op_code (GetOp s pc) <= OP_PUSHDATA4 ->
    missing_terminator s (op_pc (GetOp s pc)) ->
    missing_terminator s pc.

(** Where the argument vector starts: after the two leading tokens. *)
Definition args_start (s : CScript) : nat :=
  op_pc (GetOp s (op_pc (GetOp s 0))).

End Spec.

(** ** Expiration policy (section 4.4) *)

Module LeaseSpec.

Import Codec Validator.

(** The unprunable-expiration time the identity registry has recorded for
    an alias, when it has a non-null one. *)
Definition recorded_lease (node : Node) (alias : vch) : option Z :=
  adb ← paliasdb node;
  u ← aliasunprunable adb !! alias;
  if unprunable_IsNull u then None else Some (nExpireTime u).

(** [expiration(record)] *)
Definition expiration (node : Node) (record : CAsset) : Z :=
  match recorded_lease node (vchAlias record) with
  | Some t => t
  | None => medianTimePast node + 1
  end.

(** [is_expired(record, now)] *)
Definition is_expired (node : Node) (record : CAsset) : Prop :=
  medianTimePast node >= expiration node record.

End LeaseSpec.

(** ** Life-cycle validator (section 4.3) *)

Module LifeCycleSpec.

Import Codec Validator.

(** The target of a transfer has opted in to receiving assets. *)
Definition accepts_asset_transfers (host : Host) (alias : CAliasIndex) : Prop :=
  Z.land (nAcceptTransferFlags alias) (ACCEPT_TRANSFER_ASSETS host) <> 0.

End LifeCycleSpec.

(** * A concrete chain

    One host, one registry with two aliases and one stored asset, used to
    run the validator. The numeric values of the host's constants are
    arbitrary (every theorem below holds for all hosts), and so is the
    hash function, a polynomial checksum written out on four bytes. *)

Module Example.

Import Codec Validator.

Definition checksum (data : vch) : vch :=
  WriteLE 4 (fold_left (fun acc b => (31 * acc + byte_val b) mod 2 ^ 32) data 7).

Definition example_description (op : Z) : string * string :=
  if op =? 1 then ("Asset Activated", "Asset Activated")%string
  else if op =? 2 then ("Asset Updated", "Asset Updated")%string
  else if op =? 3 then ("Asset Transferred", "Asset Transferred")%string
  else (EmptyString, EmptyString).

Definition example_host : Host :=
  {| OP_SYSCOIN_ASSET := 5;
     OP_ASSET_ACTIVATE := 1;
     OP_ASSET_UPDATE := 2;
     OP_ASSET_TRANSFER := 3;
     OP_ASSET_MINT := 4;
     MAX_NAME_LENGTH := 256;
     MAX_VALUE_LENGTH := 1024;
     MAX_ID_LENGTH := 20;
     SYSCOIN_TX_VERSION := 29696;
     ACCEPT_TRANSFER_ASSETS := 2;
     HashHex := checksum;
     TransactionDescription := example_description;
     tags_distinct := ltac:(repeat split; discriminate) |}.

Definition alice : vch := list_byte_of_string "alice".
Definition bob : vch := list_byte_of_string "bob".
Definition asset_x : vch := list_byte_of_string "x".

(** The stored version of the asset: owned by alice, settled at height
    100 by transaction 11. *)
Definition stored_x : CAsset :=
  {| vchAsset := asset_x;
     vchAlias := alice;
     vchName := list_byte_of_string "Widget";
     vchPubData := list_byte_of_string "first";
     sCategory := list_byte_of_string "assets/tools";
     vchLinkAlias := [];
     nHeight := 100;
     txHash := 11 |}.

(** bob accepts asset transfers, alice does not; both hold a lease until
    time 2000. *)
Definition example_aliasdb : CAliasDB :=
  {| aliases := {[ alice := mkAliasIndex 0; bob := mkAliasIndex 2 ]};
     aliasunprunable :=
       {[ alice := mkUnprunable alice 2000; bob := mkUnprunable bob 2000 ]};
     aliastxhistory := [] |}.

Definition example_assetdb : CAssetDB :=
  {| asseti := {[ asset_x := stored_x ]};
     assetp := ∅;
     assetl := ∅;
     writable := true;
     asset_collection := Some ∅;
     assethistory_collection := Some ∅ |}.

Definition example_node : Node :=
  {| medianTimePast := 1000;
     paliasdb := Some example_aliasdb;
     passetdb := Some example_assetdb |}.

(** The transaction [hash] that carries [record] as its payload, with the
    commitment the payload hashes to. *)
Definition tx_carrying (hash : Z) (record : CAsset) : CTransaction :=
  {| nVersion := 29696;
     IsCoinBase := false;
     GetHash := hash;
     SyscoinData := Some (Serialize record, checksum (Serialize record)) |}.

Definition commitment (record : CAsset) : vch := checksum (Serialize record).

(** alice asks to transfer the asset to bob. *)
Definition transfer_to_bob : CAsset :=
  {| vchAsset := asset_x;
     vchAlias := alice;
     vchName := [];
     vchPubData := [];
     sCategory := [];
     vchLinkAlias := bob;
     nHeight := 100;
     txHash := 0 |}.

(** alice updates the asset: no public data, a new category. *)
Definition update_x : CAsset :=
  {| vchAsset := asset_x;
     vchAlias := alice;
     vchName := [];
     vchPubData := [];
     sCategory := list_byte_of_string "assets/new";
     vchLinkAlias := [];
     nHeight := 100;
     txHash := 0 |}.

(** alice activates a second asset. *)
Definition asset_y : vch := list_byte_of_string "y".

Definition activate_y : CAsset :=
  {| vchAsset := asset_y;
     vchAlias := alice;
     vchName := list_byte_of_string "Gadget";
     vchPubData := list_byte_of_string "data";
     sCategory := list_byte_of_string "assets";
     vchLinkAlias := [];
     nHeight := 100;
     txHash := 0 |}.

(** The same activation without a name. *)
Definition nameless_y : CAsset :=
  {| vchAsset := asset_y;
     vchAlias := alice;
     vchName := [];
     vchPubData := list_byte_of_string "data";
     sCategory := list_byte_of_string "assets";
     vchLinkAlias := [];
     nHeight := 100;
     txHash := 0 |}.

(** The version of the asset before transaction 11, and a store in which
    transaction 11 was accepted ahead of settlement: the snapshot is
    retained and the settlement lock is set. *)
Definition previous_x : CAsset :=
  {| vchAsset := asset_x;
     vchAlias := alice;
     vchName := list_byte_of_string "Widget";
     vchPubData := list_byte_of_string "zeroth";
     sCategory := list_byte_of_string "assets";
     vchLinkAlias := [];
     nHeight := 90;
     txHash := 10 |}.

Definition locked_assetdb : CAssetDB :=
  {| asseti := {[ asset_x := stored_x ]};
     assetp := {[ asset_x := previous_x ]};
     assetl := {[ asset_x := true ]};
     writable := true;
     asset_collection := Some ∅;
     assethistory_collection := Some ∅ |}.

Definition locked_node : Node :=
  {| medianTimePast := 1000;
     paliasdb := Some example_aliasdb;
     passetdb := Some locked_assetdb |}.

(** The chain after the leases of both aliases have run out. *)
Definition late_node : Node :=
  {| medianTimePast := 3000;
     paliasdb := Some example_aliasdb;
     passetdb := Some example_assetdb |}.

(** The chain state a call leaves behind, and its asset store. *)
Definition node_after (r : Result) : Node :=
  match r with
  | Returned _ _ node => node
  | UndefinedBehaviour => example_node
  end.

Definition assetdb_of (node : Node) : CAssetDB :=
  default example_assetdb (passetdb node).

(** Block-time validation, at height 101, of the update and of the
    activation. *)
Definition update_run : Result :=
  CheckAssetInputs example_host (tx_carrying 22 update_x) 2
                   [commitment update_x] [alice] false 101 false
                   example_node EmptyString.

Definition activate_run : Result :=
  CheckAssetInputs example_host (tx_carrying 23 activate_y) 1
                   [commitment activate_y] [alice] false 101 false
                   example_node EmptyString.

(** The same update at height 101 on the store that carries the
    settlement lock of transaction 11. *)
Definition locked_update_run : Result :=
  CheckAssetInputs example_host (tx_carrying 22 update_x) 2
                   [commitment update_x] [alice] false 101 false
                   locked_node EmptyString.

(** Scripts: the two tags of an asset activation followed by one pushed
    argument, with and without the closing drops. *)
Definition script_without_drop : Script.CScript :=
  [x55; x51; x02; x0a; x0b].

Definition script_with_drop : Script.CScript :=
  [x55; x51; x02; x0a; x0b; x6d; x75].

End Example.

(** * Script codec: transactions, prefix removal and the scripts the RPC
    commands build *)

Module ScriptTx.

Import Script.

(** ** Building scripts *)

(** Modelled from the spec: [CScript::EncodeOP_N] ([script.h]) is not
    part of the sources at hand. It asserts that the number lies between
    0 and 16 and encodes it as one opcode, counted from [OP_1] when it is
    not zero. *)
Definition EncodeOP_N (n : Z) : run Z :=
  if (0 <=? n) && (n <=? 16)
  then if n =? 0 then Returns OP_0 else Returns (OP_1 + (n - 1))
  else AssertionFailed.

(** Modelled from the spec: [CScript::operator<<] for a byte vector
    ([script.h]) is not part of the sources at hand. The vector is pushed
    with the shortest of the four push forms the tokenizer reads: its
    length as the opcode itself, or [OP_PUSHDATA1], [OP_PUSHDATA2] or
    [OP_PUSHDATA4] followed by the length on 1, 2 or 4 bytes. *)
Definition push_data (b : vch) : CScript :=
  let n := Z.of_nat (length b) in
  (if n <? OP_PUSHDATA1 then [byte_of n]
   else if n <=? 255 then [byte_of OP_PUSHDATA1; byte_of n]
   else if n <=? 65535 then byte_of OP_PUSHDATA2 :: WriteLE 2 n
   else byte_of OP_PUSHDATA4 :: WriteLE 4 n)
  ++ b.

Section AssetTx.

Variable host : Host.

(** The output script that [assetnew], [assetupdate] and [assettransfer]
    build: the service tag, the sub-operation, the hash of the payload,
    two drops, and then the script that pays the owner. *)
Definition asset_script (op : Z) (vchHashAsset : vch)
    (scriptPubKeyOrig : CScript) : run CScript :=
  match EncodeOP_N (OP_SYSCOIN_ASSET host), EncodeOP_N op with
  | Returns tag, Returns sub =>
      Returns ([byte_of tag; byte_of sub]
               ++ push_data vchHashAsset
               ++ [byte_of OP_2DROP; byte_of OP_DROP]
               ++ scriptPubKeyOrig)
  | _, _ => AssertionFailed
  end.

(** The script [asset_script] returns, spelled out, and the position of
    its first drop. *)
Definition built (op : Z) (h : vch) (orig : CScript) : CScript :=
  [byte_of (OP_1 + (OP_SYSCOIN_ASSET host - 1)); byte_of (OP_1 + (op - 1))]
  ++ push_data h ++ [byte_of OP_2DROP; byte_of OP_DROP] ++ orig.

Definition drops_at (h : vch) : nat := (2 + length (push_data h))%nat.

(** ** [RemoveAssetScriptPrefix]: the return value and [scriptOut]. The
    local [op] is written before it is read, so its initial value does not
    matter. *)
Definition RemoveAssetScriptPrefix (scriptIn scriptOut : CScript)
  : run (bool * CScript) :=
  match DecodeAssetScript_at host scriptIn 0 0 with
  | Returns d =>
      if negb (d_ret d) then Returns (false, scriptOut)
      else Returns (true, skipn (d_pc d) scriptIn)
  | AssertionFailed => AssertionFailed
  | OutOfFuel => OutOfFuel
  end.

(** ** [DecodeAssetTx] over the output scripts of a transaction, in index
    order. The result is the return value and the references [op], [nOut]
    and [vvch]. *)
Record DecodedTx := mkDecodedTx {
  t_found : bool;
  t_op : Z;
  t_nOut : Z;
  t_vvch : list vch
}.

Fixpoint DecodeAssetTx_loop (vout : list CScript) (i : nat) (op nOut : Z)
    (vvch : list vch) : run DecodedTx :=
  match vout with
  | [] => Returns (mkDecodedTx false op nOut vvch)
  | out :: vout' =>
      match DecodeAssetScript host out op with
      | Returns d =>
          if d_ret d
          then Returns (mkDecodedTx true (d_op d) (Z.of_nat i) (d_vvch d))
          else DecodeAssetTx_loop vout' (S i) (d_op d) nOut vvch
      | AssertionFailed => AssertionFailed
      | OutOfFuel => OutOfFuel
      end
  end.

Definition DecodeAssetTx (vout : list CScript) (op nOut : Z)
    (vvch : list vch) : run DecodedTx :=
  match DecodeAssetTx_loop vout 0 op nOut vvch with
  | Returns r =>
      if negb (t_found r)
      then Returns (mkDecodedTx false (t_op r) (t_nOut r) [])
      else Returns r
  | AssertionFailed => AssertionFailed
  | OutOfFuel => OutOfFuel
  end.

End AssetTx.

(** A script is an asset script when the decoder accepts it. *)
Definition decodes (host : Host) (s : CScript) : Prop :=
  exists d, DecodeAssetScript host s 0 = Returns d /\ d_ret d = true.

End ScriptTx.

(** * Transactions: the payload and the script together *)

Module TxCodec.

Import Script Codec Validator ScriptTx.

Section Parse.

Variable host : Host.

(** Modelled from the spec: the service type [ASSET] is declared in
    [alias.h]; its value is left open. *)
Variable ASSET : Z.

(** [CAsset::UnserializeFromTx]: the return value and the object it leaves
    in [*this]. *)
Definition UnserializeFromTx (tx : CTransaction) : bool * CAsset :=
  match SyscoinData tx with
  | None => (false, nullAsset)
  | Some (vchData, vchHash) =>
      let '(ok, a) := UnserializeFromData host vchData vchHash in
      if negb ok then (false, a) else (true, a)
  end.

(** [DecodeAndParseAssetTx]: the return value and the references [op],
    [nOut], [vvch] and [type]. The output scripts of the transaction are
    passed beside it, since [CTransaction] carries only what the validator
    reads. *)
Definition DecodeAndParseAssetTx (tx : CTransaction) (vout : list CScript)
    (op nOut : Z) (vvch : list vch) (type : Z)
  : run (bool * DecodedTx * Z) :=
  match DecodeAssetTx host vout op nOut vvch with
  | Returns r =>
      let decode := t_found r in
      let '(parse, _) := UnserializeFromTx tx in
      if decode && parse then Returns (true, r, ASSET)
      else Returns (false, r, type)
  | AssertionFailed => AssertionFailed
  | OutOfFuel => OutOfFuel
  end.

End Parse.

End TxCodec.

(** * The cleanup sweep *)

Module Sweep.

Import Codec Validator.

(** ** Erasing from the read-model mirror

    [EraseAssetIndexHistory(const std::vector<unsigned char>&, bool)]
    removes every history document of the asset; [cleanup] only selects
    the write concern of the request. *)
Definition EraseAssetIndexHistory (db : CAssetDB) (vchAsset : vch)
    (cleanup : bool) : CAssetDB :=
  match assethistory_collection db with
  | None => db
  | Some h =>
      mkAssetDB (asseti db) (assetp db) (assetl db) (writable db)
                (asset_collection db)
                (Some (filter (fun doc => Codec.vchAsset (doc.2).1 <> vchAsset)
                              h))
  end.

Definition EraseAssetIndex (db : CAssetDB) (vchAsset : vch)
    (cleanup : bool) : CAssetDB :=
  match asset_collection db with
  | None => db
  | Some c =>
      let db := mkAssetDB (asseti db) (assetp db) (assetl db) (writable db)
                          (Some (delete vchAsset c))
                          (assethistory_collection db) in
      EraseAssetIndexHistory db vchAsset cleanup
  end.

(** Modelled from the spec: [CAssetDB::EraseAsset] is declared in
    [asset.h]. It erases the current record of the id and cascades to the
    mirror and its history; like the other accessors it reports failure,
    and leaves the records alone, when the database refuses the erase. *)
Definition EraseAsset (db : CAssetDB) (vchAsset : vch) (cleanup : bool)
  : bool * CAssetDB :=
  let '(eraseState, db) :=
    if writable db
    then (true, mkAssetDB (delete vchAsset (asseti db)) (assetp db)
                          (assetl db) (writable db) (asset_collection db)
                          (assethistory_collection db))
    else (false, db) in
  (eraseState, EraseAssetIndex db vchAsset cleanup).

(** ** [CAssetDB::CleanupDatabase] *)

(** Modelled from the spec: the cursor ([CDBIterator]) and the database
    accessors the loop calls are declared in [dbwrapper.h] and [asset.h],
    which are not part of the sources at hand. The cursor runs over the
    keys the database held when the sweep started; [cursor] is that
    sequence, one [Visit] for every position. A visit tells what the
    iteration meets: whether an interruption of the thread has been
    requested when [interruption_point] is reached, the key [GetKey]
    yields, a prefix and an id ([None] when it returns false), and the
    call of the guarded block, if any, that raises a [std::exception]:
    [GetKey], the test made of [GetAsset] and [GetAssetExpiration],
    [EraseAsset], which then has erased nothing, or [Next]. *)
Inductive Stage := at_GetKey | at_GetAsset | at_EraseAsset | at_Next.

Record Visit := mkVisit {
  interruption_requested : bool;
  cursor_key : option (string * vch);
  throws : option Stage
}.

Definition raised (v : Visit) (s : Stage) : bool :=
  match throws v, s with
  | Some at_GetKey, at_GetKey
  | Some at_GetAsset, at_GetAsset
  | Some at_EraseAsset, at_EraseAsset
  | Some at_Next, at_Next => true
  | _, _ => false
  end.

(** [servicesCleaned] is an [int]: incrementing it at [INT_MAX] is an
    overflow, which the language leaves undefined. *)
Definition INT_MAX : Z := 2 ^ 31 - 1.

(** How the sweep ends: it returns, with the store and the counter it
    leaves; the interruption leaves the function from
    [interruption_point], outside the guarded block; or the counter
    overflows. *)
Inductive Outcome :=
| Done (ret : bool) (db : CAssetDB) (servicesCleaned : Z)
| Interrupted (db : CAssetDB) (servicesCleaned : Z)
| Overflow.

(** One iteration either moves the cursor on or leaves the function: by
    the interruption, by the exception handler, which returns
    [error(...)], that is false, or by the overflow. [txPos] lives across
    the iterations. *)
Inductive Step :=
| Advance (db : CAssetDB) (txPos : CAsset) (servicesCleaned : Z)
| Leave (o : Outcome).

(** [pcursor->Next()], the last call of the guarded block. *)
Definition CleanupDatabase_next (v : Visit) (db : CAssetDB) (txPos : CAsset)
    (servicesCleaned : Z) : Step :=
  if raised v at_Next then Leave (Done false db servicesCleaned)
  else Advance db txPos servicesCleaned.

(** The body of the loop. *)
Definition CleanupDatabase_body (medianTime : Z) (adb : option CAliasDB)
    (v : Visit) (db : CAssetDB) (txPos : CAsset) (servicesCleaned : Z)
  : Step :=
  if interruption_requested v then Leave (Interrupted db servicesCleaned)
  else if raised v at_GetKey then Leave (Done false db servicesCleaned)
  else
    match cursor_key v with
    | Some key =>
        if String.eqb key.1 "asseti" then
          if raised v at_GetAsset then Leave (Done false db servicesCleaned)
          else
            let node := mkNode medianTime adb (Some db) in
            let '(found, txPos) := GetAsset node key.2 txPos in
            if negb found
               || (to_uint64 medianTime >=? GetAssetExpiration node txPos)
            then
              if servicesCleaned >=? INT_MAX then Leave Overflow
              else
                let servicesCleaned := servicesCleaned + 1 in
                if raised v at_EraseAsset
                then Leave (Done false db servicesCleaned)
                else
                  let '(_, db) := EraseAsset db key.2 true in
                  CleanupDatabase_next v db txPos servicesCleaned
            else CleanupDatabase_next v db txPos servicesCleaned
        else CleanupDatabase_next v db txPos servicesCleaned
    | None => CleanupDatabase_next v db txPos servicesCleaned
    end.

(** The loop: it ends with [true] when the cursor is exhausted. *)
Fixpoint CleanupDatabase_scan (medianTime : Z) (adb : option CAliasDB)
    (cursor : list Visit) (db : CAssetDB) (txPos : CAsset)
    (servicesCleaned : Z) : Outcome :=
  match cursor with
  | [] => Done true db servicesCleaned
  | v :: cursor' =>
      match CleanupDatabase_body medianTime adb v db txPos servicesCleaned with
      | Advance db txPos servicesCleaned =>
          CleanupDatabase_scan medianTime adb cursor' db txPos servicesCleaned
      | Leave o => o
      end
  end.

Definition CleanupDatabase (medianTime : Z) (adb : option CAliasDB)
    (cursor : list Visit) (db : CAssetDB) (servicesCleaned : Z) : Outcome :=
  CleanupDatabase_scan medianTime adb cursor db nullAsset servicesCleaned.

(** The store and the counter a sweep leaves, when it leaves any. *)
Definition left_behind (o : Outcome) : option (CAssetDB * Z) :=
  match o with
  | Done _ db servicesCleaned => Some (db, servicesCleaned)
  | Interrupted db servicesCleaned => Some (db, servicesCleaned)
  | Overflow => None
  end.

(** ** Vocabulary

    The cursor visits every current record of the store; a cursor visits
    current records of the store only. *)
Definition visits (cursor : list Visit) (id : vch) : Prop :=
  exists v, In v cursor /\ cursor_key v = Some ("asseti"%string, id).

Definition visits_all (cursor : list Visit) (db : CAssetDB) : Prop :=
  forall id, is_Some (asseti db !! id) -> visits cursor id.


(** Nothing disturbs the sweep: no interruption is requested and no call
    raises. *)
Definition undisturbed (cursor : list Visit) : Prop :=
  forall v, In v cursor ->
            interruption_requested v = false /\ throws v = None.

(** A visit the sweep counts: its key is a current-record key whose id
    does not read back through [GetAsset]. *)
Definition reads_back (medianTime : Z) (adb : option CAliasDB)
    (db : CAssetDB) (id : vch) : bool :=
  (GetAsset (mkNode medianTime adb (Some db)) id nullAsset).1.

Definition swept (medianTime : Z) (adb : option CAliasDB) (db : CAssetDB)
    (v : Visit) : bool :=
  match cursor_key v with
  | Some key =>
      String.eqb key.1 "asseti" && negb (reads_back medianTime adb db key.2)
  | None => false
  end.

(** One store is another less some current records that did not read
    back. *)
Definition pruned (medianTime : Z) (adb : option CAliasDB)
    (db db' : CAssetDB) : Prop :=
  writable db' = writable db
  /\ (forall id r, asseti db' !! id = Some r -> asseti db !! id = Some r)
  /\ (forall id, reads_back medianTime adb db id = true ->
                 asseti db' !! id = asseti db !! id).

Definition to_sweep (medianTime : Z) (adb : option CAliasDB) (db : CAssetDB)
    (cursor : list Visit) : Z :=
  Z.of_nat (length (List.filter (swept medianTime adb db) cursor)).

End Sweep.

(** * What the RPC layer shows of a stored asset *)

Module Rpc.

Import Codec Validator.

(** The values [BuildAssetJson] puts into a [UniValue] object: strings
    (by their bytes, as [stringFromVch] copies them), the hexadecimal
    rendering of a hash (by the hash), numbers and booleans. An object is
    the sequence of its pairs. *)
Inductive UniValue :=
| VSTR (s : vch)
| VHEX (h : Z)
| VNUM (n : Z)
| VBOOL (b : bool).

Definition UniObject := list (string * UniValue).

(** [find_value]: the first pair under the key. *)
Fixpoint find_value (o : UniObject) (key : string) : option UniValue :=
  match o with
  | [] => None
  | (k, v) :: o' => if String.eqb k key then Some v else find_value o' key
  end.

(** Modelled from the spec: the active chain ([chain.h]) is the sequence
    of its blocks by height, each with its median time past;
    [chainActive.Height()] is the height of the tip, [-1] for an empty
    chain, and [chainActive[h]] is null outside the chain. *)
Definition CChain := list Z.

Definition Height (chainActive : CChain) : Z :=
  Z.of_nat (length chainActive) - 1.

Definition block_at (chainActive : CChain) (nHeight : Z) : option Z :=
  if (nHeight <? 0) || (nHeight >=? Z.of_nat (length chainActive))
  then None
  else nth_error chainActive (Z.to_nat nHeight).

(** Conversions to [int] and to [int64_t]. *)
Definition to_int (z : Z) : Z := (z + 2 ^ 31) mod 2 ^ 32 - 2 ^ 31.
Definition to_int64 (z : Z) : Z := (z + 2 ^ 63) mod 2 ^ 64 - 2 ^ 63.

(** [BuildAssetJson]: the return value and the object. *)
Definition BuildAssetJson (chainActive : CChain) (node : Node)
    (asset : CAsset) (oAsset : UniObject) : bool * UniObject :=
  let oAsset := oAsset ++ [("_id"%string, VSTR (vchAsset asset))] in
  let oAsset := oAsset ++ [("txid"%string, VHEX (txHash asset))] in
  let oAsset := oAsset ++ [("height"%string, VNUM (to_int (nHeight asset)))] in
  let nTime :=
    if to_uint64 (Height chainActive) >=? nHeight asset then
      match block_at chainActive (to_int (nHeight asset)) with
      | Some medianTime => medianTime
      | None => 0
      end
    else 0 in
  let oAsset := oAsset ++ [("time"%string, VNUM nTime)] in
  let oAsset := oAsset ++ [("name"%string, VSTR (vchName asset))] in
  let oAsset := oAsset ++ [("publicvalue"%string, VSTR (vchPubData asset))] in
  let oAsset := oAsset ++ [("category"%string, VSTR (sCategory asset))] in
  let oAsset := oAsset ++ [("alias"%string, VSTR (vchAlias asset))] in
  let expired_time := to_int64 (GetAssetExpiration node asset) in
  let expired :=
    if expired_time <=? medianTimePast node then true else false in
  let oAsset := oAsset ++ [("expires_on"%string, VNUM expired_time)] in
  let oAsset := oAsset ++ [("expired"%string, VBOOL expired)] in
  (true, oAsset).

(** The outcome of an RPC command: its result, or the message of the
    [runtime_error] it throws. *)
Inductive rpc (A : Type) :=
| Done (a : A)
| Throws (message : string).
Arguments Done {A} a.
Arguments Throws {A} message.

Definition nl : string := String (Ascii.ascii_of_nat 10) EmptyString.

Definition assetinfo_help : string :=
  ("assetinfo <guid>" ++ nl
   ++ "Show stored values of a single asset and its ." ++ nl)%string.

Definition ERR_5536 : string :=
  "SYSCOIN_ASSET_RPC_ERROR: ERRCODE: 5536 - Failed to read from asset DB".

(** [assetinfo]; the parameters are the byte strings [vchFromValue] makes
    of them. *)
Definition assetinfo (chainActive : CChain) (node : Node)
    (params : list vch) (fHelp : bool) : rpc UniObject :=
  if fHelp || (1 >? Z.of_nat (length params)) then Throws assetinfo_help
  else
    let vchAsset := default [] (params !! 0%nat) in
    let oAsset : UniObject := [] in
    match passetdb node with
    | None => Throws ERR_5536
    | Some db =>
        match ReadAsset db vchAsset with
        | None => Throws ERR_5536
        | Some txPos =>
            let '(built, oAsset') :=
              BuildAssetJson chainActive node txPos oAsset in
            if negb built then Done [] else Done oAsset'
        end
    end.

End Rpc.

(** * More of the concrete chain

    Scripts as the RPC commands build them, a store for the sweep, and
    further candidates for the validator. *)

Module MoreExamples.

Import Codec Validator Example.

(** A pay-to-pubkey-hash script, and a pay-to-pubkey script with a short
    key. *)
Definition pay_to_hash_tail : Script.CScript :=
  [xa9; x14; x01; x02; x03; x04; x05; x06; x07; x08; x09; x0a;
   x0b; x0c; x0d; x0e; x0f; x10; x11; x12; x13; x14; x88; xac].

Definition pay_to_hash : Script.CScript := x76 :: pay_to_hash_tail.

Definition short_key : vch := [x02; x11; x22].

(** The output script of the activation of the second asset. *)
Definition activate_y_script : Script.CScript :=
  ScriptTx.built example_host 1 (commitment activate_y) pay_to_hash.

(** The value of the service type. *)
Definition example_ASSET : Z := 3.

(** carol holds no lease: the registry does not know her. Her asset and
    the asset of alice in one store, late on the chain. *)
Definition carol : vch := list_byte_of_string "carol".
Definition asset_z : vch := list_byte_of_string "z".

Definition unleased_z : CAsset :=
  {| vchAsset := asset_z;
     vchAlias := carol;
     vchName := list_byte_of_string "Gizmo";
     vchPubData := [];
     sCategory := list_byte_of_string "assets";
     vchLinkAlias := [];
     nHeight := 100;
     txHash := 12 |}.

Definition sweep_assetdb : CAssetDB :=
  {| asseti := {[ asset_x := stored_x; asset_z := unleased_z ]};
     assetp := {[ asset_x := previous_x ]};
     assetl := ∅;
     writable := true;
     asset_collection := Some ∅;
     assethistory_collection := Some ∅ |}.

Definition sweep_node : Node :=
  {| medianTimePast := 3000;
     paliasdb := Some example_aliasdb;
     passetdb := Some sweep_assetdb |}.

(** The cursor of a sweep of that store: its three keys, and nothing that
    disturbs the scan. *)
Definition quiet (key : string * vch) : Sweep.Visit :=
  Sweep.mkVisit false (Some key) None.

Definition sweep_cursor : list Sweep.Visit :=
  [quiet ("asseti"%string, asset_x); quiet ("asseti"%string, asset_z);
   quiet ("assetp"%string, asset_x)].

(** The store the sweep leaves: the asset of alice, whose lease has run
    out, is gone. *)
Definition swept_assetdb : CAssetDB :=
  {| asseti := {[ asset_z := unleased_z ]};
     assetp := {[ asset_x := previous_x ]};
     assetl := ∅;
     writable := true;
     asset_collection := Some ∅;
     assethistory_collection := Some ∅ |}.

(** The same cursor when the erase of the first record raises, and when
    an interruption is requested at the second position. *)
Definition failing_cursor : list Sweep.Visit :=
  [Sweep.mkVisit false (Some ("asseti"%string, asset_x))
                 (Some Sweep.at_EraseAsset);
   quiet ("asseti"%string, asset_z)].

Definition interrupted_cursor : list Sweep.Visit :=
  [quiet ("asseti"%string, asset_x);
   Sweep.mkVisit true (Some ("asseti"%string, asset_z)) None].

(** The update validated without leave to write. *)
Definition dry_update_run : Result :=
  CheckAssetInputs example_host (tx_carrying 22 update_x) 2
                   [commitment update_x] [alice] false 101 true
                   example_node EmptyString.

(** A store that refuses every write, and the update run against it. *)
Definition readonly_assetdb : CAssetDB :=
  {| asseti := {[ asset_x := stored_x ]};
     assetp := ∅;
     assetl := ∅;
     writable := false;
     asset_collection := Some ∅;
     assethistory_collection := Some ∅ |}.

Definition readonly_node : Node :=
  {| medianTimePast := 1000;
     paliasdb := Some example_aliasdb;
     passetdb := Some readonly_assetdb |}.

Definition readonly_update_run : Result :=
  CheckAssetInputs example_host (tx_carrying 22 update_x) 2
                   [commitment update_x] [alice] false 101 false
                   readonly_node EmptyString.

(** bob signs a record for the asset of alice. *)
Definition claim_by_bob : CAsset :=
  {| vchAsset := asset_x;
     vchAlias := bob;
     vchName := [];
     vchPubData := list_byte_of_string "taken";
     sCategory := [];
     vchLinkAlias := [];
     nHeight := 100;
     txHash := 0 |}.

(** alice asks to transfer the asset to carol, whom the registry does not
    know. *)
Definition transfer_to_carol : CAsset :=
  {| vchAsset := asset_x;
     vchAlias := alice;
     vchName := [];
     vchPubData := [];
     sCategory := [];
     vchLinkAlias := carol;
     nHeight := 100;
     txHash := 0 |}.

(** alice activates the id of her asset again. *)
Definition reactivate_x : CAsset :=
  {| vchAsset := asset_x;
     vchAlias := alice;
     vchName := list_byte_of_string "Widget II";
     vchPubData := list_byte_of_string "second";
     sCategory := list_byte_of_string "assets";
     vchLinkAlias := [];
     nHeight := 100;
     txHash := 0 |}.

End MoreExamples.

(** * Properties *)

Lemma byte_val_range (b : byte) : 0 <= byte_val b < 256.
Proof.
  unfold byte_val. pose proof (Byte.to_N_bounded b) as Hb. lia.
Qed.

Lemma byte_val_of (z : Z) : byte_val (byte_of z) = z mod 256.
Proof.
  unfold byte_val, byte_of.
  assert (Hr : 0 <= z mod 256 < 256) by (apply Z.mod_pos_bound; lia).
  destruct (Byte.of_N (Z.to_N (z mod 256))) as [b|] eqn:E.
  - apply Byte.to_of_N in E. rewrite E. lia.
  - apply Byte.of_N_None_iff in E. lia.
Qed.

Lemma ReadLE_nonneg (bs : list byte) : 0 <= ReadLE bs.
Proof.
  induction bs as [|b bs IH]; simpl; [lia|].
  pose proof (byte_val_range b). lia.
Qed.

(** ** Script codec *)

Module ScriptFacts.

Import Script Spec.

(** A successful read moves the cursor forward and keeps it inside the
    script. *)
Lemma GetOp_advances (s : CScript) (pc : nat) :
  op_ok (GetOp s pc) = true ->
  (pc < op_pc (GetOp s pc) <= length s)%nat.
Proof.
  unfold GetOp, bytes_left.
  destruct (nth_error s pc) as [b|] eqn:Hb; [|discriminate].
  assert (Hlt : (pc < length s)%nat)
    by (apply nth_error_Some; congruence).
  pose proof (byte_val_range b) as Hr.
  destruct (byte_val b <=? OP_PUSHDATA4) eqn:Hpush; simpl; [|lia].
  set (width := if byte_val b <? OP_PUSHDATA1 then 0%nat
                else if byte_val b =? OP_PUSHDATA1 then 1%nat
                else if byte_val b =? OP_PUSHDATA2 then 2%nat else 4%nat).
  destruct (_ <? Z.of_nat width) eqn:Hw; simpl; [discriminate|].
  set (nSize := if byte_val b <? OP_PUSHDATA1 then byte_val b else ReadLE _).
  destruct (_ <? nSize) eqn:Hn; simpl; [discriminate|].
  intros _.
  assert (0 <= nSize).
  { subst nSize. destruct (byte_val b <? OP_PUSHDATA1); [lia|].
    apply ReadLE_nonneg. }
  apply Z.ltb_ge in Hw, Hn. lia.
Qed.

Section Decoding.

Variable host : Host.

Lemma read_args_returns (s : CScript) :
  forall fuel pc vvch,
    (pc <= length s)%nat -> (length s - pc < fuel)%nat ->
    exists found pc' opcode vvch',
      read_args fuel s pc vvch = Returns (found, pc', opcode, vvch')
      /\ (found = true -> (pc < pc' <= length s)%nat).
Proof.
  induction fuel as [|fuel IH]; intros pc vvch Hpc Hfuel; [lia|].
  simpl. destruct (op_ok (GetOp s pc)) eqn:Hok; simpl.
  - pose proof (GetOp_advances s pc Hok) as Hadv.
    destruct (is_drop (op_code (GetOp s pc))); simpl.
    + eexists _, _, _, _. split; [reflexivity|]. intros _. exact Hadv.
    + destruct (is_push (op_code (GetOp s pc))); simpl.
      * destruct (IH (op_pc (GetOp s pc)) (vvch ++ [op_vch (GetOp s pc)]))
          as (f & p & o & v & Heq & Hp); [lia|lia|].
        exists f, p, o, v. split; [exact Heq|]. intros Hf.
        specialize (Hp Hf). lia.
      * eexists _, _, _, _. split; [reflexivity|]. discriminate.
  - eexists _, _, _, _. split; [reflexivity|]. discriminate.
Qed.

Lemma skip_drops_returns (s : CScript) :
  forall fuel pc opcode,
    (pc <= length s)%nat -> (length s - pc < fuel)%nat ->
    exists pc', skip_drops fuel s pc opcode = Returns pc'.
Proof.
  induction fuel as [|fuel IH]; intros pc opcode Hpc Hfuel; [lia|].
  simpl. destruct (is_drop opcode); [|eauto].
  destruct (op_ok (GetOp s pc)) eqn:Hok; simpl; [|eauto].
  pose proof (GetOp_advances s pc Hok).
  apply IH; lia.
Qed.

Lemma DecodeOP_N_small (opcode : Z) :
  (opcode <? OP_1) || (opcode >? OP_16) = false ->
  DecodeOP_N opcode = Returns (opcode - (OP_1 - 1)).
Proof.
  unfold DecodeOP_N, OP_0, OP_1, OP_16. intros H.
  apply orb_false_elim in H as [H1 H2].
  apply Z.ltb_ge in H1. rewrite Z.gtb_ltb in H2. apply Z.ltb_ge in H2.
  destruct (opcode =? 0) eqn:E0; [lia|].
  destruct (81 <=? opcode) eqn:E1; [|lia].
  destruct (opcode <=? 96) eqn:E2; [|lia].
  simpl. f_equal.
Qed.

(** The decoder is total: it neither runs out of steps nor trips the
    assertion of [DecodeOP_N]. *)
Lemma DecodeAssetScript_returns (s : CScript) (op : Z) :
  exists d, DecodeAssetScript host s op = Returns d.
Proof.
  unfold DecodeAssetScript, DecodeAssetScript_at.
  destruct (op_ok (GetOp s 0)) eqn:Hok1; cbn [negb]; [|eauto].
  destruct (_ || _) eqn:Hr1; [eauto|].
  rewrite (DecodeOP_N_small _ Hr1).
  destruct (_ =? OP_SYSCOIN_ASSET host); cbn [negb]; [|eauto].
  pose proof (GetOp_advances s 0 Hok1) as Ha1.
  set (pc1 := op_pc (GetOp s 0)) in *.
  destruct (op_ok (GetOp s pc1)) eqn:Hok2; cbn [negb]; [|eauto].
  destruct ((op_code (GetOp s pc1) <? OP_1) || _) eqn:Hr2; [eauto|].
  rewrite (DecodeOP_N_small _ Hr2).
  destruct (IsAssetOp host _); cbn [negb]; [|eauto].
  pose proof (GetOp_advances s pc1 Hok2) as Ha2.
  set (pc2 := op_pc (GetOp s pc1)) in *.
  destruct (read_args_returns s (S (length s)) pc2 [])
    as (f & p & o & v & Heq & Hp); [lia|lia|].
  rewrite Heq. destruct f; [|eauto].
  specialize (Hp eq_refl).
  destruct (skip_drops_returns s (S (length s)) p o) as (p' & Hs); [lia|lia|].
  rewrite Hs. eauto.
Qed.

Lemma read_args_missing_terminator (s : CScript) (pc : nat) :
  missing_terminator s pc ->
  forall fuel vvch found pc' opcode vvch',
    read_args fuel s pc vvch = Returns (found, pc', opcode, vvch') ->
    found = false.
Proof.
  induction 1 as [pc Hok | pc Hok Hd Hd2 Hbig | pc Hok Hpush _ IH];
    intros [|fuel] vvch found pc' opcode vvch'; simpl; try discriminate.
  - rewrite Hok. simpl. congruence.
  - rewrite Hok. simpl. unfold is_drop, is_push.
    destruct (Z.eqb_spec (op_code (GetOp s pc)) OP_DROP); [contradiction|].
    destruct (Z.eqb_spec (op_code (GetOp s pc)) OP_2DROP); [contradiction|].
    simpl.
    destruct (op_code (GetOp s pc) <=? OP_PUSHDATA4) eqn:E;
      [apply Z.leb_le in E; lia|].
    rewrite andb_false_r. simpl. congruence.
  - rewrite Hok. simpl. unfold is_drop, is_push.
    unfold OP_PUSHDATA4, OP_DROP, OP_2DROP in *.
    destruct (Z.eqb_spec (op_code (GetOp s pc)) 117); [lia|].
    destruct (Z.eqb_spec (op_code (GetOp s pc)) 109); [lia|].
    simpl.
    destruct (0 <=? op_code (GetOp s pc)) eqn:E0; [|lia].
    destruct (op_code (GetOp s pc) <=? 78) eqn:E1; [|lia].
    simpl. apply IH.
Qed.

(** C9. A script whose first token is no small-integer push naming the
    asset protocol, or whose second token is no activate, update, transfer
    or mint tag, or whose pushed arguments are not followed by a drop
    opcode, is decoded to the plain answer false: [DecodeAssetScript]
    returns, with return value [false], and neither fails an assertion nor
    loops. *)
Theorem DecodeAssetScript_not_this_protocol (s : CScript) (op : Z) :
  unknown_leading_opcode host s
  \/ out_of_range_suboperation host s
  \/ missing_terminator s (args_start s) ->
  exists d, DecodeAssetScript host s op = Returns d /\ d_ret d = false.
Proof.
  intros Hbad.
  destruct (DecodeAssetScript_returns s op) as [d Hd].
  exists d. split; [exact Hd|].
  revert Hd. unfold DecodeAssetScript, DecodeAssetScript_at.
  unfold unknown_leading_opcode, out_of_range_suboperation, args_start,
    small_int_token in Hbad.
  destruct (op_ok (GetOp s 0)) eqn:Hok1; cbn [negb];
    [|intros [= <-]; reflexivity].
  destruct (_ || _) eqn:Hr1; [intros [= <-]; reflexivity|].
  rewrite (DecodeOP_N_small _ Hr1).
  destruct (Z.eqb_spec (op_code (GetOp s 0) - (OP_1 - 1))
              (OP_SYSCOIN_ASSET host))
    as [Htag|Htag]; cbn [negb]; [|intros [= <-]; reflexivity].
  set (pc1 := op_pc (GetOp s 0)) in *.
  destruct (op_ok (GetOp s pc1)) eqn:Hok2; cbn [negb];
    [|intros [= <-]; reflexivity].
  destruct ((op_code (GetOp s pc1) <? OP_1) || _) eqn:Hr2;
    [intros [= <-]; reflexivity|].
  rewrite (DecodeOP_N_small _ Hr2).
  destruct (IsAssetOp host _) eqn:Hop; cbn [negb]; [|intros [= <-]; reflexivity].
  apply orb_false_elim in Hr1 as [H1a H1b], Hr2 as [H2a H2b].
  rewrite Z.gtb_ltb in H1b, H2b.
  apply Z.ltb_ge in H1a, H1b, H2a, H2b.
  apply Z.leb_le in H1a, H1b, H2a, H2b.
  rewrite H1a, H1b, H2a, H2b in Hbad. simpl in Hbad.
  destruct Hbad as [Hbad | [Hbad | Hbad]];
    [exfalso; apply Hbad; congruence | congruence |].
  destruct (read_args (S (length s)) s _ []) as [[[[f p] o] v]| |] eqn:Hra;
    try discriminate.
  apply (read_args_missing_terminator _ _ Hbad) in Hra. subst f.
  intros [= <-]. reflexivity.
Qed.

End Decoding.

End ScriptFacts.

(** ** Record codec *)

Module CodecFacts.

Import Codec.

Lemma WriteLE_length (w : nat) : forall v, length (WriteLE w v) = w.
Proof. induction w as [|w IH]; intros v; simpl; [reflexivity|]. now rewrite IH. Qed.

Lemma ReadLE_WriteLE (w : nat) :
  forall v, 0 <= v < 256 ^ Z.of_nat w -> ReadLE (WriteLE w v) = v.
Proof.
  induction w as [|w IH]; intros v Hv.
  - simpl in *. lia.
  - cbn [WriteLE ReadLE]. rewrite byte_val_of.
    rewrite Nat2Z.inj_succ, Z.pow_succ_r in Hv by lia.
    rewrite IH.
    + pose proof (Z.div_mod v 256). lia.
    + split; [apply Z.div_pos; lia|].
      apply Z.div_lt_upper_bound; lia.
Qed.

Lemma read_bytes_app (bs rest : list byte) :
  read_bytes (length bs) (bs ++ rest) = Some (bs, rest).
Proof.
  unfold read_bytes.
  destruct (Nat.ltb_spec (length (bs ++ rest)) (length bs)) as [H|_].
  - rewrite length_app in H. lia.
  - now rewrite take_app_length, drop_app_length.
Qed.

Lemma read_int_WriteLE (w : nat) (v : Z) (rest : list byte) :
  0 <= v < 256 ^ Z.of_nat w ->
  read_int w (WriteLE w v ++ rest) = Some (v, rest).
Proof.
  intros Hv. unfold read_int.
  rewrite <- (WriteLE_length w v) at 1.
  rewrite read_bytes_app. now rewrite ReadLE_WriteLE.
Qed.

Lemma read_int_byte (v : Z) (rest : list byte) :
  0 <= v < 256 ->
  read_int 1 (byte_of v :: rest) = Some (v, rest).
Proof. intros Hv. apply (read_int_WriteLE 1 v rest). simpl. lia. Qed.

Lemma ReadCompactSize_Write (n : Z) (rest : list byte) :
  0 <= n <= MAX_SIZE ->
  ReadCompactSize (WriteCompactSize n ++ rest) = Some (n, rest).
Proof.
  unfold MAX_SIZE. intros Hn.
  unfold ReadCompactSize, WriteCompactSize.
  destruct (Z.ltb_spec n 253) as [H1|H1].
  - rewrite (read_int_WriteLE 1 n rest) by (simpl; lia).
    destruct (Z.ltb_spec n 253); [|lia].
    destruct (Z.ltb_spec n 0); [lia|].
    unfold MAX_SIZE. destruct (Z.gtb_spec n 33554432); [lia|]. reflexivity.
  - destruct (Z.leb_spec n 65535) as [H2|H2].
    + cbn [app]. rewrite read_int_byte by lia. cbn [Z.ltb Z.eqb Z.compare Pos.compare Pos.compare_cont].
      rewrite (read_int_WriteLE 2 n rest) by (simpl; lia).
      destruct (Z.ltb_spec n 253); [lia|].
      unfold MAX_SIZE. destruct (Z.gtb_spec n 33554432); [lia|]. reflexivity.
    + destruct (Z.leb_spec n 4294967295) as [H3|H3]; [|lia].
      cbn [app]. rewrite read_int_byte by lia. cbn [Z.ltb Z.eqb Z.compare Pos.compare Pos.compare_cont].
      rewrite (read_int_WriteLE 4 n rest) by (simpl; lia).
      destruct (Z.ltb_spec n 65536); [lia|].
      unfold MAX_SIZE. destruct (Z.gtb_spec n 33554432); [lia|]. reflexivity.
Qed.

Lemma read_vector_write (v : vch) (rest : list byte) :
  Z.of_nat (length v) <= MAX_SIZE ->
  read_vector (write_vector v ++ rest) = Some (v, rest).
Proof.
  intros Hv. unfold read_vector, write_vector.
  rewrite <- app_assoc, ReadCompactSize_Write by lia.
  rewrite Nat2Z.id. apply read_bytes_app.
Qed.

(** Reading back what was written returns the record and whatever
    followed it in the stream. *)
Lemma stream_in_out (a : CAsset) (rest : list byte) :
  valid_asset a -> stream_in (stream_out a ++ rest) = Some (a, rest).
Proof.
  intros (H1 & H2 & H3 & H4 & H5 & H6 & H7 & H8).
  unfold stream_in, stream_out.
  repeat rewrite <- app_assoc.
  repeat (rewrite read_vector_write by assumption; cbn [mbind option_bind]).
  rewrite (read_int_WriteLE 8) by exact H7. cbn [mbind option_bind].
  rewrite (read_int_WriteLE 32) by exact H8. cbn [mbind option_bind].
  now destruct a.
Qed.

(** C6. Round trip: deserialising the canonical serialisation of a valid
    record together with the hash of that serialisation succeeds and
    gives the record back. *)
Theorem UnserializeFromData_Serialize (host : Host) (r : CAsset) :
  valid_asset r ->
  UnserializeFromData host (Serialize r) (HashHex host (Serialize r))
  = (true, r).
Proof.
  intros Hr. unfold UnserializeFromData.
  replace (Serialize r) with (stream_out r ++ []) at 1
    by apply app_nil_r.
  rewrite (stream_in_out r [] Hr).
  rewrite bool_decide_eq_false_2; [reflexivity|].
  intros Hne. now apply Hne.
Qed.

End CodecFacts.

(** ** Expiration policy and lazy-expiry read *)

Module LeaseFacts.

Import Codec Validator LeaseSpec.

Lemma to_uint64_small (z : Z) : 0 <= z < 2 ^ 64 -> to_uint64 z = z.
Proof. intros Hz. unfold to_uint64. now apply Z.mod_small. Qed.

Lemma GetAssetExpiration_spec (node : Node) (asset : CAsset) :
  0 <= medianTimePast node < 2 ^ 63 - 1 ->
  GetAssetExpiration node asset = expiration node asset.
Proof.
  intros Ht. unfold GetAssetExpiration, expiration, recorded_lease,
    ReadAliasUnprunable.
  rewrite to_uint64_small by lia.
  destruct (paliasdb node) as [adb|]; simpl; [|reflexivity].
  destruct (aliasunprunable adb !! vchAlias asset) as [u|]; simpl;
    [|reflexivity].
  now destruct (unprunable_IsNull u).
Qed.

(** C5. The derived expiration of a stored record is the unprunable
    expiration time recorded for its owning alias when the registry holds
    a non-null one, and the median time plus one otherwise; and once the
    median time has reached the derived expiration, [GetAsset] fails and
    leaves a null record, although the store still holds the record. *)
Theorem GetAsset_lazy_expiry (node : Node) (db : CAssetDB)
    (id : vch) (record txPos : CAsset) :
  0 <= medianTimePast node < 2 ^ 63 - 1 ->
  passetdb node = Some db ->
  ReadAsset db id = Some record ->
  GetAssetExpiration node record
  = match recorded_lease node (vchAlias record) with
    | Some t => t
    | None => medianTimePast node + 1
    end
  /\ (is_expired node record ->
      medianTimePast node >= GetAssetExpiration node record
      /\ GetAsset node id txPos = (false, nullAsset)
      /\ ReadAsset db id = Some record).
Proof.
  intros Ht Hdb Hrec.
  pose proof (GetAssetExpiration_spec node record Ht) as Hspec.
  split; [exact Hspec|].
  unfold is_expired. rewrite <- Hspec. intros Hexp.
  split; [exact Hexp|]. split; [|exact Hrec].
  unfold GetAsset. rewrite Hdb, Hrec.
  rewrite to_uint64_small by lia.
  destruct (Z.geb_spec (medianTimePast node)
              (GetAssetExpiration node record)); [reflexivity|lia].
Qed.

(** Before that moment the read succeeds and returns the stored record. *)
Lemma GetAsset_live (node : Node) (db : CAssetDB) (id : vch)
    (record txPos : CAsset) :
  0 <= medianTimePast node < 2 ^ 63 - 1 ->
  passetdb node = Some db ->
  ReadAsset db id = Some record ->
  medianTimePast node < GetAssetExpiration node record ->
  GetAsset node id txPos = (true, record).
Proof.
  intros Ht Hdb Hrec Hlive. unfold GetAsset. rewrite Hdb, Hrec.
  rewrite to_uint64_small by lia.
  destruct (Z.geb_spec (medianTimePast node)
              (GetAssetExpiration node record)); [lia|reflexivity].
Qed.

(** A successful read returns what the store holds under that id. *)
Lemma GetAsset_found (node : Node) (id : vch) (txPos record : CAsset) :
  GetAsset node id txPos = (true, record) ->
  exists db, passetdb node = Some db /\ ReadAsset db id = Some record.
Proof.
  unfold GetAsset. destruct (passetdb node) as [db|]; [|discriminate].
  destruct (ReadAsset db id) as [r|] eqn:Hr; [|discriminate].
  destruct (_ >=? _); [discriminate|]. intros [= <-]. eauto.
Qed.

End LeaseFacts.

(** ** Life-cycle validator *)

Module ValidatorFacts.

Import Codec Validator LeaseSpec LifeCycleSpec LeaseFacts.

Lemma node_eta (node : Node) (adb : CAliasDB) (db : CAssetDB) :
  paliasdb node = Some adb -> passetdb node = Some db ->
  mkNode (medianTimePast node) (Some adb) (Some db) = node.
Proof. destruct node; simpl; congruence. Qed.

(** *** The mirror and the history never touch the current records *)

Lemma WriteAssetIndex_asseti (host : Host) db a op :
  asseti (WriteAssetIndex host db a op) = asseti db.
Proof.
  unfold WriteAssetIndex, WriteAssetIndexHistory.
  destruct (asset_collection db); simpl; [|reflexivity].
  destruct (assethistory_collection db); reflexivity.
Qed.

Lemma EraseAssetIndexHistory_asseti db id :
  asseti (EraseAssetIndexHistory db id) = asseti db.
Proof.
  unfold EraseAssetIndexHistory.
  destruct (assethistory_collection db); reflexivity.
Qed.

Lemma EraseISLock_asseti db id :
  asseti (EraseISLock db id).2 = asseti db.
Proof. unfold EraseISLock. destruct (writable db); reflexivity. Qed.

Lemma Write_assetp_asseti db id a :
  asseti (Write_assetp db id a).2 = asseti db.
Proof. unfold Write_assetp. destruct (writable db); reflexivity. Qed.

Lemma Write_assetl_asseti db id b :
  asseti (Write_assetl db id b).2 = asseti db.
Proof. unfold Write_assetl. destruct (writable db); reflexivity. Qed.

(** [WriteAsset] either fails and leaves the current records alone, or
    succeeds and stores the record under its own id. *)
Lemma WriteAsset_asseti (host : Host) db a prev op fJustCheck :
  let r := WriteAsset host db a prev op fJustCheck in
  (r.1 = false /\ asseti r.2 = asseti db)
  \/ (r.1 = true /\ asseti r.2 = <[vchAsset a := a]> (asseti db)).
Proof.
  unfold WriteAsset, Write_asseti, Write_assetp, Write_assetl.
  destruct (writable db) eqn:Hw, fJustCheck, (IsNull prev); simpl;
    rewrite ?Hw; simpl; rewrite ?WriteAssetIndex_asseti; simpl; auto.
Qed.

Section Call.

Variables (host : Host) (tx : CTransaction) (op : Z)
          (vvchArgs vvchAliasArgs : list vch)
          (fJustCheck : bool) (nHeight : Z) (dontaddtodb : bool).

(** *** Early returns of the first two phases leave the chain state alone *)

Lemma read_candidate_stop node msg r :
  read_candidate host tx vvchArgs vvchAliasArgs fJustCheck dontaddtodb
                 node msg = Stop r ->
  r = UndefinedBehaviour \/ exists ret m, r = Returned ret m node.
Proof.
  unfold read_candidate.
  destruct (_ && _ && _); [intros [= <-]; eauto|].
  destruct (negb _); [intros [= <-]; eauto|].
  destruct (SyscoinData tx) as [[d h]|]; [|intros [= <-]; eauto].
  destruct (UnserializeFromData host d h) as [ok a].
  destruct ok; simpl; [|intros [= <-]; eauto].
  destruct fJustCheck; simpl.
  - destruct (negb _); simpl; [intros [= <-]; eauto|].
    destruct (bool_decide _); simpl; [intros [= <-]; eauto|].
    destruct (vvchAliasArgs !! 0%nat); [|intros [= <-]; eauto].
    destruct (bool_decide _); [intros [= <-]; eauto|discriminate].
  - destruct (vvchAliasArgs !! 0%nat); [|intros [= <-]; eauto].
    destruct (bool_decide _); [intros [= <-]; eauto|discriminate].
Qed.

Lemma read_candidate_continue node msg theAsset :
  read_candidate host tx vvchArgs vvchAliasArgs fJustCheck dontaddtodb
                 node msg = Continue theAsset ->
  exists data hash,
    SyscoinData tx = Some (data, hash)
    /\ UnserializeFromData host data hash = (true, theAsset)
    /\ vvchAliasArgs !! 0%nat = Some (vchAlias theAsset).
Proof.
  unfold read_candidate.
  destruct (_ && _ && _); [discriminate|].
  destruct (negb _); [discriminate|].
  destruct (SyscoinData tx) as [[d h]|]; [|discriminate].
  destruct (UnserializeFromData host d h) as [ok a] eqn:Hu.
  destruct ok; simpl; [|discriminate].
  assert (Hend :
    match vvchAliasArgs !! 0%nat with
    | Some aliasArg =>
        if bool_decide (vchAlias a <> aliasArg)
        then Stop (Returned (negb fJustCheck) ERR_4003 node)
        else Continue a
    | None => Stop UndefinedBehaviour
    end = Continue theAsset ->
    exists data hash,
      Some (d, h) = Some (data, hash)
      /\ UnserializeFromData host data hash = (true, theAsset)
      /\ vvchAliasArgs !! 0%nat = Some (vchAlias theAsset)).
  { destruct (vvchAliasArgs !! 0%nat) as [arg|]; [|discriminate].
    destruct (bool_decide (vchAlias a <> arg)) eqn:Hb; [discriminate|].
    intros [= <-]. apply bool_decide_eq_false in Hb.
    exists d, h. repeat split; [exact Hu|].
    f_equal. destruct (decide (vchAlias a = arg)); [congruence|contradiction]. }
  destruct fJustCheck; simpl; [|exact Hend].
  destruct (length vvchArgs =? 1)%nat; simpl; [|discriminate].
  destruct (bool_decide (Some h <> vvchArgs !! 0%nat)); simpl;
    [discriminate|exact Hend].
Qed.

Lemma strict_checks_stop node theAsset r :
  strict_checks host op fJustCheck node theAsset = Stop r ->
  exists ret m, r = Returned ret m node.
Proof.
  unfold strict_checks.
  repeat match goal with
         | |- context [if ?b then _ else _] => destruct b
         end; try discriminate; intros [= <-]; eauto.
Qed.

(** *** The stored version and the reconciliation *)

Lemma load_stored_stop medianTime adb db msg theAsset r :
  load_stored host tx op fJustCheck nHeight dontaddtodb medianTime adb db
              msg theAsset = Stop r ->
  exists ret m adb' db',
    r = Returned ret m (mkNode medianTime (Some adb') (Some db'))
    /\ asseti db' = asseti db.
Proof.
  unfold load_stored.
  destruct (GetAsset _ _ _) as [found dbAsset].
  destruct found; simpl.
  - destruct (negb fJustCheck && _).
    + destruct (_ >=? _); [intros [= <-]; eauto 10|].
      destruct (negb (txHash dbAsset =? GetHash tx)).
      * destruct dontaddtodb; simpl; [discriminate|].
        pose proof (EraseISLock_asseti db (vchAsset theAsset)) as He.
        destruct (EraseISLock db (vchAsset theAsset)) as [erased db1].
        destruct erased; simpl; [discriminate|].
        intros [= <-]. eauto 10.
      * destruct dontaddtodb; simpl; [intros [= <-]; eauto 10|].
        pose proof (Write_assetp_asseti db (vchAsset theAsset) dbAsset) as Hw.
        destruct (Write_assetp db (vchAsset theAsset) dbAsset)
          as [written db1].
        simpl in Hw.
        pose proof (EraseISLock_asseti db1 (vchAsset theAsset)) as He.
        destruct written; simpl; [|intros [= <-]; eauto 10].
        destruct (EraseISLock db1 (vchAsset theAsset)) as [erased db2].
        simpl in He.
        destruct erased; simpl; intros [= <-];
          eexists _, _, _, db2; (split; [reflexivity|congruence]).
    + destruct (_ >? _); [intros [= <-]; eauto 10|discriminate].
  - destruct (negb (op =? _)); [intros [= <-]; eauto 10|discriminate].
Qed.

(** When the load phase goes on, it has written no current record, and an
    operation other than an activation gets as its stored version either
    the record the store returns (in strict mode, or when the id carries
    no settlement lock) or, outside strict mode under the settlement lock
    of another transaction and above the stored height, the retained
    snapshot, an empty record when there is none. *)
Lemma load_stored_continue medianTime adb db msg theAsset base adb' db' :
  load_stored host tx op fJustCheck nHeight dontaddtodb medianTime adb db
              msg theAsset = Continue (base, adb', db') ->
  asseti db' = asseti db
  /\ (op <> OP_ASSET_ACTIVATE host ->
      exists found,
        GetAsset (mkNode medianTime (Some adb) (Some db)) (vchAsset theAsset)
                 nullAsset = (true, found)
        /\ ((fJustCheck = true
             \/ ReadISLock db (vchAsset theAsset) <> Some true)
            /\ base = found
            \/ fJustCheck = false
               /\ ReadISLock db (vchAsset theAsset) = Some true
               /\ txHash found <> GetHash tx
               /\ Codec.nHeight found < to_uint64 nHeight
               /\ base = default nullAsset
                           (ReadLastAsset db (vchAsset theAsset)))).
Proof.
  unfold load_stored.
  destruct (GetAsset _ _ _) as [ok dbAsset].
  destruct ok; simpl.
  - unfold ReadISLock, ReadLastAsset.
    destruct (assetl db !! vchAsset theAsset) as [[|]|] eqn:Hl;
      rewrite ?andb_false_r; simpl.
    + destruct fJustCheck; simpl.
      * destruct (_ >? _); [discriminate|]. intros [= <- <- <-].
        split; [reflexivity|]. intros _. exists dbAsset. auto.
      * destruct (Z.geb_spec (Codec.nHeight dbAsset) (to_uint64 nHeight))
          as [|Hlow]; [discriminate|].
        destruct (Z.eqb_spec (txHash dbAsset) (GetHash tx)) as [Heq|Hne];
          simpl.
        { destruct dontaddtodb; simpl; [discriminate|].
          destruct (Write_assetp _ _ _) as [[|] db1]; simpl; [|discriminate].
          destruct (EraseISLock _ _) as [[|] db2]; discriminate. }
        assert (Hbase : op <> OP_ASSET_ACTIVATE host ->
                  (if negb (op =? OP_ASSET_ACTIVATE host)
                   then match assetp db !! vchAsset theAsset with
                        | Some last => last
                        | None => nullAsset
                        end
                   else dbAsset)
                  = default nullAsset (assetp db !! vchAsset theAsset)).
        { intros Hop.
          destruct (Z.eqb_spec op (OP_ASSET_ACTIVATE host)); [contradiction|].
          simpl. now destruct (assetp db !! vchAsset theAsset). }
        destruct dontaddtodb; simpl.
        { intros [= <- <- <-]. split; [reflexivity|]. intros Hop.
          exists dbAsset. split; [reflexivity|]. right.
          rewrite (Hbase Hop). auto. }
        pose proof (EraseISLock_asseti db (vchAsset theAsset)) as He.
        destruct (EraseISLock db (vchAsset theAsset)) as [[|] db1];
          simpl in *; [|discriminate].
        intros [= <- <- <-]. split.
        { now rewrite EraseAssetIndexHistory_asseti. }
        intros Hop. exists dbAsset. split; [reflexivity|]. right.
        rewrite (Hbase Hop). auto.
    + destruct (_ >? _); [discriminate|]. intros [= <- <- <-].
      split; [reflexivity|]. intros _. exists dbAsset.
      split; [reflexivity|]. left. split; [right; discriminate|reflexivity].
    + destruct (_ >? _); [discriminate|]. intros [= <- <- <-].
      split; [reflexivity|]. intros _. exists dbAsset.
      split; [reflexivity|]. left. split; [right; discriminate|reflexivity].
  - destruct (Z.eqb_spec op (OP_ASSET_ACTIVATE host)); simpl; [|discriminate].
    intros [= <- <- <-]. split; [reflexivity|contradiction].
Qed.

Lemma load_stored_found medianTime adb db msg theAsset x :
  load_stored host tx op fJustCheck nHeight dontaddtodb medianTime adb db
              msg theAsset = Continue x ->
  op <> OP_ASSET_ACTIVATE host ->
  exists found,
    GetAsset (mkNode medianTime (Some adb) (Some db)) (vchAsset theAsset)
             nullAsset = (true, found).
Proof.
  unfold load_stored.
  destruct (GetAsset _ _ _) as [[|] found]; [eauto|].
  destruct (Z.eqb_spec op (OP_ASSET_ACTIVATE host)); simpl;
    [contradiction|discriminate].
Qed.

(** *** The operation *)

Lemma apply_operation_stop node adb theAsset dbAsset r :
  apply_operation host op fJustCheck node adb theAsset dbAsset = Stop r ->
  exists ret m, r = Returned ret m node.
Proof.
  unfold apply_operation, flow_bind.
  repeat match goal with
         | |- context [if ?b then _ else _] => destruct b
         | |- context [match GetAlias ?a ?b with _ => _ end] =>
             destruct (GetAlias a b)
         | |- context [let '(_, _) := ?p in _] => destruct p
         end; try discriminate; intros [= <-]; eauto.
Qed.


Lemma apply_update node adb theAsset dbAsset a :
  op = OP_ASSET_UPDATE host ->
  apply_operation host op fJustCheck node adb theAsset dbAsset = Continue a ->
  a = with_inherited theAsset dbAsset
  /\ vchAlias dbAsset = vchAlias theAsset.
Proof.
  intros ->. destruct (tags_distinct host) as (Hau & Hat & Hut).
  unfold apply_operation, flow_bind.
  destruct (Z.eqb_spec (OP_ASSET_UPDATE host) (OP_ASSET_ACTIVATE host));
    [congruence|]. simpl.
  destruct (Z.eqb_spec (OP_ASSET_UPDATE host) (OP_ASSET_TRANSFER host));
    [congruence|]. simpl.
  rewrite Z.eqb_refl. simpl.
  destruct (bool_decide _) eqn:Hb; [discriminate|].
  intros [= <-]. split; [reflexivity|].
  apply bool_decide_eq_false in Hb.
  destruct (decide (vchAlias dbAsset = vchAlias theAsset)) as [He|Hn];
    [exact He|]. exfalso. apply Hb. exact Hn.
Qed.

(** A transfer goes through only when the stored owner already is the
    alias the asset is transferred to. *)
Lemma apply_transfer node adb theAsset dbAsset a :
  op = OP_ASSET_TRANSFER host ->
  apply_operation host op fJustCheck node adb theAsset dbAsset = Continue a ->
  a = with_owner (with_inherited theAsset dbAsset) (vchLinkAlias theAsset)
  /\ vchAlias dbAsset = vchLinkAlias theAsset.
Proof.
  intros ->. destruct (tags_distinct host) as (Hau & Hat & Hut).
  unfold apply_operation, flow_bind.
  destruct (Z.eqb_spec (OP_ASSET_TRANSFER host) (OP_ASSET_ACTIVATE host));
    [congruence|]. simpl.
  rewrite Z.eqb_refl, orb_true_r.
  destruct (GetAlias adb (vchLinkAlias theAsset)) as [alias|];
    [|discriminate].
  destruct (_ =? 0); [discriminate|].
  destruct (bool_decide _) eqn:Hb; [discriminate|].
  intros [= <-]. split; [reflexivity|].
  apply bool_decide_eq_false in Hb. simpl in Hb.
  destruct (decide (vchAlias dbAsset = vchLinkAlias theAsset)) as [He|Hn];
    [exact He|]. exfalso. apply Hb. exact Hn.
Qed.

(** *** The write path *)

Lemma commit_result medianTime adb db msg u1 u2 u3 theAsset dbAsset :
  exists ret m adb' db',
    commit host tx op fJustCheck nHeight dontaddtodb medianTime adb db msg
           u1 u2 u3 theAsset dbAsset
    = Returned ret m (mkNode medianTime (Some adb') (Some db'))
    /\ (asseti db' = asseti db
        \/ (ret = true /\ m = msg /\ dontaddtodb = false
            /\ asseti db'
               = <[vchAsset theAsset := stamped tx nHeight theAsset]>
                   (asseti db))).
Proof.
  unfold commit.
  destruct dontaddtodb; simpl; [eauto 10|].
  pose proof (WriteAsset_asseti host db (stamped tx nHeight theAsset)
                dbAsset op fJustCheck) as Hw.
  destruct (WriteAsset host db (stamped tx nHeight theAsset) dbAsset op
              fJustCheck) as [written db1].
  simpl in Hw. destruct Hw as [[-> Hs]|[-> Hs]]; simpl.
  - eexists _, _, _, db1. split; [reflexivity|]. now left.
  - eexists _, _, _, db1. split; [reflexivity|]. right. auto.
Qed.

(** *** Every new current record comes from the write path

    If a call leaves under some id a current record that was not there
    before, then the call went through all phases, returned [true]
    without touching the error message, and the record is the stamped
    outcome of the operation. *)
Lemma new_current_record node msg ret msg' node' db db' id r :
  CheckAssetInputs host tx op vvchArgs vvchAliasArgs fJustCheck nHeight
                   dontaddtodb node msg = Returned ret msg' node' ->
  passetdb node = Some db ->
  passetdb node' = Some db' ->
  asseti db' !! id = Some r ->
  asseti db !! id <> Some r ->
  exists adb theAsset base adb1 db1 applied,
    paliasdb node = Some adb
    /\ read_candidate host tx vvchArgs vvchAliasArgs fJustCheck dontaddtodb
                      node msg = Continue theAsset
    /\ strict_checks host op fJustCheck node theAsset = Continue tt
    /\ load_stored host tx op fJustCheck nHeight dontaddtodb
                   (medianTimePast node) adb db msg theAsset
       = Continue (base, adb1, db1)
    /\ apply_operation host op fJustCheck
         (mkNode (medianTimePast node) (Some adb1) (Some db1)) adb1
         theAsset base = Continue applied
    /\ r = stamped tx nHeight applied
    /\ id = vchAsset applied
    /\ ret = true /\ msg' = msg /\ dontaddtodb = false.
Proof.
  intros Hrun Hdb Hdb' Hnew Hold.
  unfold CheckAssetInputs in Hrun. rewrite Hdb in Hrun.
  destruct (paliasdb node) as [adb|] eqn:Hadb.
  2:{ injection Hrun as <- <- <-. congruence. }
  assert (Hsame : forall ret0 m0, Returned ret0 m0 node
                    = Returned ret msg' node' -> False).
  { intros ret0 m0 [= _ _ <-]. congruence. }
  destruct (read_candidate _ _ _ _ _ _ node msg) as [theAsset|r1] eqn:H1;
    simpl in Hrun.
  2:{ apply read_candidate_stop in H1 as [->|(ret0 & m0 & ->)];
        [discriminate|]. exfalso; eauto. }
  destruct (strict_checks host op fJustCheck node theAsset) as [[]|r2] eqn:H2;
    simpl in Hrun.
  2:{ apply strict_checks_stop in H2 as (ret0 & m0 & ->). exfalso; eauto. }
  destruct (load_stored _ _ _ _ _ _ _ adb db msg theAsset)
    as [[[base adb1] db1]|r3] eqn:H3; simpl in Hrun.
  2:{ apply load_stored_stop in H3 as (ret0 & m0 & adb' & db0 & -> & Hs).
      injection Hrun as <- <- <-. simpl in Hdb'.
      injection Hdb' as <-. congruence. }
  pose proof (load_stored_continue _ _ _ _ _ _ _ _ H3) as [Hs1 _].
  destruct (apply_operation _ _ _ _ adb1 theAsset base) as [applied|r4] eqn:H4;
    simpl in Hrun.
  2:{ apply apply_operation_stop in H4 as (ret0 & m0 & ->).
      injection Hrun as <- <- <-. simpl in Hdb'.
      injection Hdb' as <-. congruence. }
  destruct (commit_result (medianTimePast node) adb1 db1 msg
              (vchAlias theAsset)
              (if (op =? OP_ASSET_TRANSFER host)
                  && negb (bool_decide (vchLinkAlias theAsset = []))
               then vchLinkAlias theAsset else [])
              [] applied base)
    as (ret0 & m0 & adb2 & db2 & Hc & Hcase).
  rewrite Hc in Hrun. injection Hrun as <- <- <-. simpl in Hdb'.
  injection Hdb' as <-.
  destruct Hcase as [Hs2|(-> & -> & Hd & Hs2)]; [congruence|].
  rewrite Hs2 in Hnew.
  destruct (decide (vchAsset applied = id)) as [<-|Hne].
  - rewrite lookup_insert_eq in Hnew. injection Hnew as <-.
    exists adb, theAsset, base, adb1, db1, applied. auto 12.
  - rewrite lookup_insert_ne in Hnew by exact Hne. congruence.
Qed.

(** *** Accepted operations *)

(** An operation that passes every check is written, when the call may
    write and the database takes the write: the call returns [true]
    without an error message and the store then holds the stamped record
    under its id. *)
Lemma accepted_operation_is_written node adb db msg theAsset base adb1 db1
    applied :
  paliasdb node = Some adb ->
  passetdb node = Some db ->
  read_candidate host tx vvchArgs vvchAliasArgs fJustCheck dontaddtodb
                 node msg = Continue theAsset ->
  strict_checks host op fJustCheck node theAsset = Continue tt ->
  load_stored host tx op fJustCheck nHeight dontaddtodb
              (medianTimePast node) adb db msg theAsset
  = Continue (base, adb1, db1) ->
  apply_operation host op fJustCheck
    (mkNode (medianTimePast node) (Some adb1) (Some db1)) adb1
    theAsset base = Continue applied ->
  dontaddtodb = false ->
  writable db1 = true ->
  exists adb' db',
    CheckAssetInputs host tx op vvchArgs vvchAliasArgs fJustCheck nHeight
                     dontaddtodb node msg
    = Returned true msg (mkNode (medianTimePast node) (Some adb') (Some db'))
    /\ asseti db' !! vchAsset applied = Some (stamped tx nHeight applied).
Proof.
  intros Hadb Hdb Hread Hstrict Hload Happly Hd Hw.
  unfold CheckAssetInputs.
  rewrite Hadb, Hdb, Hread. simpl. rewrite Hstrict. simpl.
  rewrite Hload. simpl. rewrite Happly. simpl.
  unfold commit. rewrite Hd. cbn [negb].
  pose proof (WriteAsset_asseti host db1 (stamped tx nHeight applied) base
                op fJustCheck) as Hcase.
  assert (Hok : (WriteAsset host db1 (stamped tx nHeight applied) base op
                   fJustCheck).1 = true).
  { unfold WriteAsset, Write_asseti, Write_assetp, Write_assetl.
    rewrite Hw. destruct fJustCheck, (IsNull base); simpl;
      rewrite ?Hw; reflexivity. }
  destruct (WriteAsset host db1 (stamped tx nHeight applied) base op
              fJustCheck) as [written db2].
  simpl in Hok, Hcase. subst written. cbn [negb].
  destruct Hcase as [[Hf _]|[_ Hs]]; [discriminate|].
  eexists _, db2. split; [reflexivity|].
  rewrite Hs. apply lookup_insert_eq.
Qed.


(** C10. Whatever the operation (activate, update or transfer alike),
    a record that a call of the validator persists as the current version
    of an asset has its transient link-alias field cleared and carries the
    height and the hash of the validating transaction. *)
Theorem persisted_record_is_stamped node msg ret msg' node' db db' id r :
  0 <= nHeight < 2 ^ 31 ->
  CheckAssetInputs host tx op vvchArgs vvchAliasArgs fJustCheck nHeight
                   dontaddtodb node msg = Returned ret msg' node' ->
  passetdb node = Some db ->
  passetdb node' = Some db' ->
  asseti db' !! id = Some r ->
  asseti db !! id <> Some r ->
  vchLinkAlias r = []
  /\ Codec.nHeight r = nHeight
  /\ txHash r = GetHash tx.
Proof.
  intros Hh Hrun Hdb Hdb' Hnew Hold.
  destruct (new_current_record _ _ _ _ _ _ _ _ _ Hrun Hdb Hdb' Hnew Hold)
    as (adb & theAsset & base & adb1 & db1 & applied & _ & _ & _ & _ & _
        & -> & _).
  simpl. repeat split. apply to_uint64_small. lia.
Qed.

(** With no settlement lock to reconcile, the operation is applied to the
    record the store returns. *)
Lemma load_stored_unlocked medianTime adb db msg theAsset stored :
  GetAsset (mkNode medianTime (Some adb) (Some db)) (vchAsset theAsset)
           nullAsset = (true, stored) ->
  fJustCheck = true \/ ReadISLock db (vchAsset theAsset) <> Some true ->
  Codec.nHeight stored <= to_uint64 nHeight ->
  load_stored host tx op fJustCheck nHeight dontaddtodb medianTime adb db
              msg theAsset = Continue (stored, adb, db).
Proof.
  intros Hget Hplain Hh. unfold load_stored. rewrite Hget. cbn [negb].
  assert (Hl : negb fJustCheck
               && match ReadISLock db (vchAsset theAsset) with
                  | Some locked => locked
                  | None => false
                  end = false).
  { destruct Hplain as [->|Hl]; [reflexivity|].
    destruct (ReadISLock db (vchAsset theAsset)) as [[|]|];
      [congruence| |]; apply andb_false_r. }
  rewrite Hl.
  destruct (Z.gtb_spec (Codec.nHeight stored) (to_uint64 nHeight)); [lia|].
  reflexivity.
Qed.

(** An update is refused when the candidate's owner is not the owner of
    the version it is applied to, and inherits from that version
    otherwise. *)
Lemma apply_operation_update node adb theAsset base :
  op = OP_ASSET_UPDATE host ->
  apply_operation host op fJustCheck node adb theAsset base
  = if bool_decide (vchAlias base <> vchAlias theAsset)
    then Stop (Returned true ERR_2026_owner node)
    else Continue (with_inherited theAsset base).
Proof.
  intros ->. destruct (tags_distinct host) as (Hau & _ & Hut).
  unfold apply_operation, flow_bind.
  destruct (Z.eqb_spec (OP_ASSET_UPDATE host) (OP_ASSET_ACTIVATE host));
    [congruence|].
  destruct (Z.eqb_spec (OP_ASSET_UPDATE host) (OP_ASSET_TRANSFER host));
    [congruence|].
  rewrite Z.eqb_refl. reflexivity.
Qed.

(** C8, as the code has it. An accepted update, that is one that leaves
    a new current record in the store, finds the asset in the store, and
    the record it leaves has the public data of a base version when the
    supplied public data is empty, the category of that version when the
    supplied category is empty, always its name, and the height and hash
    of the validating transaction. The base version is the record the
    store returns for the id, in strict mode and whenever the id carries
    no settlement lock; outside strict mode, under the settlement lock of
    another transaction and above the stored height, it is the retained
    previous-version snapshot, an empty record when there is none, and
    not the record the store returns. Such updates exist: with no lock to
    reconcile, an update by the owner of the stored record, at a height
    not below the stored one, is accepted when the call may write and the
    store takes the write, and the store then holds the supplied record
    with the fields inherited from the stored record, stamped. *)
Theorem update_carries_forward node msg db data hash supplied :
  op = OP_ASSET_UPDATE host ->
  0 <= nHeight < 2 ^ 31 ->
  SyscoinData tx = Some (data, hash) ->
  UnserializeFromData host data hash = (true, supplied) ->
  passetdb node = Some db ->
  (forall ret msg' node' db' r,
     CheckAssetInputs host tx op vvchArgs vvchAliasArgs fJustCheck nHeight
                      dontaddtodb node msg = Returned ret msg' node' ->
     passetdb node' = Some db' ->
     asseti db' !! vchAsset supplied = Some r ->
     asseti db !! vchAsset supplied <> Some r ->
     exists found base,
       GetAsset node (vchAsset supplied) nullAsset = (true, found)
       /\ ((fJustCheck = true
            \/ ReadISLock db (vchAsset supplied) <> Some true)
           /\ base = found
           \/ fJustCheck = false
              /\ ReadISLock db (vchAsset supplied) = Some true
              /\ txHash found <> GetHash tx
              /\ Codec.nHeight found < nHeight
              /\ base = default nullAsset
                          (ReadLastAsset db (vchAsset supplied)))
       /\ vchPubData r = (if bool_decide (vchPubData supplied = [])
                          then vchPubData base else vchPubData supplied)
       /\ sCategory r = (if bool_decide (sCategory supplied = [])
                         then sCategory base else sCategory supplied)
       /\ vchName r = vchName base
       /\ Codec.nHeight r = nHeight
       /\ txHash r = GetHash tx)
  /\ (forall adb found,
        paliasdb node = Some adb ->
        read_candidate host tx vvchArgs vvchAliasArgs fJustCheck dontaddtodb
                       node msg = Continue supplied ->
        strict_checks host op fJustCheck node supplied = Continue tt ->
        GetAsset node (vchAsset supplied) nullAsset = (true, found) ->
        fJustCheck = true
        \/ ReadISLock db (vchAsset supplied) <> Some true ->
        Codec.nHeight found <= nHeight ->
        vchAlias found = vchAlias supplied ->
        dontaddtodb = false ->
        writable db = true ->
        exists adb' db',
          CheckAssetInputs host tx op vvchArgs vvchAliasArgs fJustCheck
                           nHeight dontaddtodb node msg
          = Returned true msg
              (mkNode (medianTimePast node) (Some adb') (Some db'))
          /\ asseti db' !! vchAsset supplied
             = Some (stamped tx nHeight (with_inherited supplied found))).
Proof.
  intros Hop Hh Hdata Hsup Hdb. split.
  - intros ret msg' node' db' r Hrun Hdb' Hnew Hold.
    destruct (new_current_record _ _ _ _ _ _ _ _ _ Hrun Hdb Hdb' Hnew Hold)
      as (adb & theAsset & base & adb1 & db1 & applied & Hadb & Hread & _
          & Hload & Happly & -> & _).
    apply read_candidate_continue in Hread as (d & h & Hd & Hu & _).
    assert (theAsset = supplied) as -> by congruence.
    destruct (tags_distinct host) as (Hau & _).
    assert (Hna : op <> OP_ASSET_ACTIVATE host) by congruence.
    apply load_stored_continue in Hload as [_ Hbase].
    destruct (Hbase Hna) as (found & Hfound & Hcase).
    rewrite (node_eta node adb db Hadb Hdb) in Hfound.
    apply (apply_update _ _ _ _ _ Hop) in Happly as [-> _].
    exists found, base. split; [exact Hfound|]. split.
    { destruct Hcase as [Hplain|(Hj & Hl & Hx & Hlow & Hb)]; [now left|].
      right. rewrite to_uint64_small in Hlow by lia. auto. }
    simpl. repeat split. apply to_uint64_small. lia.
  - intros adb found Hadb Hread Hstrict Hget Hplain Hlow Hown Hd Hw.
    assert (Hload : load_stored host tx op fJustCheck nHeight dontaddtodb
                      (medianTimePast node) adb db msg supplied
                    = Continue (found, adb, db)).
    { apply load_stored_unlocked; [|exact Hplain|].
      - now rewrite (node_eta node adb db Hadb Hdb).
      - rewrite to_uint64_small by lia. exact Hlow. }
    assert (Happly : apply_operation host op fJustCheck
                       (mkNode (medianTimePast node) (Some adb) (Some db))
                       adb supplied found
                     = Continue (with_inherited supplied found)).
    { rewrite (apply_operation_update _ _ _ _ Hop).
      rewrite bool_decide_eq_false_2; [reflexivity|].
      intros Hne. apply Hne. exact Hown. }
    destruct (accepted_operation_is_written node adb db msg supplied found
                adb db (with_inherited supplied found)
                Hadb Hdb Hread Hstrict Hload Happly Hd Hw)
      as (adb' & db' & Hrun & Hrec).
    exists adb', db'. split; [exact Hrun|exact Hrec].
Qed.

(** C4. When the store holds a record settled at a height above the one
    a candidate is validated at, the candidate (having passed the
    structural checks) is refused as a soft failure: the call returns
    [true] with error 2026 and the chain state, the stored record
    included, is what it was. *)
Theorem lower_height_is_refused node msg theAsset stored :
  paliasdb node <> None ->
  read_candidate host tx vvchArgs vvchAliasArgs fJustCheck dontaddtodb
                 node msg = Continue theAsset ->
  strict_checks host op fJustCheck node theAsset = Continue tt ->
  GetAsset node (vchAsset theAsset) nullAsset = (true, stored) ->
  0 <= nHeight < Codec.nHeight stored ->
  exists m,
    CheckAssetInputs host tx op vvchArgs vvchAliasArgs fJustCheck nHeight
                     dontaddtodb node msg = Returned true m node
    /\ (m = ERR_2026_lower \/ m = ERR_2026_locked).
Proof.
  intros Hadb Hread Hstrict Hget Hlow.
  destruct (GetAsset_found _ _ _ _ Hget) as (db & Hdb & _).
  destruct (paliasdb node) as [adb|] eqn:Ea; [clear Hadb|contradiction].
  unfold CheckAssetInputs. rewrite Ea, Hdb, Hread. simpl.
  rewrite Hstrict. simpl.
  unfold load_stored.
  rewrite (node_eta node adb db Ea Hdb), Hget. simpl.
  assert (Hu : to_uint64 nHeight < Codec.nHeight stored).
  { unfold to_uint64.
    pose proof (Z.mod_le nHeight (2 ^ 64)). lia. }
  destruct (negb fJustCheck && _).
  - destruct (Z.geb_spec (Codec.nHeight stored) (to_uint64 nHeight));
      [|lia]. simpl. eauto.
  - destruct (Z.gtb_spec (Codec.nHeight stored) (to_uint64 nHeight));
      [|lia]. simpl. eauto.
Qed.

(** *** Hard and soft failures *)

(** C2, as the code has it. In strict mode, a candidate whose payload
    deserialises but whose script-carried hash differs from the payload's
    commitment hash is not rejected: the call returns [true] with error
    2003 and leaves the chain state as it was. *)
Theorem hash_mismatch_is_soft node msg data vchHash theAsset scriptHash :
  fJustCheck = true ->
  paliasdb node <> None ->
  passetdb node <> None ->
  nVersion tx = SYSCOIN_TX_VERSION host ->
  SyscoinData tx = Some (data, vchHash) ->
  UnserializeFromData host data vchHash = (true, theAsset) ->
  vvchArgs = [scriptHash] ->
  scriptHash <> vchHash ->
  CheckAssetInputs host tx op vvchArgs vvchAliasArgs fJustCheck nHeight
                   dontaddtodb node msg = Returned true ERR_2003 node.
Proof.
  intros -> Ha Hd Hv Hdata Hu -> Hne.
  unfold CheckAssetInputs, read_candidate.
  destruct (paliasdb node); [|contradiction].
  destruct (passetdb node); [|contradiction].
  rewrite andb_false_r, Hv, Z.eqb_refl, Hdata, Hu. simpl.
  rewrite bool_decide_eq_true_2; [reflexivity|]. congruence.
Qed.

(** C7, as the code has it. In strict mode, an activation that has passed
    the payload and alias checks and whose name is empty or longer than
    the id bound is a hard failure: the call returns [false] and the
    chain state is what it was; the error is 2012 when the category and
    public-data bounds hold and no link alias is given. *)
Theorem activate_bad_name_is_fatal node msg theAsset :
  fJustCheck = true ->
  op = OP_ASSET_ACTIVATE host ->
  paliasdb node <> None ->
  passetdb node <> None ->
  read_candidate host tx vvchArgs vvchAliasArgs fJustCheck dontaddtodb
                 node msg = Continue theAsset ->
  vchName theAsset = []
  \/ MAX_ID_LENGTH host < Z.of_nat (length (vchName theAsset)) ->
  exists m,
    CheckAssetInputs host tx op vvchArgs vvchAliasArgs fJustCheck nHeight
                     dontaddtodb node msg = Returned false m node
    /\ (Z.of_nat (length (sCategory theAsset)) <= MAX_NAME_LENGTH host ->
        Z.of_nat (length (vchPubData theAsset)) <= MAX_VALUE_LENGTH host ->
        vchLinkAlias theAsset = [] ->
        m = ERR_2012).
Proof.
  intros -> -> Ha Hd Hread Hname.
  unfold CheckAssetInputs.
  destruct (paliasdb node); [|contradiction].
  destruct (passetdb node); [|contradiction].
  rewrite Hread. simpl. unfold strict_checks.
  destruct (Z.gtb_spec (Z.of_nat (length (sCategory theAsset)))
              (MAX_NAME_LENGTH host)); simpl.
  { eexists. split; [reflexivity|]. lia. }
  destruct (Z.gtb_spec (Z.of_nat (length (vchPubData theAsset)))
              (MAX_VALUE_LENGTH host)); simpl.
  { eexists. split; [reflexivity|]. lia. }
  rewrite Z.eqb_refl.
  destruct (bool_decide (vchLinkAlias theAsset = [])) eqn:Hl; simpl.
  2:{ eexists. split; [reflexivity|]. intros _ _ Hlink.
      apply bool_decide_eq_false in Hl. contradiction. }
  assert (Hbad : (Z.of_nat (length (vchName theAsset)) >? MAX_ID_LENGTH host)
                 || bool_decide (vchName theAsset = []) = true).
  { destruct Hname as [Hn|Hn].
    - rewrite (bool_decide_eq_true_2 _ Hn). apply orb_true_r.
    - destruct (Z.gtb_spec (Z.of_nat (length (vchName theAsset)))
                  (MAX_ID_LENGTH host)); [reflexivity|lia]. }
  rewrite Hbad. simpl. eauto.
Qed.

(** *** Transfers *)

(** The owner check comes after the ownership change: a transfer never
    persists a record whose owner differs from the owner of the version
    it is applied to (the record the store returns or, when the
    settlement lock of another transaction is reconciled, the retained
    snapshot), so a transfer to any other alias is refused. *)
Lemma transfer_keeps_owner node msg ret msg' node' db db'
    data hash supplied id r :
  op = OP_ASSET_TRANSFER host ->
  SyscoinData tx = Some (data, hash) ->
  UnserializeFromData host data hash = (true, supplied) ->
  CheckAssetInputs host tx op vvchArgs vvchAliasArgs fJustCheck nHeight
                   dontaddtodb node msg = Returned ret msg' node' ->
  passetdb node = Some db ->
  passetdb node' = Some db' ->
  asseti db' !! id = Some r ->
  asseti db !! id <> Some r ->
  exists found base,
    GetAsset node (vchAsset supplied) nullAsset = (true, found)
    /\ ((fJustCheck = true
         \/ ReadISLock db (vchAsset supplied) <> Some true)
        /\ base = found
        \/ fJustCheck = false
           /\ ReadISLock db (vchAsset supplied) = Some true
           /\ txHash found <> GetHash tx
           /\ base = default nullAsset
                       (ReadLastAsset db (vchAsset supplied)))
    /\ vchAlias r = vchAlias base
    /\ vchAlias r = vchLinkAlias supplied.
Proof.
  intros Hop Hdata Hsup Hrun Hdb Hdb' Hnew Hold.
  destruct (new_current_record _ _ _ _ _ _ _ _ _ Hrun Hdb Hdb' Hnew Hold)
    as (adb & theAsset & base & adb1 & db1 & applied & Hadb & Hread & _
        & Hload & Happly & -> & _).
  apply read_candidate_continue in Hread as (d & h & Hd & Hu & _).
  assert (theAsset = supplied) as -> by congruence.
  destruct (tags_distinct host) as (_ & Hat & _).
  assert (Hna : op <> OP_ASSET_ACTIVATE host) by congruence.
  apply load_stored_continue in Hload as [_ Hbase].
  destruct (Hbase Hna) as (found & Hfound & Hcase).
  rewrite (node_eta node adb db Hadb Hdb) in Hfound.
  apply (apply_transfer _ _ _ _ _ Hop) in Happly as [-> Hown].
  exists found, base. split; [exact Hfound|]. split.
  { destruct Hcase as [Hplain|(Hj & Hl & Hx & _ & Hb)]; [now left|].
    right. auto. }
  simpl. split; congruence.
Qed.

(** *** Reconciliation of a settlement lock *)








End Call.

End ValidatorFacts.

(** * The properties on the concrete chain *)

Module Scenarios.

Import Codec Validator LeaseSpec LifeCycleSpec Example.

(** ** Script codec *)

(** A script that ends after its pushed argument is not an asset script. *)
Lemma DecodeAssetScript_not_this_protocol_witness :
  exists d,
    Script.DecodeAssetScript example_host script_without_drop 0
    = Script.Returns d
    /\ Script.d_ret d = false.
Proof.
  apply (ScriptFacts.DecodeAssetScript_not_this_protocol
           example_host script_without_drop 0).
  right. right.
  apply Spec.after_push; [reflexivity | vm_compute; split; discriminate |].
  apply Spec.script_ends. reflexivity.
Defined.

(** ** Record codec *)

Lemma UnserializeFromData_Serialize_witness :
  UnserializeFromData example_host (Serialize stored_x)
                      (HashHex example_host (Serialize stored_x))
  = (true, stored_x).
Proof.
  apply (CodecFacts.UnserializeFromData_Serialize example_host stored_x).
  unfold valid_asset, MAX_SIZE. simpl. lia.
Defined.

(** ** Expiration *)

(** Once the lease of alice has run out, the asset reads back as absent
    although the store holds it. *)
Lemma GetAsset_lazy_expiry_witness :
  GetAssetExpiration late_node stored_x = 2000
  /\ GetAsset late_node asset_x nullAsset = (false, nullAsset)
  /\ ReadAsset example_assetdb asset_x = Some stored_x.
Proof.
  destruct (LeaseFacts.GetAsset_lazy_expiry late_node example_assetdb
              asset_x stored_x nullAsset) as [Hexp Hread].
  - simpl. lia.
  - reflexivity.
  - vm_compute. reflexivity.
  - split.
    + rewrite Hexp. vm_compute. reflexivity.
    + apply Hread. vm_compute. discriminate.
Defined.

(** ** Accepted operations *)

(** The activation of the second asset leaves a stamped record. *)
Lemma persisted_record_is_stamped_witness :
  exists r,
    asseti (assetdb_of (node_after activate_run)) !! asset_y = Some r
    /\ vchLinkAlias r = []
    /\ nHeight r = 101
    /\ txHash r = 23.
Proof.
  exists (mkAsset asset_y alice (vchName activate_y) (vchPubData activate_y)
                  (sCategory activate_y) [] 101 23).
  split; [vm_compute; reflexivity|].
  apply (ValidatorFacts.persisted_record_is_stamped
           example_host (tx_carrying 23 activate_y) 1
           [commitment activate_y] [alice] false 101 false
           example_node EmptyString true EmptyString
           (node_after activate_run)
           example_assetdb (assetdb_of (node_after activate_run)) asset_y).
  - lia.
  - vm_compute. reflexivity.
  - reflexivity.
  - vm_compute. reflexivity.
  - vm_compute. reflexivity.
  - vm_compute. discriminate.
Defined.

(** Scenario B: an update with empty public data and a new category keeps
    the public data and the name and takes the new category. *)
Lemma update_carries_forward_witness :
  (exists adb' db',
     update_run = Returned true EmptyString (mkNode 1000 (Some adb') (Some db'))
     /\ asseti db' !! asset_x
        = Some (stamped (tx_carrying 22 update_x) 101
                        (with_inherited update_x stored_x)))
  /\ exists r,
       asseti (assetdb_of (node_after update_run)) !! asset_x = Some r
       /\ vchPubData r = vchPubData stored_x
       /\ sCategory r = sCategory update_x
       /\ vchName r = vchName stored_x
       /\ nHeight r = 101
       /\ txHash r = 22.
Proof.
  destruct (ValidatorFacts.update_carries_forward
              example_host (tx_carrying 22 update_x) 2
              [commitment update_x] [alice] false 101 false
              example_node EmptyString example_assetdb
              (Serialize update_x) (commitment update_x) update_x)
    as [Hnew Haccepted].
  - reflexivity.
  - lia.
  - reflexivity.
  - vm_compute. reflexivity.
  - reflexivity.
  - split.
    + apply (Haccepted example_aliasdb stored_x).
      * reflexivity.
      * vm_compute. reflexivity.
      * reflexivity.
      * vm_compute. reflexivity.
      * right. vm_compute. discriminate.
      * simpl. lia.
      * reflexivity.
      * reflexivity.
      * reflexivity.
    + exists (mkAsset asset_x alice (vchName stored_x) (vchPubData stored_x)
                      (sCategory update_x) [] 101 22).
      split; [vm_compute; reflexivity|].
      destruct (Hnew true EmptyString (node_after update_run)
                     (assetdb_of (node_after update_run))
                     (mkAsset asset_x alice (vchName stored_x)
                              (vchPubData stored_x) (sCategory update_x)
                              [] 101 22))
        as (found & base & Hfound & Hcase & Hpub & Hcat & Hname & Hheight
            & Hhash).
      * vm_compute. reflexivity.
      * vm_compute. reflexivity.
      * vm_compute. reflexivity.
      * vm_compute. discriminate.
      * assert (found = stored_x) as ->.
        { vm_compute in Hfound. injection Hfound as <-. reflexivity. }
        assert (base = stored_x) as ->.
        { destruct Hcase as [[_ Hb]|(_ & Hl & _)]; [exact Hb|].
          vm_compute in Hl. discriminate. }
        repeat split; assumption.
Defined.

(** C8 fails on the code: under the settlement lock of another
    transaction, one block above the stored height, the update that
    leaves the public data empty is accepted, and the record it leaves
    holds the public data of the retained snapshot, not the public data
    of the record the store returned for the asset. *)
Lemma update_under_lock_counterexample :
  GetAsset locked_node asset_x nullAsset = (true, stored_x)
  /\ vchPubData update_x = []
  /\ locked_update_run
     = Returned true EmptyString (node_after locked_update_run)
  /\ asseti (assetdb_of (node_after locked_update_run)) !! asset_x
     = Some (mkAsset asset_x alice (vchName previous_x)
                     (vchPubData previous_x) (sCategory update_x) [] 101 22)
  /\ vchPubData previous_x <> vchPubData stored_x.
Proof.
  split; [vm_compute; reflexivity|]. split; [reflexivity|].
  split; [vm_compute; reflexivity|].
  split; [vm_compute; reflexivity|].
  vm_compute. discriminate.
Qed.

(** The update validated at height 99, below the stored height 100. *)
Lemma lower_height_is_refused_witness :
  exists m,
    CheckAssetInputs example_host (tx_carrying 22 update_x) 2
                     [commitment update_x] [alice] false 99 false
                     example_node EmptyString
    = Returned true m example_node
    /\ (m = ERR_2026_lower \/ m = ERR_2026_locked).
Proof.
  apply (ValidatorFacts.lower_height_is_refused
           example_host (tx_carrying 22 update_x) 2
           [commitment update_x] [alice] false 99 false
           example_node EmptyString update_x stored_x).
  - discriminate.
  - vm_compute. reflexivity.
  - vm_compute. reflexivity.
  - vm_compute. reflexivity.
  - simpl. lia.
Defined.

(** ** Transfers *)

(** C1 on the code: bob exists and accepts asset transfers, alice owns
    the asset and signs its transfer to bob, and yet the validator, at
    block time as in strict mode, refuses the transfer with the
    owner-must-sign-off error and leaves the chain state as it was: the
    owner check compares the stored owner with the owner the transfer has
    just installed. *)
Theorem transfer_to_accepting_alias_is_refused :
  GetAsset example_node asset_x nullAsset = (true, stored_x)
  /\ vchAlias stored_x = alice
  /\ GetAlias example_aliasdb bob = Some (mkAliasIndex 2)
  /\ accepts_asset_transfers example_host (mkAliasIndex 2)
  /\ CheckAssetInputs example_host (tx_carrying 22 transfer_to_bob) 3
                      [commitment transfer_to_bob] [alice] false 101 false
                      example_node EmptyString
     = Returned true ERR_2026_owner example_node
  /\ CheckAssetInputs example_host (tx_carrying 22 transfer_to_bob) 3
                      [commitment transfer_to_bob] [alice] true 101 false
                      example_node EmptyString
     = Returned true ERR_2026_owner example_node.
Proof.
  repeat split; try (vm_compute; reflexivity).
  vm_compute. discriminate.
Qed.

(** ** Hard and soft failures *)

(** C2 fails on the code: in strict mode, with a script-carried hash that
    is not the commitment of the payload, the call returns [true]. *)
Lemma hash_mismatch_counterexample :
  commitment stored_x <> commitment update_x
  /\ CheckAssetInputs example_host (tx_carrying 22 update_x) 2
                      [commitment stored_x] [alice] true 101 false
                      example_node EmptyString
     = Returned true ERR_2003 example_node.
Proof.
  split; [vm_compute; discriminate | vm_compute; reflexivity].
Qed.

Lemma hash_mismatch_is_soft_witness :
  CheckAssetInputs example_host (tx_carrying 22 update_x) 2
                   [commitment stored_x] [alice] true 101 false
                   example_node EmptyString
  = Returned true ERR_2003 example_node.
Proof.
  apply (ValidatorFacts.hash_mismatch_is_soft
           example_host (tx_carrying 22 update_x) 2
           [commitment stored_x] [alice] true 101 false
           example_node EmptyString
           (Serialize update_x) (commitment update_x) update_x
           (commitment stored_x)).
  - reflexivity.
  - discriminate.
  - discriminate.
  - reflexivity.
  - reflexivity.
  - vm_compute. reflexivity.
  - reflexivity.
  - vm_compute. discriminate.
Defined.

(** C7 fails on the code: in strict mode, the activation without a name
    makes the call return [false]. *)
Lemma activate_empty_name_counterexample :
  vchName nameless_y = []
  /\ CheckAssetInputs example_host (tx_carrying 33 nameless_y) 1
                      [commitment nameless_y] [alice] true 101 false
                      example_node EmptyString
     = Returned false ERR_2012 example_node.
Proof.
  split; [reflexivity | vm_compute; reflexivity].
Qed.

Lemma activate_bad_name_is_fatal_witness :
  exists m,
    CheckAssetInputs example_host (tx_carrying 33 nameless_y) 1
                     [commitment nameless_y] [alice] true 101 false
                     example_node EmptyString
    = Returned false m example_node
    /\ (Z.of_nat (length (sCategory nameless_y)) <= 256 ->
        Z.of_nat (length (vchPubData nameless_y)) <= 1024 ->
        vchLinkAlias nameless_y = [] ->
        m = ERR_2012).
Proof.
  apply (ValidatorFacts.activate_bad_name_is_fatal
           example_host (tx_carrying 33 nameless_y) 1
           [commitment nameless_y] [alice] true 101 false
           example_node EmptyString nameless_y).
  - reflexivity.
  - reflexivity.
  - discriminate.
  - discriminate.
  - vm_compute. reflexivity.
  - left. reflexivity.
Defined.

(** ** Reconciliation *)



End Scenarios.

(** ** Script codec: transactions and round trips *)

Module ScriptTxFacts.

Import Script ScriptTx ScriptFacts.

(** *** Reading single tokens *)

Lemma GetOp_opcode (s : CScript) (pc : nat) (b : byte) :
  nth_error s pc = Some b ->
  OP_PUSHDATA4 < byte_val b ->
  GetOp s pc = mkGetOp true (S pc) (byte_val b) [].
Proof.
  intros Hb Hbig. unfold GetOp. rewrite Hb.
  destruct (Z.leb_spec (byte_val b) OP_PUSHDATA4); [lia|reflexivity].
Qed.

Lemma nth_error_middle {A} (pre : list A) (x : A) (post : list A) :
  nth_error (pre ++ x :: post) (length pre) = Some x.
Proof. induction pre; simpl; auto. Qed.

Lemma skipn_middle {A} (pre mid post : list A) :
  skipn (length pre + length mid) (pre ++ mid ++ post) = post.
Proof.
  rewrite app_assoc, <- length_app. apply drop_app_length.
Qed.

(** A push token [o :: w ++ v]: opcode, size bytes, data. *)
Lemma GetOp_push_form (pre : CScript) (o : byte) (w v rest : list byte) :
  byte_val o <= OP_PUSHDATA4 ->
  length w = (if byte_val o <? OP_PUSHDATA1 then 0%nat
              else if byte_val o =? OP_PUSHDATA1 then 1%nat
              else if byte_val o =? OP_PUSHDATA2 then 2%nat else 4%nat) ->
  (if byte_val o <? OP_PUSHDATA1 then byte_val o else ReadLE w)
  = Z.of_nat (length v) ->
  GetOp (pre ++ o :: w ++ v ++ rest) (length pre)
  = mkGetOp true (length pre + length (o :: w ++ v)) (byte_val o) v.
Proof.
  intros Hpush Hw Hsize. unfold GetOp, bytes_left.
  rewrite nth_error_middle.
  destruct (Z.leb_spec (byte_val o) OP_PUSHDATA4) as [_|]; [|lia].
  rewrite <- Hw.
  assert (Hskip1 : skipn (S (length pre)) (pre ++ o :: w ++ v ++ rest)
                   = w ++ v ++ rest).
  { replace (S (length pre)) with (length pre + length [o])%nat
      by (simpl; lia).
    change (o :: w ++ v ++ rest) with ([o] ++ (w ++ v ++ rest)).
    apply skipn_middle. }
  assert (Hskip2 : skipn (S (length pre) + length w)
                         (pre ++ o :: w ++ v ++ rest) = v ++ rest).
  { replace (S (length pre) + length w)%nat
      with (length pre + length (o :: w))%nat by (simpl; lia).
    change (o :: w ++ v ++ rest) with ((o :: w) ++ (v ++ rest)).
    apply skipn_middle. }
  rewrite Hskip1, Hskip2, take_app_length.
  rewrite !length_app. cbn [length]. rewrite !length_app.
  destruct (Z.ltb_spec (Z.of_nat (length pre + S (length w + (length v + length rest)))
                        - Z.of_nat (S (length pre))) (Z.of_nat (length w)));
    [lia|].
  rewrite Hsize.
  destruct (Z.ltb_spec (Z.of_nat (length pre + S (length w + (length v + length rest)))
                        - Z.of_nat (S (length pre) + length w))
                       (Z.of_nat (length v))); [lia|].
  rewrite Nat2Z.id, take_app_length. f_equal. lia.
Qed.

Lemma push_data_token (v : vch) :
  Z.of_nat (length v) < 2 ^ 32 ->
  exists o w,
    push_data v = o :: w ++ v
    /\ 0 <= byte_val o <= OP_PUSHDATA4
    /\ length w = (if byte_val o <? OP_PUSHDATA1 then 0%nat
                   else if byte_val o =? OP_PUSHDATA1 then 1%nat
                   else if byte_val o =? OP_PUSHDATA2 then 2%nat else 4%nat)
    /\ (if byte_val o <? OP_PUSHDATA1 then byte_val o else ReadLE w)
       = Z.of_nat (length v).
Proof.
  intros Hv. unfold push_data, OP_PUSHDATA1, OP_PUSHDATA2, OP_PUSHDATA4.
  set (n := Z.of_nat (length v)) in *.
  assert (0 <= n) by (subst n; lia).
  destruct (Z.ltb_spec n 76).
  - exists (byte_of n), []. rewrite byte_val_of, Z.mod_small by lia.
    destruct (Z.ltb_spec n 76); [|lia]. repeat split; simpl; lia.
  - destruct (Z.leb_spec n 255).
    + exists (byte_of 76), [byte_of n]. rewrite byte_val_of.
      change (76 mod 256) with 76. cbn [Z.ltb Z.eqb Z.compare Pos.compare Pos.compare_cont].
      repeat split; try (simpl; lia).
      cbn [ReadLE]. rewrite byte_val_of, Z.mod_small by lia. lia.
    + destruct (Z.leb_spec n 65535).
      * exists (byte_of 77), (WriteLE 2 n). rewrite byte_val_of.
        change (77 mod 256) with 77. cbn [Z.ltb Z.eqb Z.compare Pos.compare Pos.compare_cont].
        repeat split; try (simpl; lia).
        apply CodecFacts.ReadLE_WriteLE. simpl. lia.
      * exists (byte_of 78), (WriteLE 4 n). rewrite byte_val_of.
        change (78 mod 256) with 78. cbn [Z.ltb Z.eqb Z.compare Pos.compare Pos.compare_cont].
        repeat split; try (simpl; lia).
        apply CodecFacts.ReadLE_WriteLE. simpl. lia.
Qed.

(** The tokenizer reads back a pushed byte vector, wherever it stands in
    a script. *)
Lemma GetOp_push_data (pre : CScript) (v : vch) (rest : CScript) :
  Z.of_nat (length v) < 2 ^ 32 ->
  exists opcode,
    GetOp (pre ++ push_data v ++ rest) (length pre)
    = mkGetOp true (length pre + length (push_data v)) opcode v
    /\ 0 <= opcode <= OP_PUSHDATA4.
Proof.
  intros Hv.
  destruct (push_data_token v Hv) as (o & w & Heq & Hr & Hw & Hs).
  exists (byte_val o). split; [|exact Hr].
  rewrite Heq. cbn [app]. rewrite <- app_assoc.
  apply GetOp_push_form; [lia|exact Hw|exact Hs].
Qed.

(** Whether it succeeds or not, a read leaves the cursor between where it
    was and the end of the script. *)
Lemma GetOp_cursor (s : CScript) (pc : nat) :
  (pc <= length s)%nat ->
  (pc <= op_pc (GetOp s pc) <= length s)%nat.
Proof.
  intros Hpc.
  destruct (op_ok (GetOp s pc)) eqn:Hok.
  - pose proof (GetOp_advances s pc Hok). lia.
  - revert Hok. unfold GetOp, bytes_left.
    destruct (nth_error s pc) as [b|] eqn:Hb; [|simpl; lia].
    assert (Hlt : (pc < length s)%nat)
      by (apply nth_error_Some; congruence).
    destruct (byte_val b <=? OP_PUSHDATA4);
      [|simpl; intros; discriminate].
    set (width := if byte_val b <? OP_PUSHDATA1 then 0%nat
                  else if byte_val b =? OP_PUSHDATA1 then 1%nat
                  else if byte_val b =? OP_PUSHDATA2 then 2%nat else 4%nat).
    destruct (_ <? Z.of_nat width) eqn:Hw; simpl; [lia|].
    set (nSize := if byte_val b <? OP_PUSHDATA1 then byte_val b else ReadLE _).
    destruct (_ <? nSize) eqn:Hn; simpl; [|intros; discriminate].
    apply Z.ltb_ge in Hw. lia.
Qed.

Section Built.

Variable host : Host.

(** *** What the decoder makes of the scripts the RPC commands build *)

Lemma EncodeOP_N_small (n : Z) :
  1 <= n <= 16 ->
  EncodeOP_N n = Returns (OP_1 + (n - 1))
  /\ byte_val (byte_of (OP_1 + (n - 1))) = OP_1 + (n - 1).
Proof.
  intros Hn. unfold EncodeOP_N, OP_1.
  destruct (Z.leb_spec 0 n); [|lia].
  destruct (Z.leb_spec n 16); [|lia].
  destruct (Z.eqb_spec n 0); [lia|]. split; [reflexivity|].
  rewrite byte_val_of. apply Z.mod_small. lia.
Qed.

Lemma read_args_step (fuel : nat) (s : CScript) (pc : nat) (vvch : list vch) :
  read_args (S fuel) s pc vvch
  = let r := GetOp s pc in
    if negb (op_ok r) then Returns (false, op_pc r, op_code r, vvch)
    else if is_drop (op_code r) then Returns (true, op_pc r, op_code r, vvch)
    else if negb (is_push (op_code r))
         then Returns (false, op_pc r, op_code r, vvch)
    else read_args fuel s (op_pc r) (vvch ++ [op_vch r]).
Proof. reflexivity. Qed.

Lemma skip_drops_step (fuel : nat) (s : CScript) (pc : nat) (opcode : Z) :
  skip_drops (S fuel) s pc opcode
  = if is_drop opcode then
      let r := GetOp s pc in
      if negb (op_ok r) then Returns (op_pc r)
      else skip_drops fuel s (op_pc r) (op_code r)
    else Returns pc.
Proof. reflexivity. Qed.

Lemma asset_script_built (op : Z) (h : vch) (orig : CScript) :
  1 <= OP_SYSCOIN_ASSET host <= 16 ->
  1 <= op <= 16 ->
  asset_script host op h orig = Returns (built host op h orig).
Proof.
  intros Ht Ho. unfold asset_script.
  destruct (EncodeOP_N_small _ Ht) as [-> _].
  destruct (EncodeOP_N_small _ Ho) as [-> _]. reflexivity.
Qed.

Lemma built_decode (op : Z) (h : vch) (orig : CScript) (op0 : Z) :
  1 <= OP_SYSCOIN_ASSET host <= 16 ->
  1 <= op <= 16 ->
  IsAssetOp host op = true ->
  Z.of_nat (length h) < 2 ^ 32 ->
  DecodeAssetScript_at host (built host op h orig) op0 0
  = match skip_drops (S (length (built host op h orig))) (built host op h orig)
                     (S (drops_at h)) OP_2DROP with
    | Returns pc => Returns (mkDecoded true op [h] (pred pc))
    | AssertionFailed => AssertionFailed
    | OutOfFuel => OutOfFuel
    end.
Proof.
  intros Ht Ho Hop Hh.
  destruct (EncodeOP_N_small _ Ht) as [_ Hb1].
  destruct (EncodeOP_N_small _ Ho) as [_ Hb2].
  set (s := built host op h orig).
  assert (H0 : GetOp s 0
               = mkGetOp true 1 (OP_1 + (OP_SYSCOIN_ASSET host - 1)) []).
  { rewrite <- Hb1. apply GetOp_opcode; [reflexivity|].
    rewrite Hb1. unfold OP_1, OP_PUSHDATA4. lia. }
  assert (H1 : GetOp s 1 = mkGetOp true 2 (OP_1 + (op - 1)) []).
  { rewrite <- Hb2. apply GetOp_opcode; [reflexivity|].
    rewrite Hb2. unfold OP_1, OP_PUSHDATA4. lia. }
  destruct (GetOp_push_data
              [byte_of (OP_1 + (OP_SYSCOIN_ASSET host - 1));
               byte_of (OP_1 + (op - 1))]
              h ([byte_of OP_2DROP; byte_of OP_DROP] ++ orig) Hh)
    as (opcode & H2 & Hpush).
  change (GetOp s 2 = mkGetOp true (drops_at h) opcode h) in H2.
  assert (H3 : GetOp s (drops_at h)
               = mkGetOp true (S (drops_at h)) OP_2DROP []).
  { change OP_2DROP with 109.
    replace 109 with (byte_val (byte_of 109))
      by (rewrite byte_val_of; reflexivity).
    apply GetOp_opcode.
    - unfold s, built, drops_at.
      change (2 + length (push_data h))%nat
        with (length ([byte_of (OP_1 + (OP_SYSCOIN_ASSET host - 1));
                       byte_of (OP_1 + (op - 1))]) + length (push_data h))%nat.
      rewrite app_assoc, <- length_app. apply nth_error_middle.
    - rewrite byte_val_of. unfold OP_PUSHDATA4. reflexivity. }
  unfold DecodeAssetScript_at. fold s.
  rewrite H0. cbn [op_ok op_code op_pc negb].
  destruct (Z.ltb_spec (OP_1 + (OP_SYSCOIN_ASSET host - 1)) OP_1);
    [lia|].
  rewrite Z.gtb_ltb.
  destruct (Z.ltb_spec OP_16 (OP_1 + (OP_SYSCOIN_ASSET host - 1)));
    [unfold OP_1, OP_16 in *; lia|].
  cbn [orb].
  rewrite DecodeOP_N_small
    by (rewrite Z.gtb_ltb;
        destruct (Z.ltb_spec (OP_1 + (OP_SYSCOIN_ASSET host - 1)) OP_1);
        destruct (Z.ltb_spec OP_16 (OP_1 + (OP_SYSCOIN_ASSET host - 1)));
        unfold OP_1, OP_16 in *; (reflexivity || lia)).
  replace (OP_1 + (OP_SYSCOIN_ASSET host - 1) - (OP_1 - 1))
    with (OP_SYSCOIN_ASSET host) by lia.
  rewrite Z.eqb_refl. cbn [negb].
  rewrite H1. cbn [op_ok op_code op_pc negb].
  destruct (Z.ltb_spec (OP_1 + (op - 1)) OP_1); [lia|].
  rewrite Z.gtb_ltb.
  destruct (Z.ltb_spec OP_16 (OP_1 + (op - 1)));
    [unfold OP_1, OP_16 in *; lia|].
  cbn [orb].
  rewrite DecodeOP_N_small
    by (rewrite Z.gtb_ltb;
        destruct (Z.ltb_spec (OP_1 + (op - 1)) OP_1);
        destruct (Z.ltb_spec OP_16 (OP_1 + (op - 1)));
        unfold OP_1, OP_16 in *; (reflexivity || lia)).
  replace (OP_1 + (op - 1) - (OP_1 - 1)) with op by lia.
  rewrite Hop. cbn [negb].
  assert (Hlen : (2 <= length s)%nat).
  { unfold s, built. rewrite length_app. simpl. lia. }
  destruct (length s) as [|[|n]] eqn:Hn; [lia|lia|].
  rewrite read_args_step, H2. cbn [op_ok op_code op_pc op_vch negb].
  assert (Hnd : is_drop opcode = false).
  { unfold is_drop, OP_DROP, OP_2DROP, OP_PUSHDATA4 in *.
    destruct (Z.eqb_spec opcode 117); [lia|].
    destruct (Z.eqb_spec opcode 109); [lia|]. reflexivity. }
  assert (Hp : is_push opcode = true).
  { unfold is_push.
    destruct (Z.leb_spec 0 opcode); [|lia].
    destruct (Z.leb_spec opcode OP_PUSHDATA4); [reflexivity|lia]. }
  rewrite Hnd, Hp. cbn [negb].
  rewrite read_args_step, H3. cbn [op_ok op_code op_pc op_vch negb app].
  change (is_drop OP_2DROP) with true. cbn iota.
  reflexivity.
Qed.

Lemma built_tail (op : Z) (h : vch) (orig : CScript) :
  built host op h orig
  = ([byte_of (OP_1 + (OP_SYSCOIN_ASSET host - 1)); byte_of (OP_1 + (op - 1))]
     ++ push_data h ++ [byte_of OP_2DROP]) ++ byte_of OP_DROP :: orig
  /\ length ([byte_of (OP_1 + (OP_SYSCOIN_ASSET host - 1));
              byte_of (OP_1 + (op - 1))]
             ++ push_data h ++ [byte_of OP_2DROP]) = S (drops_at h).
Proof.
  unfold built, drops_at. split.
  - rewrite <- !app_assoc. reflexivity.
  - rewrite !length_app. simpl. lia.
Qed.

(** X2. The decoder reads back the scripts the RPC commands build: for a
    service tag and a sub-operation between 1 and 16, the script
    [asset_script] returns is accepted, with that sub-operation and the
    payload hash as its only argument, whatever script follows the
    drops. *)
Theorem asset_script_decodes (op : Z) (h : vch) (orig : CScript) (op0 : Z) :
  1 <= OP_SYSCOIN_ASSET host <= 16 ->
  1 <= op <= 16 ->
  IsAssetOp host op = true ->
  Z.of_nat (length h) < 2 ^ 32 ->
  exists s d,
    asset_script host op h orig = Returns s
    /\ DecodeAssetScript host s op0 = Returns d
    /\ d_ret d = true
    /\ d_op d = op
    /\ d_vvch d = [h].
Proof.
  intros Ht Ho Hop Hh.
  exists (built host op h orig).
  unfold DecodeAssetScript.
  rewrite (built_decode op h orig op0 Ht Ho Hop Hh).
  destruct (skip_drops_returns (built host op h orig)
              (S (length (built host op h orig))) (S (drops_at h)) OP_2DROP)
    as [pc Hpc].
  - destruct (built_tail op h orig) as [Heq Hlen].
    rewrite Heq, length_app, Hlen. lia.
  - lia.
  - rewrite Hpc. eexists. split; [apply asset_script_built; assumption|].
    repeat split.
Qed.

Lemma built_after_drops (op : Z) (h : vch) (orig : CScript) :
  built host op h orig = built host op h [] ++ orig
  /\ length (built host op h []) = S (S (drops_at h)).
Proof.
  unfold built, drops_at. split.
  - rewrite <- !app_assoc. reflexivity.
  - rewrite !length_app. cbn [length]. lia.
Qed.

(** The decoder on a built script, up to the token that follows the two
    drops. *)
Lemma built_decode_drops (op : Z) (h : vch) (orig : CScript) (op0 : Z) :
  1 <= OP_SYSCOIN_ASSET host <= 16 ->
  1 <= op <= 16 ->
  IsAssetOp host op = true ->
  Z.of_nat (length h) < 2 ^ 32 ->
  DecodeAssetScript_at host (built host op h orig) op0 0
  = let s := built host op h orig in
    let r := GetOp s (S (S (drops_at h))) in
    if negb (op_ok r) then Returns (mkDecoded true op [h] (pred (op_pc r)))
    else match skip_drops (length s - 1) s (op_pc r) (op_code r) with
         | Returns pc => Returns (mkDecoded true op [h] (pred pc))
         | AssertionFailed => AssertionFailed
         | OutOfFuel => OutOfFuel
         end.
Proof.
  intros Ht Ho Hop Hh.
  rewrite (built_decode op h orig op0 Ht Ho Hop Hh).
  destruct (built_after_drops op h orig) as [Heq Hlen].
  destruct (built_tail op h orig) as [Heq2 Hlen2].
  set (s := built host op h orig) in *. cbv zeta.
  assert (Hn : (2 <= length s)%nat).
  { rewrite Heq, length_app, Hlen. lia. }
  assert (Hd1 : GetOp s (S (drops_at h))
                = mkGetOp true (S (S (drops_at h))) OP_DROP []).
  { change OP_DROP with 117.
    replace 117 with (byte_val (byte_of 117))
      by (rewrite byte_val_of; reflexivity).
    apply GetOp_opcode.
    - rewrite Heq2, <- Hlen2. apply nth_error_middle.
    - rewrite byte_val_of. reflexivity. }
  destruct (length s) as [|[|n]] eqn:En; try lia.
  rewrite skip_drops_step. change (is_drop OP_2DROP) with true.
  cbn iota. cbv zeta. rewrite Hd1. cbn [op_ok op_pc op_code negb].
  rewrite skip_drops_step. change (is_drop OP_DROP) with true.
  cbn iota. cbv zeta.
  replace (S (S n) - 1)%nat with (S n) by lia.
  destruct (op_ok (GetOp s (S (S (drops_at h))))); reflexivity.
Qed.

(** X3. [RemoveAssetScriptPrefix] undoes what the RPC commands put in
    front of a payment script, when that script starts with an opcode that
    is neither a push nor a drop (as pay-to-pubkey-hash and
    pay-to-script-hash scripts do). *)
Theorem RemoveAssetScriptPrefix_restores (op : Z) (h : vch) (b : byte)
    (orig scriptOut : CScript) :
  1 <= OP_SYSCOIN_ASSET host <= 16 ->
  1 <= op <= 16 ->
  IsAssetOp host op = true ->
  Z.of_nat (length h) < 2 ^ 32 ->
  OP_PUSHDATA4 < byte_val b ->
  byte_val b <> OP_DROP ->
  byte_val b <> OP_2DROP ->
  exists s,
    asset_script host op h (b :: orig) = Returns s
    /\ RemoveAssetScriptPrefix host s scriptOut = Returns (true, b :: orig).
Proof.
  intros Ht Ho Hop Hh Hb Hd Hd2.
  exists (built host op h (b :: orig)).
  split; [apply asset_script_built; assumption|].
  unfold RemoveAssetScriptPrefix.
  rewrite (built_decode_drops op h (b :: orig) 0 Ht Ho Hop Hh).
  destruct (built_after_drops op h (b :: orig)) as [Heq Hlen].
  set (s := built host op h (b :: orig)) in *. cbv zeta.
  assert (Hnext : GetOp s (S (S (drops_at h)))
                  = mkGetOp true (S (S (S (drops_at h)))) (byte_val b) []).
  { apply GetOp_opcode; [|exact Hb].
    rewrite Heq, <- Hlen. apply nth_error_middle. }
  rewrite Hnext. cbn [op_ok op_pc op_code negb].
  assert (Hn : (3 <= length s)%nat).
  { rewrite Heq, length_app, Hlen. cbn [length]. lia. }
  destruct (length s) as [|[|[|n]]] eqn:En; try lia.
  replace (S (S (S n)) - 1)%nat with (S (S n)) by lia.
  rewrite skip_drops_step.
  assert (Hnd : is_drop (byte_val b) = false).
  { unfold is_drop.
    destruct (Z.eqb_spec (byte_val b) OP_DROP); [contradiction|].
    destruct (Z.eqb_spec (byte_val b) OP_2DROP); [contradiction|].
    reflexivity. }
  rewrite Hnd. cbn [d_ret d_pc negb Nat.pred].
  f_equal. f_equal.
  rewrite Heq at 1. rewrite <- Hlen at 1. apply drop_app_length.
Qed.

(** X4. The cursor is stepped back by one byte, not by one token: when
    the payment script starts with a push of a non-empty byte vector (as a
    pay-to-pubkey script does), [RemoveAssetScriptPrefix] returns true and
    hands back only the last pushed byte and what follows the push; and
    when nothing follows the prefix, it hands back the last drop. *)
Theorem RemoveAssetScriptPrefix_steps_back_one_byte (op : Z) (h v : vch)
    (b : byte) (rest scriptOut : CScript) :
  1 <= OP_SYSCOIN_ASSET host <= 16 ->
  1 <= op <= 16 ->
  IsAssetOp host op = true ->
  Z.of_nat (length h) < 2 ^ 32 ->
  Z.of_nat (length (v ++ [b])) < 2 ^ 32 ->
  (exists s,
     asset_script host op h (push_data (v ++ [b]) ++ rest) = Returns s
     /\ RemoveAssetScriptPrefix host s scriptOut = Returns (true, b :: rest))
  /\ (exists s,
        asset_script host op h [] = Returns s
        /\ RemoveAssetScriptPrefix host s scriptOut
           = Returns (true, [byte_of OP_DROP])).
Proof.
  intros Ht Ho Hop Hh Hv. split.
  - exists (built host op h (push_data (v ++ [b]) ++ rest)).
    split; [apply asset_script_built; assumption|].
    unfold RemoveAssetScriptPrefix.
    rewrite (built_decode_drops op h _ 0 Ht Ho Hop Hh).
    destruct (built_after_drops op h (push_data (v ++ [b]) ++ rest))
      as [Heq Hlen].
    set (s := built host op h (push_data (v ++ [b]) ++ rest)) in *.
    cbv zeta.
    destruct (GetOp_push_data (built host op h []) (v ++ [b]) rest Hv)
      as (opcode & Hnext & Hpush).
    rewrite <- Heq, Hlen in Hnext.
    rewrite Hnext. cbn [op_ok op_pc op_code negb].
    assert (Htok : exists front,
               push_data (v ++ [b]) = front ++ [b]).
    { unfold push_data. eexists. rewrite app_assoc. reflexivity. }
    destruct Htok as [front Htok].
    assert (Hn : (3 <= length s)%nat).
    { rewrite Heq, length_app, Hlen, length_app, Htok, length_app.
      cbn [length]. lia. }
    destruct (length s) as [|[|[|n]]] eqn:En; try lia.
    replace (S (S (S n)) - 1)%nat with (S (S n)) by lia.
    rewrite skip_drops_step.
    assert (Hnd : is_drop opcode = false).
    { unfold is_drop, OP_DROP, OP_2DROP, OP_PUSHDATA4 in *.
      destruct (Z.eqb_spec opcode 117); [lia|].
      destruct (Z.eqb_spec opcode 109); [lia|]. reflexivity. }
    rewrite Hnd. cbn [d_ret d_pc negb].
    f_equal. f_equal.
    rewrite Heq, Htok, <- app_assoc, app_assoc. cbn [app].
    replace (Nat.pred (S (S (drops_at h)) + length (front ++ [b])))
      with (length (built host op h [] ++ front))
      by (rewrite !length_app, Hlen; cbn [length]; lia).
    apply drop_app_length.
  - exists (built host op h []).
    split; [apply asset_script_built; assumption|].
    unfold RemoveAssetScriptPrefix.
    rewrite (built_decode_drops op h [] 0 Ht Ho Hop Hh).
    destruct (built_after_drops op h []) as [_ Hlen].
    set (s := built host op h []) in *. cbv zeta.
    assert (Hend : GetOp s (S (S (drops_at h)))
                   = mkGetOp false (S (S (drops_at h))) OP_INVALIDOPCODE []).
    { unfold GetOp.
      replace (nth_error s (S (S (drops_at h)))) with (@None byte);
        [reflexivity|].
      symmetry. apply nth_error_None. lia. }
    rewrite Hend. cbn [op_ok op_pc negb d_ret d_pc Nat.pred].
    f_equal. f_equal.
    destruct (built_tail op h []) as [Heq2 Hlen2].
    fold s in Heq2. rewrite Heq2, <- Hlen2. apply drop_app_length.
Qed.

(** *** What an accepted script looks like *)

Lemma read_args_accepts (s : CScript) :
  forall fuel pc vvch pc' opcode vvch',
    read_args fuel s pc vvch = Returns (true, pc', opcode, vvch') ->
    (pc < pc' <= length s)%nat.
Proof.
  induction fuel as [|fuel IH]; intros pc vvch pc' opcode vvch';
    [discriminate|].
  rewrite read_args_step. cbv zeta.
  destruct (op_ok (GetOp s pc)) eqn:Hok; cbn [negb]; [|discriminate].
  pose proof (GetOp_advances s pc Hok) as Hadv.
  destruct (is_drop (op_code (GetOp s pc))).
  - intros [= <- _ _]. exact Hadv.
  - destruct (is_push (op_code (GetOp s pc))); cbn [negb]; [|discriminate].
    intros Hrec. apply IH in Hrec. lia.
Qed.

Lemma skip_drops_cursor (s : CScript) :
  forall fuel pc opcode pc',
    skip_drops fuel s pc opcode = Returns pc' ->
    (pc <= length s)%nat -> (pc <= pc' <= length s)%nat.
Proof.
  induction fuel as [|fuel IH]; intros pc opcode pc'; [discriminate|].
  rewrite skip_drops_step. cbv zeta. intros Hrun Hpc.
  pose proof (GetOp_cursor s pc Hpc) as Hc.
  destruct (is_drop opcode).
  - destruct (op_ok (GetOp s pc)); cbn [negb] in Hrun.
    + apply IH in Hrun; lia.
    + injection Hrun as <-. exact Hc.
  - injection Hrun as <-. lia.
Qed.

(** An accepted script carries one of the four sub-operations, and the
    cursor handed back lies behind the two tags and inside the script. *)
Lemma DecodeAssetScript_at_accepts (s : CScript) (op0 : Z) (d : Decoded) :
  DecodeAssetScript_at host s op0 0 = Returns d ->
  d_ret d = true ->
  IsAssetOp host (d_op d) = true /\ (2 <= d_pc d <= length s)%nat.
Proof.
  unfold DecodeAssetScript_at.
  destruct (op_ok (GetOp s 0)) eqn:Hok1; cbn [negb];
    [|intros [= <-]; discriminate].
  destruct (_ || _) eqn:Hr1; [intros [= <-]; discriminate|].
  rewrite (DecodeOP_N_small _ Hr1).
  destruct (_ =? OP_SYSCOIN_ASSET host); cbn [negb];
    [|intros [= <-]; discriminate].
  pose proof (GetOp_advances s 0 Hok1) as Ha1.
  set (pc1 := op_pc (GetOp s 0)) in *.
  destruct (op_ok (GetOp s pc1)) eqn:Hok2; cbn [negb];
    [|intros [= <-]; discriminate].
  destruct ((op_code (GetOp s pc1) <? OP_1) || _) eqn:Hr2;
    [intros [= <-]; discriminate|].
  rewrite (DecodeOP_N_small _ Hr2).
  destruct (IsAssetOp host _) eqn:Hop; cbn [negb];
    [|intros [= <-]; discriminate].
  pose proof (GetOp_advances s pc1 Hok2) as Ha2.
  set (pc2 := op_pc (GetOp s pc1)) in *.
  destruct (read_args (S (length s)) s pc2 []) as [[[[f p] o] v]| |] eqn:Hra;
    try discriminate.
  destruct f; [|intros [= <-]; discriminate].
  apply read_args_accepts in Hra.
  destruct (skip_drops (S (length s)) s p o) as [p'| |] eqn:Hsd;
    try discriminate.
  apply skip_drops_cursor in Hsd; [|lia].
  intros [= <-] _. cbn [d_op d_pc]. split; [exact Hop|]. lia.
Qed.

(** The value [op] holds before the call does not matter to a script that
    is accepted. *)
Lemma DecodeAssetScript_op (s : CScript) (op op' : Z) (d : Decoded) :
  DecodeAssetScript host s op = Returns d ->
  d_ret d = true ->
  DecodeAssetScript host s op' = Returns d.
Proof.
  unfold DecodeAssetScript, DecodeAssetScript_at.
  destruct (op_ok (GetOp s 0)); cbn [negb];
    [|intros [= <-]; discriminate].
  destruct (_ || _); [intros [= <-]; discriminate|].
  destruct (DecodeOP_N (op_code (GetOp s 0))) as [o1| |]; try discriminate.
  destruct (o1 =? OP_SYSCOIN_ASSET host); cbn [negb];
    [|intros [= <-]; discriminate].
  trivial.
Qed.

Lemma decodes_op (s : CScript) (op : Z) :
  decodes host s <->
  exists d, DecodeAssetScript host s op = Returns d /\ d_ret d = true.
Proof.
  unfold decodes. split; intros (d & Hd & Hret); exists d;
    (split; [|exact Hret]); eapply DecodeAssetScript_op; eassumption.
Qed.

(** X1. [RemoveAssetScriptPrefix] always returns. It returns true exactly
    for the scripts the decoder accepts, and [scriptOut] is then a proper
    tail of [scriptIn], at least two bytes shorter; when it returns false,
    [scriptOut] is left as it was. *)
Theorem RemoveAssetScriptPrefix_tail (scriptIn scriptOut : CScript) :
  exists ok out,
    RemoveAssetScriptPrefix host scriptIn scriptOut = Returns (ok, out)
    /\ (ok = true <-> decodes host scriptIn)
    /\ (ok = true ->
        exists prefix,
          scriptIn = prefix ++ out /\ (2 <= length prefix)%nat)
    /\ (ok = false -> out = scriptOut).
Proof.
  unfold RemoveAssetScriptPrefix.
  destruct (DecodeAssetScript_returns host scriptIn 0) as [d Hd].
  unfold DecodeAssetScript in Hd. rewrite Hd.
  destruct (d_ret d) eqn:Hret; cbn [negb].
  - exists true, (skipn (d_pc d) scriptIn).
    destruct (DecodeAssetScript_at_accepts scriptIn 0 d Hd Hret)
      as [_ Hpc].
    split; [reflexivity|]. split; [|split; [|discriminate]].
    + split; [|reflexivity]. intros _. exists d. split; assumption.
    + intros _. exists (firstn (d_pc d) scriptIn).
      split; [symmetry; apply firstn_skipn|].
      rewrite length_firstn. lia.
  - exists false, scriptOut.
    split; [reflexivity|]. split; [|split; [discriminate|reflexivity]].
    split; [discriminate|].
    intros (d' & Hd' & Hret'). unfold DecodeAssetScript in Hd'.
    congruence.
Qed.

(** *** Transactions *)

Lemma DecodeAssetTx_loop_spec (vout : list CScript) :
  forall (i : nat) (op nOut : Z) (vvch : list vch),
  exists r,
    DecodeAssetTx_loop host vout i op nOut vvch = Returns r
    /\ if t_found r
       then exists k s d,
              nth_error vout k = Some s
              /\ t_nOut r = Z.of_nat (i + k)
              /\ DecodeAssetScript host s 0 = Returns d
              /\ d_ret d = true
              /\ t_op r = d_op d
              /\ t_vvch r = d_vvch d
              /\ (forall j s', (j < k)%nat ->
                    nth_error vout j = Some s' -> ~ decodes host s')
       else t_nOut r = nOut
            /\ t_vvch r = vvch
            /\ (forall s, In s vout -> ~ decodes host s).
Proof.
  induction vout as [|out vout IH]; intros i op nOut vvch.
  - eexists. split; [reflexivity|]. cbn [t_found t_nOut t_vvch].
    repeat split. intros s [].
  - cbn [DecodeAssetTx_loop].
    destruct (DecodeAssetScript_returns host out op) as [d Hd].
    rewrite Hd. destruct (d_ret d) eqn:Hret.
    + eexists. split; [reflexivity|]. cbn [t_found t_nOut t_op t_vvch].
      exists 0%nat, out, d. rewrite Nat.add_0_r.
      repeat split; try reflexivity.
      * eapply DecodeAssetScript_op; eassumption.
      * exact Hret.
      * intros j s' Hj. lia.
    + destruct (IH (S i) (d_op d) nOut vvch) as (r & Hr & Hspec).
      exists r. split; [exact Hr|].
      assert (Hout : ~ decodes host out).
      { intros Hdec. apply (decodes_op out op) in Hdec.
        destruct Hdec as (d' & Hd' & Hret'). congruence. }
      destruct (t_found r).
      * destruct Hspec as (k & s & d' & Hk & Hn & Hd' & Hret' & Hop & Hv & Hfirst).
        exists (S k), s, d'. repeat split; try assumption.
        -- rewrite Hn. f_equal. lia.
        -- intros [|j] s' Hj Hs'.
           ++ injection Hs' as <-. exact Hout.
           ++ apply (Hfirst j s'); [lia|exact Hs'].
      * destruct Hspec as (Hn & Hv & Hall).
        repeat split; try assumption.
        intros s [<-|Hin]; [exact Hout|]. apply Hall, Hin.
Qed.

(** X5. [DecodeAssetTx] always returns. When it returns true, [nOut] is
    the index of the first output whose script the decoder accepts, and
    [op] and [vvch] are the sub-operation and the arguments of that
    script; when it returns false, no output script is accepted, [vvch]
    is empty and [nOut] is left as it was. *)
Theorem DecodeAssetTx_first_match (vout : list CScript) (op nOut : Z)
    (vvch : list vch) :
  exists r,
    DecodeAssetTx host vout op nOut vvch = Returns r
    /\ if t_found r
       then exists i s d,
              nth_error vout i = Some s
              /\ t_nOut r = Z.of_nat i
              /\ DecodeAssetScript host s 0 = Returns d
              /\ d_ret d = true
              /\ t_op r = d_op d
              /\ t_vvch r = d_vvch d
              /\ (forall j s', (j < i)%nat ->
                    nth_error vout j = Some s' -> ~ decodes host s')
       else t_nOut r = nOut
            /\ t_vvch r = []
            /\ (forall s, In s vout -> ~ decodes host s).
Proof.
  unfold DecodeAssetTx.
  destruct (DecodeAssetTx_loop_spec vout 0 op nOut vvch) as (r & Hr & Hspec).
  rewrite Hr. destruct (t_found r) eqn:Hfound; cbn [negb].
  - exists r. split; [reflexivity|]. rewrite Hfound. exact Hspec.
  - eexists. split; [reflexivity|]. cbn [t_found t_nOut t_vvch].
    destruct Hspec as (Hn & _ & Hall). repeat split; assumption.
Qed.

End Built.

End ScriptTxFacts.

(** ** Payload and script of a transaction *)

Module TxCodecFacts.

Import Script Codec Validator ScriptTx TxCodec.
Import ScriptFacts CodecFacts ScriptTxFacts.

Section Parse.

Variables (host : Host) (ASSET : Z).

(** X6. [UnserializeFromData] reads one record from the front of the
    payload and ignores what follows it: the hash is compared with the
    hash of the record serialised again, not with the hash of the bytes
    received. *)
Theorem UnserializeFromData_ignores_trailing_bytes (r : CAsset)
    (rest : list byte) :
  valid_asset r ->
  UnserializeFromData host (Serialize r ++ rest) (HashHex host (Serialize r))
  = (true, r).
Proof.
  intros Hr. unfold UnserializeFromData, Serialize.
  rewrite (stream_in_out r rest Hr).
  rewrite bool_decide_eq_false_2; [reflexivity|].
  intros Hne. now apply Hne.
Qed.

(** X7. [UnserializeFromTx] leaves a null object whenever it returns
    false, whether the transaction carries no payload, the payload cannot
    be read or the hash does not match; when it returns true, the object
    was read from the front of the payload and the hash carried with the
    payload is the hash of its serialisation. *)
Theorem UnserializeFromTx_outcome (tx : CTransaction) :
  let r := UnserializeFromTx host tx in
  (r.1 = false -> r.2 = nullAsset)
  /\ (r.1 = true ->
      exists data hash rest,
        SyscoinData tx = Some (data, hash)
        /\ stream_in data = Some (r.2, rest)
        /\ HashHex host (Serialize r.2) = hash).
Proof.
  unfold UnserializeFromTx.
  destruct (SyscoinData tx) as [[data hash]|];
    [|split; [reflexivity|discriminate]].
  unfold UnserializeFromData.
  destruct (stream_in data) as [[a rest]|] eqn:Hin;
    [|split; [reflexivity|discriminate]].
  destruct (bool_decide (HashHex host (Serialize a) <> hash)) eqn:Hb;
    cbn [negb fst snd]; [split; [reflexivity|discriminate]|].
  split; [discriminate|]. intros _.
  exists data, hash, rest.
  split; [reflexivity|]. split; [exact Hin|].
  apply bool_decide_eq_false in Hb.
  destruct (decide (HashHex host (Serialize a) = hash)) as [He|Hn];
    [exact He|contradiction].
Qed.

Lemma DecodeAssetTx_loop_skips (before after : list CScript) (s : CScript)
    (d : Decoded) (nOut : Z) (vvch : list vch) :
  Forall (fun s' => ~ decodes host s') before ->
  DecodeAssetScript host s 0 = Returns d ->
  d_ret d = true ->
  forall (i : nat) (op : Z),
    DecodeAssetTx_loop host (before ++ s :: after) i op nOut vvch
    = Returns (mkDecodedTx true (d_op d) (Z.of_nat (i + length before))
                           (d_vvch d)).
Proof.
  intros Hbefore Hd Hret.
  induction Hbefore as [|out before Hout _ IH]; intros i op.
  - cbn [app DecodeAssetTx_loop length].
    rewrite (DecodeAssetScript_op host s 0 op d Hd Hret), Hret.
    now rewrite Nat.add_0_r.
  - cbn [app DecodeAssetTx_loop length].
    destruct (DecodeAssetScript_returns host out op) as [d' Hd'].
    rewrite Hd'. destruct (d_ret d') eqn:Hret'.
    + exfalso. apply Hout. apply (decodes_op host out op). eauto.
    + rewrite IH. do 3 f_equal. lia.
Qed.

(** X8. What the RPC commands put into a transaction is what
    [DecodeAndParseAssetTx] finds there: when the payload is the
    serialisation of a valid record, and the first output the decoder
    accepts is the script built from the hash of that payload, the call
    returns true, sets the type to [ASSET] and hands back the
    sub-operation, the index of that output and the hash as the only
    argument. *)
Theorem DecodeAndParseAssetTx_accepts_built (tx : CTransaction)
    (a : CAsset) (op : Z) (orig s : CScript) (before after : list CScript)
    (op0 nOut0 : Z) (vvch0 : list vch) (type0 : Z) :
  1 <= OP_SYSCOIN_ASSET host <= 16 ->
  1 <= op <= 16 ->
  IsAssetOp host op = true ->
  valid_asset a ->
  Z.of_nat (length (HashHex host (Serialize a))) < 2 ^ 32 ->
  SyscoinData tx = Some (Serialize a, HashHex host (Serialize a)) ->
  asset_script host op (HashHex host (Serialize a)) orig = Returns s ->
  Forall (fun s' => ~ decodes host s') before ->
  DecodeAndParseAssetTx host ASSET tx (before ++ s :: after)
                        op0 nOut0 vvch0 type0
  = Returns (true,
             mkDecodedTx true op (Z.of_nat (length before))
                         [HashHex host (Serialize a)],
             ASSET).
Proof.
  intros Ht Ho Hop Ha Hh Hdata Hs Hbefore.
  rewrite (asset_script_built host op _ orig Ht Ho) in Hs.
  injection Hs as <-.
  pose proof (built_decode host op (HashHex host (Serialize a)) orig 0
                Ht Ho Hop Hh) as Hdec.
  destruct (DecodeAssetScript_returns host
              (built host op (HashHex host (Serialize a)) orig) 0)
    as [d Hd].
  assert (Hshape : d_ret d = true /\ d_op d = op
                   /\ d_vvch d = [HashHex host (Serialize a)]).
  { unfold DecodeAssetScript in Hd. rewrite Hdec in Hd.
    destruct (skip_drops _ _ _ _); try discriminate.
    injection Hd as <-. repeat split. }
  destruct Hshape as (Hret & Hdop & Hdv).
  unfold DecodeAndParseAssetTx, DecodeAssetTx.
  rewrite (DecodeAssetTx_loop_skips before after _ d nOut0 vvch0
             Hbefore Hd Hret).
  cbn [t_found negb]. unfold UnserializeFromTx. rewrite Hdata.
  replace (Serialize a) with (Serialize a ++ []) at 1 by apply app_nil_r.
  unfold UnserializeFromData, Serialize.
  rewrite (stream_in_out a [] Ha).
  rewrite bool_decide_eq_false_2 by (intros Hne; now apply Hne).
  cbn [negb andb]. rewrite Hdop, Hdv. reflexivity.
Qed.

End Parse.

End TxCodecFacts.

(** ** Expiration *)

Module ExpirationFacts.

Import Codec Validator LeaseSpec LeaseFacts.

(** X9. An asset whose owner has no lease on record (the registry is
    unset, does not know the alias, or holds a null record for it) never
    reads back as expired: its expiration is always one second ahead of
    the median time. *)
Theorem GetAsset_without_lease (node : Node) (db : CAssetDB) (id : vch)
    (record txPos : CAsset) :
  0 <= medianTimePast node < 2 ^ 63 - 1 ->
  passetdb node = Some db ->
  ReadAsset db id = Some record ->
  recorded_lease node (vchAlias record) = None ->
  GetAssetExpiration node record = medianTimePast node + 1
  /\ GetAsset node id txPos = (true, record).
Proof.
  intros Ht Hdb Hrec Hlease.
  assert (Hexp : GetAssetExpiration node record = medianTimePast node + 1).
  { rewrite (GetAssetExpiration_spec node record Ht).
    unfold expiration. now rewrite Hlease. }
  split; [exact Hexp|].
  apply (GetAsset_live node db id record txPos Ht Hdb Hrec). lia.
Qed.

End ExpirationFacts.

(** ** The wire format and the names of the operations *)

Module FormatFacts.

Import Script Codec Validator CodecFacts.

(** X21. The wire format is prefix-free on valid records: two
    serialisations, each followed by any bytes, that give the same byte
    string are serialisations of the same record followed by the same
    bytes; in particular [Serialize] is injective, so a hash of the
    payload stands for one record. *)
Theorem Serialize_prefix_free (a b : CAsset) (rest rest' : list byte) :
  valid_asset a ->
  valid_asset b ->
  Serialize a ++ rest = Serialize b ++ rest' ->
  a = b /\ rest = rest'.
Proof.
  intros Ha Hb Heq. unfold Serialize in Heq.
  pose proof (stream_in_out a rest Ha) as H1.
  rewrite Heq, (stream_in_out b rest' Hb) in H1.
  injection H1 as -> ->. auto.
Qed.

(** X22. [assetFromOp] has a name for exactly the operations [IsAssetOp]
    accepts. *)
Theorem assetFromOp_names_asset_ops (host : Host) (op : Z) :
  IsAssetOp host op = true
  <-> assetFromOp host op <> "<unknown asset op>"%string.
Proof.
  unfold IsAssetOp, assetFromOp.
  destruct (op =? OP_ASSET_ACTIVATE host); cbn [orb];
    [split; [discriminate|reflexivity]|].
  destruct (op =? OP_ASSET_UPDATE host);
    [rewrite orb_true_r; cbn [orb]; split; [discriminate|reflexivity]|].
  destruct (op =? OP_ASSET_MINT host); cbn [orb];
    [split; [discriminate|reflexivity]|].
  destruct (op =? OP_ASSET_TRANSFER host);
    [split; [discriminate|reflexivity]|].
  split; [discriminate|]. intros H. now contradiction H.
Qed.

Lemma firstn_map_to_lower (n : nat) (l : vch) :
  firstn n (map to_lower l) = map to_lower (firstn n l).
Proof. apply firstn_map. Qed.

(** X23. The category rule of an update is the category rule of an
    activation without regard to case: every category that
    [starts_with] accepts for a prefix, [istarts_with] accepts too. *)
Theorem istarts_with_relaxes_starts_with (input test : vch) :
  starts_with input test = true ->
  istarts_with input test = true.
Proof.
  unfold istarts_with, starts_with. intros H.
  apply bool_decide_eq_true in H. apply bool_decide_eq_true.
  rewrite length_map, firstn_map_to_lower. now rewrite H.
Qed.

End FormatFacts.

(** ** The cleanup sweep *)

Module SweepFacts.

Import Codec Validator Sweep.

Lemma EraseAssetIndex_asseti db id c :
  asseti (EraseAssetIndex db id c) = asseti db
  /\ writable (EraseAssetIndex db id c) = writable db.
Proof.
  unfold EraseAssetIndex, EraseAssetIndexHistory.
  destruct (asset_collection db); cbn; [|auto].
  destruct (assethistory_collection db); cbn; auto.
Qed.

Lemma EraseAsset_asseti db id c :
  asseti (EraseAsset db id c).2
  = (if writable db then delete id (asseti db) else asseti db)
  /\ writable (EraseAsset db id c).2 = writable db.
Proof.
  unfold EraseAsset. destruct (writable db) eqn:Hw; cbn [snd];
    match goal with
    | |- context [EraseAssetIndex ?d id c] =>
        destruct (EraseAssetIndex_asseti d id c) as [-> ->]
    end; cbn; auto.
Qed.

(** What [GetAsset] answers depends on the current record alone. *)
Lemma GetAsset_asseti m adb db id t :
  GetAsset (mkNode m adb (Some db)) id t
  = match asseti db !! id with
    | None => (false, t)
    | Some r =>
        if to_uint64 m >=? GetAssetExpiration (mkNode m adb None) r
        then (false, nullAsset) else (true, r)
    end.
Proof. reflexivity. Qed.

Lemma reads_back_lookup m adb db db' id :
  asseti db' !! id = asseti db !! id ->
  reads_back m adb db' id = reads_back m adb db id.
Proof.
  intros H. unfold reads_back. rewrite !GetAsset_asseti, H. reflexivity.
Qed.

Lemma reads_back_stored m adb db id :
  reads_back m adb db id = true -> is_Some (asseti db !! id).
Proof.
  unfold reads_back. rewrite GetAsset_asseti.
  destruct (asseti db !! id); [eauto|discriminate].
Qed.

(** ** Pruned stores *)

Lemma pruned_refl m adb db : pruned m adb db db.
Proof. repeat split; auto. Qed.

Lemma pruned_reads_back m adb db db' id :
  pruned m adb db db' ->
  reads_back m adb db' id = reads_back m adb db id.
Proof.
  intros (_ & Hsub & Hkeep).
  destruct (reads_back m adb db id) eqn:Hb.
  - rewrite (reads_back_lookup m adb db db' id (Hkeep id Hb)). exact Hb.
  - destruct (asseti db' !! id) as [r|] eqn:Hr.
    + rewrite (reads_back_lookup m adb db db' id); [exact Hb|].
      rewrite Hr. symmetry. now apply Hsub.
    + unfold reads_back. rewrite GetAsset_asseti, Hr. reflexivity.
Qed.

Lemma pruned_trans m adb db db1 db2 :
  pruned m adb db db1 -> pruned m adb db1 db2 -> pruned m adb db db2.
Proof.
  intros H1 H2.
  pose proof (fun id => pruned_reads_back m adb db db1 id H1) as Hrb.
  destruct H1 as (Hw1 & Hs1 & Hk1), H2 as (Hw2 & Hs2 & Hk2).
  split; [congruence|]. split.
  - intros id r Hr. apply Hs1, Hs2, Hr.
  - intros id Hb. rewrite Hk2 by (rewrite Hrb; exact Hb). now apply Hk1.
Qed.

Lemma pruned_erase m adb db k c :
  reads_back m adb db k = false ->
  pruned m adb db (EraseAsset db k c).2.
Proof.
  intros Hk. destruct (EraseAsset_asseti db k c) as [Ha Hw].
  split; [exact Hw|]. rewrite Ha.
  destruct (writable db); [|split; auto].
  split.
  - intros id r Hr. apply lookup_delete_Some in Hr as [_ Hr]. exact Hr.
  - intros id Hb. apply lookup_delete_ne. congruence.
Qed.

Lemma pruned_swept m adb db db' v :
  pruned m adb db db' -> swept m adb db' v = swept m adb db v.
Proof.
  intros H. unfold swept. destruct (cursor_key v); [|reflexivity].
  now rewrite (pruned_reads_back m adb db db').
Qed.

Lemma pruned_to_sweep m adb db db' cursor :
  pruned m adb db db' -> to_sweep m adb db' cursor = to_sweep m adb db cursor.
Proof.
  intros H. unfold to_sweep. do 2 f_equal.
  apply List.filter_ext. intros v. now apply pruned_swept.
Qed.

Lemma to_sweep_cons m adb db v cursor :
  to_sweep m adb db (v :: cursor)
  = (if swept m adb db v then 1 else 0) + to_sweep m adb db cursor.
Proof.
  unfold to_sweep. cbn [List.filter].
  destruct (swept m adb db v); cbn [length]; lia.
Qed.

Lemma to_sweep_nonneg m adb db cursor : 0 <= to_sweep m adb db cursor.
Proof. unfold to_sweep. lia. Qed.

(** ** One iteration

    The iteration erases exactly when the id does not read back: the
    second test of the loop never decides. *)
Lemma body_unfold m adb v db t n :
  CleanupDatabase_body m adb v db t n
  = if interruption_requested v then Leave (Interrupted db n)
    else if raised v at_GetKey then Leave (Done false db n)
    else
      match cursor_key v with
      | Some key =>
          if String.eqb key.1 "asseti" then
            if raised v at_GetAsset then Leave (Done false db n)
            else if negb (reads_back m adb db key.2) then
              if n >=? INT_MAX then Leave Overflow
              else if raised v at_EraseAsset
              then Leave (Done false db (n + 1))
              else CleanupDatabase_next v (EraseAsset db key.2 true).2
                     (GetAsset (mkNode m adb (Some db)) key.2 t).2 (n + 1)
            else CleanupDatabase_next v db
                   (GetAsset (mkNode m adb (Some db)) key.2 t).2 n
          else CleanupDatabase_next v db t n
      | None => CleanupDatabase_next v db t n
      end.
Proof.
  unfold CleanupDatabase_body.
  destruct (interruption_requested v); [reflexivity|].
  destruct (raised v at_GetKey); [reflexivity|].
  destruct (cursor_key v) as [key|]; [|reflexivity].
  destruct (String.eqb key.1 "asseti"); [|reflexivity].
  destruct (raised v at_GetAsset); [reflexivity|].
  unfold reads_back. rewrite !GetAsset_asseti.
  destruct (asseti db !! key.2) as [r|]; cbn [negb orb fst snd].
  - change (GetAssetExpiration (mkNode m adb (Some db)))
      with (GetAssetExpiration (mkNode m adb None)).
    destruct (to_uint64 m >=? GetAssetExpiration (mkNode m adb None) r)
      eqn:He; cbn [negb orb fst snd].
    + now destruct (EraseAsset db key.2 true).
    + rewrite He. reflexivity.
  - now destruct (EraseAsset db key.2 true).
Qed.

Lemma raised_throws v s : raised v s = true -> throws v <> None.
Proof. unfold raised. destruct (throws v); [discriminate|now destruct s]. Qed.

(** What one iteration leaves, in terms of the visits the sweep counts. *)
Lemma body_spec m adb v db t n :
  match CleanupDatabase_body m adb v db t n with
  | Advance db1 _ n1 =>
      interruption_requested v = false
      /\ pruned m adb db db1
      /\ if swept m adb db v
         then n < INT_MAX /\ n1 = n + 1
              /\ exists key, cursor_key v = Some key
                             /\ db1 = (EraseAsset db key.2 true).2
         else db1 = db /\ n1 = n
  | Leave (Done ret db1 n1) =>
      ret = false /\ throws v <> None /\ pruned m adb db db1
      /\ (n1 = n \/ swept m adb db v = true /\ n < INT_MAX /\ n1 = n + 1)
      /\ (swept m adb db v = false -> db1 = db)
  | Leave (Interrupted db1 n1) =>
      interruption_requested v = true /\ db1 = db /\ n1 = n
  | Leave Overflow => swept m adb db v = true /\ INT_MAX <= n
  end.
Proof.
  rewrite body_unfold. unfold swept, CleanupDatabase_next.
  pose proof (pruned_refl m adb db) as Hrefl.
  destruct (interruption_requested v); [auto|].
  destruct (raised v at_GetKey) eqn:Hk.
  { apply raised_throws in Hk. repeat split; auto. }
  destruct (cursor_key v) as [key|].
  2:{ destruct (raised v at_Next) eqn:Hn.
      - apply raised_throws in Hn. repeat split; auto.
      - repeat split; auto. }
  destruct (String.eqb key.1 "asseti"); cbn [andb].
  2:{ destruct (raised v at_Next) eqn:Hn.
      - apply raised_throws in Hn. repeat split; auto.
      - repeat split; auto. }
  destruct (raised v at_GetAsset) eqn:Hg.
  { apply raised_throws in Hg. repeat split; auto. }
  destruct (reads_back m adb db key.2) eqn:Hb; cbn [negb].
  { destruct (raised v at_Next) eqn:Hn.
    - apply raised_throws in Hn. repeat split; auto.
    - repeat split; auto. }
  destruct (Z.geb_spec n INT_MAX) as [Hge|Hlt]; [split; [reflexivity|lia]|].
  pose proof (pruned_erase m adb db key.2 true Hb) as Herase.
  destruct (raised v at_EraseAsset) eqn:He.
  { apply raised_throws in He.
    repeat split; auto; try discriminate; apply Hrefl. }
  destruct (raised v at_Next) eqn:Hn.
  - apply raised_throws in Hn.
    split; [reflexivity|]. split; [exact Hn|]. split; [exact Herase|].
    split; [right; auto|discriminate].
  - split; [reflexivity|]. split; [exact Herase|].
    split; [exact Hlt|]. split; [reflexivity|]. eauto.
Qed.

(** ** The scan *)

(** Whatever ends the scan, it leaves the store pruned and the counter
    raised by no more than the number of visits to sweep. *)
Lemma scan_pruned m adb cursor :
  forall db t n db' n',
    left_behind (CleanupDatabase_scan m adb cursor db t n) = Some (db', n') ->
    pruned m adb db db' /\ n <= n' <= n + to_sweep m adb db cursor.
Proof.
  induction cursor as [|v cursor IH]; intros db t n db' n'.
  - cbn. intros [= <- <-]. split; [apply pruned_refl|].
    pose proof (to_sweep_nonneg m adb db []). lia.
  - cbn [CleanupDatabase_scan]. rewrite to_sweep_cons.
    pose proof (to_sweep_nonneg m adb db cursor) as Hpos.
    pose proof (body_spec m adb v db t n) as Hbody.
    destruct (CleanupDatabase_body m adb v db t n) as [db1 t1 n1|o].
    + destruct Hbody as (_ & Hp & Hstep). intros Hleft.
      destruct (IH db1 t1 n1 db' n' Hleft) as [Hp' Hn].
      rewrite (pruned_to_sweep m adb db db1 cursor Hp) in Hn.
      split; [exact (pruned_trans m adb db db1 db' Hp Hp')|].
      destruct (swept m adb db v).
      * destruct Hstep as (_ & -> & _). lia.
      * destruct Hstep as [_ ->]. lia.
    + destruct o as [ret db1 n1|db1 n1|]; cbn [left_behind];
        [| |discriminate]; intros [= <- <-].
      * destruct Hbody as (_ & _ & Hp & Hn & _). split; [exact Hp|].
        destruct Hn as [->|(-> & _ & ->)]; [|lia].
        destruct (swept m adb db v); lia.
      * destruct Hbody as (_ & -> & ->). split; [apply pruned_refl|].
        destruct (swept m adb db v); lia.
Qed.

(** A scan that runs to its end has counted every visit to sweep. *)
Lemma scan_done_count m adb cursor :
  forall db t n db' n',
    CleanupDatabase_scan m adb cursor db t n = Done true db' n' ->
    n' = n + to_sweep m adb db cursor.
Proof.
  induction cursor as [|v cursor IH]; intros db t n db' n'.
  - cbn. intros [= <- <-]. unfold to_sweep. cbn. lia.
  - cbn [CleanupDatabase_scan]. rewrite to_sweep_cons.
    pose proof (body_spec m adb v db t n) as Hbody.
    destruct (CleanupDatabase_body m adb v db t n) as [db1 t1 n1|o].
    + destruct Hbody as (_ & Hp & Hstep). intros Hdone.
      rewrite (IH db1 t1 n1 db' n' Hdone).
      rewrite (pruned_to_sweep m adb db db1 cursor Hp).
      destruct (swept m adb db v).
      * destruct Hstep as (_ & -> & _). lia.
      * destruct Hstep as [_ ->]. lia.
    + intros ->. destruct Hbody as [Hret _]. discriminate.
Qed.

(** On a store that takes the erasures, a scan that runs to its end has
    erased every record it visited that did not read back. *)
Lemma scan_done_erased m adb cursor :
  forall db t n db' n',
    CleanupDatabase_scan m adb cursor db t n = Done true db' n' ->
    writable db = true ->
    forall id,
      visits cursor id ->
      reads_back m adb db id = false ->
      asseti db' !! id = None.
Proof.
  induction cursor as [|v cursor IH]; intros db t n db' n'.
  - intros _ _ id (v & [] & _).
  - cbn [CleanupDatabase_scan].
    pose proof (body_spec m adb v db t n) as Hbody.
    destruct (CleanupDatabase_body m adb v db t n) as [db1 t1 n1|o].
    2:{ intros ->. destruct Hbody as [Hret _]. discriminate. }
    destruct Hbody as (_ & Hp & Hstep).
    intros Hdone Hw id (v' & Hin & Hkey) Hb.
    assert (Hleft : left_behind
                      (CleanupDatabase_scan m adb cursor db1 t1 n1)
                    = Some (db', n')) by now rewrite Hdone.
    destruct (scan_pruned m adb cursor db1 t1 n1 db' n' Hleft)
      as [(_ & Hsub & _) _].
    destruct Hin as [<-|Hin].
    + assert (Hs : swept m adb db v = true).
      { unfold swept. rewrite Hkey. cbn. now rewrite Hb. }
      rewrite Hs in Hstep.
      destruct Hstep as (_ & _ & key & Hkey' & ->).
      assert (key = ("asseti"%string, id)) as -> by congruence.
      destruct (asseti db' !! id) as [r|] eqn:Hr; [|reflexivity].
      apply Hsub in Hr.
      destruct (EraseAsset_asseti db id true) as [Ha _].
      cbn [snd] in Hr. rewrite Ha, Hw, lookup_delete_eq in Hr.
      discriminate.
    + apply (IH db1 t1 n1 db' n' Hdone).
      * destruct Hp as [-> _]. exact Hw.
      * exists v'. auto.
      * now rewrite (pruned_reads_back m adb db db1).
Qed.

(** Nothing overflows while the counter has room for every visit to
    sweep. *)
Lemma scan_no_overflow m adb cursor :
  forall db t n,
    n + to_sweep m adb db cursor <= INT_MAX ->
    CleanupDatabase_scan m adb cursor db t n <> Overflow.
Proof.
  induction cursor as [|v cursor IH]; intros db t n; [discriminate|].
  cbn [CleanupDatabase_scan]. rewrite to_sweep_cons.
  pose proof (to_sweep_nonneg m adb db cursor) as Hpos.
  pose proof (body_spec m adb v db t n) as Hbody.
  destruct (CleanupDatabase_body m adb v db t n) as [db1 t1 n1|o].
  - destruct Hbody as (_ & Hp & Hstep). intros Hroom. apply IH.
    rewrite (pruned_to_sweep m adb db db1 cursor Hp).
    destruct (swept m adb db v).
    + destruct Hstep as (_ & -> & _). lia.
    + destruct Hstep as [_ ->]. lia.
  - destruct o; [discriminate|discriminate|].
    destruct Hbody as [-> Hmax]. lia.
Qed.

(** An undisturbed scan runs to its end, or into the overflow. *)
Lemma scan_undisturbed m adb cursor :
  forall db t n,
    undisturbed cursor ->
    n <= INT_MAX ->
    if n + to_sweep m adb db cursor <=? INT_MAX
    then exists db',
           CleanupDatabase_scan m adb cursor db t n
           = Done true db' (n + to_sweep m adb db cursor)
    else CleanupDatabase_scan m adb cursor db t n = Overflow.
Proof.
  induction cursor as [|v cursor IH]; intros db t n Hquiet Hn.
  - unfold to_sweep. cbn. rewrite Z.add_0_r.
    destruct (Z.leb_spec n INT_MAX); [|lia]. eauto.
  - cbn [CleanupDatabase_scan]. rewrite to_sweep_cons.
    pose proof (to_sweep_nonneg m adb db cursor) as Hpos.
    destruct (Hquiet v (or_introl eq_refl)) as [Hi Ht].
    assert (Hquiet' : undisturbed cursor).
    { intros v' Hv'. apply Hquiet. now right. }
    pose proof (body_spec m adb v db t n) as Hbody.
    destruct (CleanupDatabase_body m adb v db t n) as [db1 t1 n1|o].
    + destruct Hbody as (_ & Hp & Hstep).
      assert (Hn1 : n1 <= INT_MAX
                    /\ n1 = n + (if swept m adb db v then 1 else 0)).
      { destruct (swept m adb db v).
        - destruct Hstep as (? & -> & _). lia.
        - destruct Hstep as [_ ->]. lia. }
      destruct Hn1 as [Hn1 Heq].
      specialize (IH db1 t1 n1 Hquiet' Hn1).
      rewrite (pruned_to_sweep m adb db db1 cursor Hp) in IH.
      clear Hstep. subst n1. rewrite <- Z.add_assoc in IH. exact IH.
    + destruct o as [ret db1 n1|db1 n1|].
      * destruct Hbody as (_ & Hthrows & _). contradiction.
      * destruct Hbody as (Hint & _). congruence.
      * destruct Hbody as [-> Hmax].
        destruct (Z.leb_spec (n + (1 + to_sweep m adb db cursor)) INT_MAX);
          [lia|reflexivity].
Qed.


(** After a sweep that ran to its end over every current record of a store
    that takes the erasures, the store holds what read back. *)
Lemma scan_done_exact m adb cursor db t n db' n' :
  CleanupDatabase_scan m adb cursor db t n = Done true db' n' ->
  writable db = true ->
  visits_all cursor db ->
  forall id,
    asseti db' !! id
    = if reads_back m adb db id then asseti db !! id else None.
Proof.
  intros Hdone Hw Hall id.
  assert (Hleft : left_behind (CleanupDatabase_scan m adb cursor db t n)
                  = Some (db', n')) by now rewrite Hdone.
  destruct (scan_pruned m adb cursor db t n db' n' Hleft)
    as [(_ & Hsub & Hkeep) _].
  destruct (reads_back m adb db id) eqn:Hb; [now apply Hkeep|].
  destruct (asseti db' !! id) as [r|] eqn:Hr; [|reflexivity].
  rewrite <- Hr.
  apply (scan_done_erased m adb cursor db t n db' n' Hdone Hw id);
    [|exact Hb].
  apply Hall. rewrite (Hsub id r Hr). eauto.
Qed.

Lemma reads_back_GetAsset m adb db id r t :
  GetAsset (mkNode m adb (Some db)) id t = (true, r)
  <-> reads_back m adb db id = true /\ asseti db !! id = Some r.
Proof.
  unfold reads_back. rewrite !GetAsset_asseti.
  destruct (asseti db !! id) as [r0|]; cbn [fst].
  - destruct (to_uint64 m >=? _); cbn [fst]; split.
    + discriminate.
    + intros [? _]. discriminate.
    + intros [= ->]. auto.
    + intros [_ [= ->]]. reflexivity.
  - split; [discriminate|]. intros [? _]. discriminate.
Qed.

(** X10. Whatever ends the sweep (a return, a raised exception or an
    interruption), every record that read back through [GetAsset] when it
    started is still stored, unchanged, and the store holds no record it
    did not hold before. When the sweep has returned true on a store that
    takes the erasures, over a cursor that visits every current record,
    the store holds exactly the records that read back. *)
Theorem CleanupDatabase_keeps_what_reads_back (m : Z)
    (adb : option CAliasDB) (cursor : list Visit) (db : CAssetDB) (n : Z)
    (db' : CAssetDB) (n' : Z) :
  left_behind (CleanupDatabase m adb cursor db n) = Some (db', n') ->
  (forall id r txPos,
     GetAsset (mkNode m adb (Some db)) id txPos = (true, r) ->
     ReadAsset db' id = Some r)
  /\ (forall id r, ReadAsset db' id = Some r -> ReadAsset db id = Some r)
  /\ (CleanupDatabase m adb cursor db n = Done true db' n' ->
      writable db = true ->
      visits_all cursor db ->
      forall id r txPos,
        ReadAsset db' id = Some r
        <-> GetAsset (mkNode m adb (Some db)) id txPos = (true, r)).
Proof.
  unfold CleanupDatabase, ReadAsset. intros Hleft.
  destruct (scan_pruned m adb cursor db nullAsset n db' n' Hleft)
    as [(_ & Hsub & Hkeep) _].
  split.
  { intros id r txPos Hget.
    apply reads_back_GetAsset in Hget as [Hb Hr].
    now rewrite (Hkeep id Hb). }
  split; [exact Hsub|].
  intros Hdone Hw Hall id r txPos.
  rewrite (scan_done_exact m adb cursor db nullAsset n db' n' Hdone Hw Hall).
  rewrite reads_back_GetAsset.
  destruct (reads_back m adb db id); split.
  - auto.
  - now intros [_ ?].
  - discriminate.
  - now intros [? _].
Qed.

(** X11. [servicesCleaned] counts the visits whose key is a current-record
    key with an id that did not read back through [GetAsset] when the
    sweep started, whether or not the store takes the erasures; no key is
    counted for its expiration alone. While the counter has room for all
    of them the increment never overflows; whatever ends the sweep, the
    counter is raised by no more than that number; a sweep that returns
    true has raised it by exactly that number; and an undisturbed sweep
    that starts from a counter within [int] returns true if the counter
    has room and overflows if it does not. *)
Theorem CleanupDatabase_counts_unreadable (m : Z) (adb : option CAliasDB)
    (cursor : list Visit) (db : CAssetDB) (n : Z) :
  (n + to_sweep m adb db cursor <= INT_MAX ->
   CleanupDatabase m adb cursor db n <> Overflow)
  /\ (forall db' n',
        left_behind (CleanupDatabase m adb cursor db n) = Some (db', n') ->
        n <= n' <= n + to_sweep m adb db cursor)
  /\ (forall db' n',
        CleanupDatabase m adb cursor db n = Done true db' n' ->
        n' = n + to_sweep m adb db cursor)
  /\ (undisturbed cursor ->
      n <= INT_MAX ->
      if n + to_sweep m adb db cursor <=? INT_MAX
      then exists db',
             CleanupDatabase m adb cursor db n
             = Done true db' (n + to_sweep m adb db cursor)
      else CleanupDatabase m adb cursor db n = Overflow).
Proof.
  unfold CleanupDatabase.
  split; [apply scan_no_overflow|].
  split; [intros db' n' Hleft; now apply (scan_pruned m adb cursor db
                                            nullAsset n db' n')|].
  split; [apply scan_done_count|apply scan_undisturbed].
Qed.


End SweepFacts.

(** ** The read-model mirror *)

Module MirrorFacts.

Import Codec Validator Sweep.

Section Mirror.

Variable host : Host.

(** X24. Writes to the mirror are idempotent: a second [WriteAssetIndex]
    of the same record changes nothing, whatever operation it names,
    since the current projection is an upsert under the asset id and the
    history takes one document per transaction hash; and a write never
    changes a history document that is already there. *)
Theorem WriteAssetIndex_idempotent (db : CAssetDB) (asset : CAsset)
    (op op' : Z) :
  Validator.WriteAssetIndex host
    (Validator.WriteAssetIndex host db asset op) asset op'
  = Validator.WriteAssetIndex host db asset op
  /\ forall h id doc,
       assethistory_collection db = Some h ->
       h !! id = Some doc ->
       exists h',
         assethistory_collection (Validator.WriteAssetIndex host db asset op)
         = Some h'
         /\ h' !! id = Some doc.
Proof.
  unfold WriteAssetIndex, WriteAssetIndexHistory. split.
  - destruct (asset_collection db) as [c|] eqn:Hc; cbn;
      [|now rewrite Hc].
    destruct (assethistory_collection db) as [h|] eqn:Hh; cbn.
    + rewrite insert_insert_eq.
      destruct (h !! txHash asset) eqn:Ht; cbn.
      * rewrite Ht. reflexivity.
      * rewrite lookup_insert_eq. reflexivity.
    + rewrite ?Hh. now rewrite insert_insert_eq.
  - intros h id doc Hh Hdoc.
    destruct (asset_collection db) as [c|]; cbn; rewrite Hh; [|eauto].
    cbn. eexists. split; [reflexivity|].
    destruct (h !! txHash asset) eqn:Ht; [exact Hdoc|].
    rewrite lookup_insert_ne; [exact Hdoc|]. congruence.
Qed.

(** X25. Erasing an asset from the mirror undoes a write of that asset:
    [EraseAssetIndex] after [WriteAssetIndex] leaves the mirror that
    [EraseAssetIndex] alone leaves, with neither the document of the
    asset nor the history document that was just written. *)
Theorem EraseAssetIndex_after_write (db : CAssetDB) (asset : CAsset)
    (op : Z) (cleanup : bool) :
  EraseAssetIndex (Validator.WriteAssetIndex host db asset op)
                  (vchAsset asset) cleanup
  = EraseAssetIndex db (vchAsset asset) cleanup.
Proof.
  unfold EraseAssetIndex, EraseAssetIndexHistory, WriteAssetIndex,
    WriteAssetIndexHistory.
  destruct (asset_collection db) as [c|] eqn:Hc; cbn; [|now rewrite Hc].
  destruct (assethistory_collection db) as [h|] eqn:Hh; cbn.
  - rewrite delete_insert_eq. do 2 f_equal.
    destruct (h !! txHash asset) eqn:Ht; [reflexivity|].
    apply map_filter_insert_not'.
    + cbn. intros Hne. now apply Hne.
    + intros y Hy. congruence.
  - rewrite ?Hh. now rewrite delete_insert_eq.
Qed.

End Mirror.

End MirrorFacts.

(** ** The validator, call by call *)

Module CallFacts.

Import Codec Validator LeaseSpec LifeCycleSpec LeaseFacts ValidatorFacts.

(** For a stored record, what [GetAsset] answers does not depend on what
    [txPos] held. *)
Lemma GetAsset_stored (node : Node) (db : CAssetDB) (id : vch)
    (record t t' : CAsset) :
  passetdb node = Some db ->
  ReadAsset db id = Some record ->
  GetAsset node id t = GetAsset node id t'.
Proof. intros Hdb Hr. unfold GetAsset. now rewrite Hdb, Hr. Qed.

Lemma GetAsset_absent (node : Node) (db : CAssetDB) (id : vch) (t : CAsset) :
  passetdb node = Some db ->
  ReadAsset db id = None ->
  GetAsset node id t = (false, t).
Proof. intros Hdb Hr. unfold GetAsset. now rewrite Hdb, Hr. Qed.

Section Call.

Variables (host : Host) (tx : CTransaction) (op : Z)
          (vvchArgs vvchAliasArgs : list vch)
          (fJustCheck : bool) (nHeight : Z) (dontaddtodb : bool).

(** *** Phase by phase *)

Lemma read_candidate_accepts node msg data hash theAsset :
  IsCoinBase tx && negb fJustCheck && negb dontaddtodb = false ->
  nVersion tx = SYSCOIN_TX_VERSION host ->
  SyscoinData tx = Some (data, hash) ->
  UnserializeFromData host data hash = (true, theAsset) ->
  (fJustCheck = true -> vvchArgs = [hash]) ->
  vvchAliasArgs !! 0%nat = Some (vchAlias theAsset) ->
  read_candidate host tx vvchArgs vvchAliasArgs fJustCheck dontaddtodb
                 node msg = Continue theAsset.
Proof.
  intros Hcb Hv Hdata Hu Hargs Halias. unfold read_candidate.
  rewrite Hcb, Hv, Z.eqb_refl, Hdata, Hu, Halias. cbn [negb].
  rewrite (bool_decide_eq_false_2 (vchAlias theAsset <> vchAlias theAsset))
    by (intros Hne; now apply Hne).
  destruct fJustCheck; [|reflexivity].
  rewrite (Hargs eq_refl). cbn.
  rewrite bool_decide_eq_false_2 by (intros Hne; now apply Hne).
  reflexivity.
Qed.

Lemma read_candidate_soft node msg ret m n :
  fJustCheck = false ->
  read_candidate host tx vvchArgs vvchAliasArgs fJustCheck dontaddtodb
                 node msg = Stop (Returned ret m n) ->
  ret = true.
Proof.
  intros ->. unfold read_candidate.
  destruct (_ && _ && _); [now intros [= <- _ _]|].
  destruct (negb _); [now intros [= <- _ _]|].
  destruct (SyscoinData tx) as [[d h]|]; [|now intros [= <- _ _]].
  destruct (UnserializeFromData host d h) as [ok a].
  destruct ok; simpl; [|now intros [= <- _ _]].
  destruct (vvchAliasArgs !! 0%nat); [|discriminate].
  destruct (bool_decide _); [now intros [= <- _ _]|discriminate].
Qed.

Lemma strict_checks_skipped node theAsset :
  fJustCheck = false ->
  strict_checks host op fJustCheck node theAsset = Continue tt.
Proof. intros ->. reflexivity. Qed.

Lemma load_stored_hard medianTime adb db msg theAsset m n :
  load_stored host tx op fJustCheck nHeight dontaddtodb medianTime adb db
              msg theAsset = Stop (Returned false m n) ->
  m = ERR_1096_lock \/ m = ERR_1096_prev.
Proof.
  unfold load_stored.
  destruct (GetAsset _ _ _) as [found dbAsset].
  destruct found; simpl.
  - destruct (negb fJustCheck && _).
    + destruct (_ >=? _); [discriminate|].
      destruct (negb (txHash dbAsset =? GetHash tx)).
      * destruct dontaddtodb; simpl; [discriminate|].
        destruct (EraseISLock db (vchAsset theAsset)) as [erased db1].
        destruct erased; simpl; [discriminate|].
        intros [= <- _]. now left.
      * destruct dontaddtodb; simpl; [discriminate|].
        destruct (Write_assetp db (vchAsset theAsset) dbAsset)
          as [written db1].
        destruct written; simpl; [|intros [= <- _]; now right].
        destruct (EraseISLock db1 (vchAsset theAsset)) as [erased db2].
        destruct erased; simpl; [discriminate|].
        intros [= <- _]. now left.
    + destruct (_ >? _); discriminate.
  - destruct (negb (op =? _)); discriminate.
Qed.

Lemma apply_operation_soft node adb theAsset dbAsset ret m n :
  apply_operation host op fJustCheck node adb theAsset dbAsset
  = Stop (Returned ret m n) ->
  ret = true.
Proof.
  unfold apply_operation, flow_bind.
  repeat match goal with
         | |- context [if ?b then _ else _] => destruct b
         | |- context [match GetAlias ?a ?b with _ => _ end] =>
             destruct (GetAlias a b)
         | |- context [let '(_, _) := ?p in _] => destruct p
         end; try discriminate; now intros [= <- _ _].
Qed.

Lemma commit_hard medianTime adb db msg u1 u2 u3 theAsset dbAsset m n :
  commit host tx op fJustCheck nHeight dontaddtodb medianTime adb db msg
         u1 u2 u3 theAsset dbAsset = Returned false m n ->
  m = ERR_2028.
Proof.
  unfold commit. destruct dontaddtodb; simpl; [discriminate|].
  destruct (WriteAsset _ _ _ _ _ _) as [written db1].
  destruct written; simpl; [discriminate|]. now intros [= <- _].
Qed.

Lemma load_stored_dry medianTime adb db msg theAsset :
  dontaddtodb = true ->
  match load_stored host tx op fJustCheck nHeight dontaddtodb medianTime
                    adb db msg theAsset with
  | Stop r =>
      exists ret m,
        r = Returned ret m (mkNode medianTime (Some adb) (Some db))
  | Continue (_, adb', db') => adb' = adb /\ db' = db
  end.
Proof.
  intros ->. unfold load_stored.
  destruct (GetAsset _ _ _) as [found dbAsset].
  destruct found; simpl.
  - destruct (negb fJustCheck && _).
    + destruct (_ >=? _); [eauto|].
      destruct (negb (txHash dbAsset =? GetHash tx)); simpl; eauto.
    + destruct (_ >? _); eauto.
  - destruct (negb (op =? _)); eauto.
Qed.

Lemma load_stored_plain medianTime adb db msg theAsset stored :
  GetAsset (mkNode medianTime (Some adb) (Some db)) (vchAsset theAsset)
           nullAsset = (true, stored) ->
  fJustCheck = true \/ ReadISLock db (vchAsset theAsset) <> Some true ->
  Codec.nHeight stored <= to_uint64 nHeight ->
  load_stored host tx op fJustCheck nHeight dontaddtodb medianTime adb db
              msg theAsset = Continue (stored, adb, db).
Proof.
  intros Hget Hplain Hh. unfold load_stored. rewrite Hget. cbn [negb].
  assert (Hl : negb fJustCheck
               && match ReadISLock db (vchAsset theAsset) with
                  | Some locked => locked
                  | None => false
                  end = false).
  { destruct Hplain as [->|Hl]; [reflexivity|].
    destruct (ReadISLock db (vchAsset theAsset)) as [[|]|];
      [congruence| |]; apply andb_false_r. }
  rewrite Hl.
  destruct (Z.gtb_spec (Codec.nHeight stored) (to_uint64 nHeight)); [lia|].
  reflexivity.
Qed.

Lemma load_stored_activation medianTime adb db msg theAsset x :
  op = OP_ASSET_ACTIVATE host ->
  GetAsset (mkNode medianTime (Some adb) (Some db)) (vchAsset theAsset)
           nullAsset = (false, x) ->
  load_stored host tx op fJustCheck nHeight dontaddtodb medianTime adb db
              msg theAsset = Continue (x, adb, db).
Proof.
  intros -> Hget. unfold load_stored. rewrite Hget. cbn [negb].
  now rewrite Z.eqb_refl.
Qed.

(** The record an operation hands to the write path has the id of the
    candidate, except that the existence check of a strict-mode
    activation can leave a null record. *)
Lemma apply_operation_id node adb theAsset dbAsset applied :
  apply_operation host op fJustCheck node adb theAsset dbAsset
  = Continue applied ->
  vchAsset applied = vchAsset theAsset
  \/ (fJustCheck = true /\ op = OP_ASSET_ACTIVATE host
      /\ applied = nullAsset).
Proof.
  unfold apply_operation, flow_bind.
  destruct (Z.eqb_spec op (OP_ASSET_ACTIVATE host)) as [Hop|Hop]; cbn [negb].
  - destruct fJustCheck; [|intros [= <-]; now left].
    unfold GetAsset.
    destruct (passetdb node) as [db|]; [|intros [= <-]; now left].
    destruct (ReadAsset db (vchAsset theAsset)) as [r|];
      [|intros [= <-]; now left].
    destruct (_ >=? _); [|discriminate].
    intros [= <-]. right. auto.
  - destruct (op =? OP_ASSET_TRANSFER host).
    + destruct (GetAlias adb _) as [alias|]; [|discriminate].
      destruct (_ =? 0); [discriminate|].
      rewrite orb_true_r.
      destruct (bool_decide _); [discriminate|].
      intros [= <-]. now left.
    + rewrite orb_false_r.
      destruct (op =? OP_ASSET_UPDATE host).
      * destruct (bool_decide _); [discriminate|].
        intros [= <-]. now left.
      * intros [= <-]. now left.
Qed.

(** What a call does to the current records: nothing, or one write of the
    stamped outcome of the operation. *)
Lemma call_asseti node msg ret msg' node' db db' :
  CheckAssetInputs host tx op vvchArgs vvchAliasArgs fJustCheck nHeight
                   dontaddtodb node msg = Returned ret msg' node' ->
  passetdb node = Some db ->
  passetdb node' = Some db' ->
  asseti db' = asseti db
  \/ exists theAsset base node1 adb1 applied,
       read_candidate host tx vvchArgs vvchAliasArgs fJustCheck dontaddtodb
                      node msg = Continue theAsset
       /\ apply_operation host op fJustCheck node1 adb1 theAsset base
          = Continue applied
       /\ asseti db'
          = <[vchAsset applied := stamped tx nHeight applied]> (asseti db)
       /\ ret = true /\ msg' = msg /\ dontaddtodb = false.
Proof.
  intros Hrun Hdb Hdb'.
  unfold CheckAssetInputs in Hrun. rewrite Hdb in Hrun.
  destruct (paliasdb node) as [adb|] eqn:Hadb.
  2:{ injection Hrun as <- <- <-. left. congruence. }
  assert (Hsame : forall ret0 m0, Returned ret0 m0 node
                    = Returned ret msg' node' -> asseti db' = asseti db).
  { intros ret0 m0 [= _ _ <-]. congruence. }
  destruct (read_candidate _ _ _ _ _ _ node msg) as [theAsset|r1] eqn:H1;
    simpl in Hrun.
  2:{ apply read_candidate_stop in H1 as [->|(ret0 & m0 & ->)];
        [discriminate|]. left; eauto. }
  destruct (strict_checks host op fJustCheck node theAsset) as [[]|r2] eqn:H2;
    simpl in Hrun.
  2:{ apply strict_checks_stop in H2 as (ret0 & m0 & ->). left; eauto. }
  destruct (load_stored _ _ _ _ _ _ _ adb db msg theAsset)
    as [[[base adb1] db1]|r3] eqn:H3; simpl in Hrun.
  2:{ apply load_stored_stop in H3 as (ret0 & m0 & adb' & db0 & -> & Hs).
      injection Hrun as <- <- <-. simpl in Hdb'.
      injection Hdb' as <-. now left. }
  pose proof (load_stored_continue _ _ _ _ _ _ _ _ _ _ _ _ _ _ H3)
    as [Hs1 _].
  destruct (apply_operation _ _ _ _ adb1 theAsset base) as [applied|r4] eqn:H4;
    simpl in Hrun.
  2:{ apply apply_operation_stop in H4 as (ret0 & m0 & ->).
      injection Hrun as <- <- <-. simpl in Hdb'.
      injection Hdb' as <-. left. congruence. }
  destruct (commit_result host tx op fJustCheck nHeight dontaddtodb
              (medianTimePast node) adb1 db1 msg
              (vchAlias theAsset)
              (if (op =? OP_ASSET_TRANSFER host)
                  && negb (bool_decide (vchLinkAlias theAsset = []))
               then vchLinkAlias theAsset else [])
              [] applied base)
    as (ret0 & m0 & adb2 & db2 & Hc & Hcase).
  rewrite Hc in Hrun. injection Hrun as <- <- <-. simpl in Hdb'.
  injection Hdb' as <-.
  destruct Hcase as [Hs2|(-> & -> & Hd & Hs2)]; [left; congruence|].
  right.
  exists theAsset, base,
    (mkNode (medianTimePast node) (Some adb1) (Some db1)), adb1, applied.
  split; [reflexivity|]. split; [exact H4|].
  split; [congruence|]. auto.
Qed.

Lemma strict_checks_activation node theAsset :
  op = OP_ASSET_ACTIVATE host ->
  Z.of_nat (length (sCategory theAsset)) <= MAX_NAME_LENGTH host ->
  Z.of_nat (length (vchPubData theAsset)) <= MAX_VALUE_LENGTH host ->
  vchLinkAlias theAsset = [] ->
  vchName theAsset <> [] ->
  Z.of_nat (length (vchName theAsset)) <= MAX_ID_LENGTH host ->
  starts_with (sCategory theAsset) assets_prefix = true ->
  strict_checks host op fJustCheck node theAsset = Continue tt.
Proof.
  intros -> Hc Hp Hl Hn Hn' Hs. unfold strict_checks.
  destruct fJustCheck; [|reflexivity].
  destruct (Z.gtb_spec (Z.of_nat (length (sCategory theAsset)))
              (MAX_NAME_LENGTH host)); [lia|].
  destruct (Z.gtb_spec (Z.of_nat (length (vchPubData theAsset)))
              (MAX_VALUE_LENGTH host)); [lia|].
  rewrite Z.eqb_refl.
  rewrite (bool_decide_eq_true_2 _ Hl). cbn [negb].
  destruct (Z.gtb_spec (Z.of_nat (length (vchName theAsset)))
              (MAX_ID_LENGTH host)); [lia|].
  rewrite (bool_decide_eq_false_2 _ Hn). cbn [orb].
  rewrite Hs. reflexivity.
Qed.

(** An operation that passes every check, in a call that may write to a
    store that takes the write, changes the current records by one write
    of the stamped record under its id. *)
Lemma accepted_operation_writes node adb db msg theAsset base adb1 db1
    applied :
  paliasdb node = Some adb ->
  passetdb node = Some db ->
  read_candidate host tx vvchArgs vvchAliasArgs fJustCheck dontaddtodb
                 node msg = Continue theAsset ->
  strict_checks host op fJustCheck node theAsset = Continue tt ->
  load_stored host tx op fJustCheck nHeight dontaddtodb
              (medianTimePast node) adb db msg theAsset
  = Continue (base, adb1, db1) ->
  apply_operation host op fJustCheck
    (mkNode (medianTimePast node) (Some adb1) (Some db1)) adb1
    theAsset base = Continue applied ->
  dontaddtodb = false ->
  writable db1 = true ->
  exists adb' db',
    CheckAssetInputs host tx op vvchArgs vvchAliasArgs fJustCheck nHeight
                     dontaddtodb node msg
    = Returned true msg (mkNode (medianTimePast node) (Some adb') (Some db'))
    /\ asseti db'
       = <[vchAsset applied := stamped tx nHeight applied]> (asseti db1).
Proof.
  intros Hadb Hdb Hread Hstrict Hload Happly Hd Hw.
  unfold CheckAssetInputs.
  rewrite Hadb, Hdb, Hread. simpl. rewrite Hstrict. simpl.
  rewrite Hload. simpl. rewrite Happly. simpl.
  unfold commit. rewrite Hd. cbn [negb].
  pose proof (WriteAsset_asseti host db1 (stamped tx nHeight applied) base
                op fJustCheck) as Hcase.
  assert (Hok : (WriteAsset host db1 (stamped tx nHeight applied) base op
                   fJustCheck).1 = true).
  { unfold WriteAsset, Write_asseti, Write_assetp, Write_assetl.
    rewrite Hw. destruct fJustCheck, (IsNull base); simpl;
      rewrite ?Hw; reflexivity. }
  destruct (WriteAsset host db1 (stamped tx nHeight applied) base op
              fJustCheck) as [written db2].
  simpl in Hok, Hcase. subst written. cbn [negb].
  destruct Hcase as [[Hf _]|[_ Hs]]; [discriminate|].
  eexists _, db2. split; [reflexivity|exact Hs].
Qed.

(** *** Calls that do not write *)

(** X13. A call that is told not to touch the databases leaves the chain
    state exactly as it was, whatever it returns: the registry, its
    history, the records, the snapshots, the locks and the mirror. *)
Theorem dry_run_leaves_chain_state node msg ret msg' node' :
  dontaddtodb = true ->
  CheckAssetInputs host tx op vvchArgs vvchAliasArgs fJustCheck nHeight
                   dontaddtodb node msg = Returned ret msg' node' ->
  node' = node.
Proof.
  intros Hd Hrun. unfold CheckAssetInputs in Hrun.
  destruct (paliasdb node) as [adb|] eqn:Hadb;
    [|now injection Hrun as _ _ <-].
  destruct (passetdb node) as [db|] eqn:Hdb;
    [|now injection Hrun as _ _ <-].
  destruct (read_candidate _ _ _ _ _ _ node msg) as [theAsset|r1] eqn:H1;
    simpl in Hrun.
  2:{ apply read_candidate_stop in H1 as [->|(ret0 & m0 & ->)];
        [discriminate|]. now injection Hrun as _ _ <-. }
  destruct (strict_checks host op fJustCheck node theAsset) as [[]|r2] eqn:H2;
    simpl in Hrun.
  2:{ apply strict_checks_stop in H2 as (ret0 & m0 & ->).
      now injection Hrun as _ _ <-. }
  pose proof (load_stored_dry (medianTimePast node) adb db msg theAsset Hd)
    as Hl.
  destruct (load_stored _ _ _ _ _ _ _ adb db msg theAsset)
    as [[[base adb1] db1]|r3]; simpl in Hrun.
  2:{ destruct Hl as (ret0 & m0 & ->). injection Hrun as _ _ <-.
      apply node_eta; assumption. }
  destruct Hl as [-> ->].
  destruct (apply_operation _ _ _ _ adb theAsset base) as [applied|r4] eqn:H4;
    simpl in Hrun.
  2:{ apply apply_operation_stop in H4 as (ret0 & m0 & ->).
      injection Hrun as _ _ <-. apply node_eta; assumption. }
  unfold commit in Hrun. rewrite Hd in Hrun. simpl in Hrun.
  injection Hrun as _ _ <-. apply node_eta; assumption.
Qed.

(** X14. At block connection (outside strict mode) no rule of the asset
    life cycle makes the call return false: it returns false only when a
    database handle is unset or when the store refuses a write, with one
    of the three storage errors. *)
Theorem block_connection_fails_on_storage_only node msg msg' node' :
  fJustCheck = false ->
  CheckAssetInputs host tx op vvchArgs vvchAliasArgs fJustCheck nHeight
                   dontaddtodb node msg = Returned false msg' node' ->
  paliasdb node = None \/ passetdb node = None
  \/ msg' = ERR_1096_lock \/ msg' = ERR_1096_prev \/ msg' = ERR_2028.
Proof.
  intros Hj Hrun. unfold CheckAssetInputs in Hrun.
  destruct (paliasdb node) as [adb|]; [|now left].
  destruct (passetdb node) as [db|]; [|right; now left].
  do 2 right.
  destruct (read_candidate _ _ _ _ _ _ node msg) as [theAsset|r1] eqn:H1;
    simpl in Hrun.
  { rewrite (strict_checks_skipped node theAsset Hj) in Hrun.
    simpl in Hrun.
    destruct (load_stored _ _ _ _ _ _ _ adb db msg theAsset)
      as [[[base adb1] db1]|r3] eqn:H3; simpl in Hrun.
    - destruct (apply_operation _ _ _ _ adb1 theAsset base)
        as [applied|r4] eqn:H4; simpl in Hrun.
      + apply commit_hard in Hrun. auto.
      + subst r4. apply apply_operation_soft in H4. discriminate.
    - subst r3. apply load_stored_hard in H3 as [->| ->]; auto. }
  subst r1. apply (read_candidate_soft _ _ _ _ _ Hj) in H1. discriminate.
Qed.

(** *** Operations that are none of the three *)

(** X15. In strict mode an operation that is neither an activation, an
    update nor a transfer (the mint operation, which the script decoder
    accepts, is one) is a hard failure once the payload, the hash, the
    alias input and the two size bounds have passed: the call returns
    false with error 2021 and the chain state is what it was. *)
Theorem unknown_operation_is_refused_in_strict_mode node msg data hash
    theAsset :
  fJustCheck = true ->
  op <> OP_ASSET_ACTIVATE host ->
  op <> OP_ASSET_UPDATE host ->
  op <> OP_ASSET_TRANSFER host ->
  paliasdb node <> None ->
  passetdb node <> None ->
  nVersion tx = SYSCOIN_TX_VERSION host ->
  SyscoinData tx = Some (data, hash) ->
  UnserializeFromData host data hash = (true, theAsset) ->
  vvchArgs = [hash] ->
  vvchAliasArgs !! 0%nat = Some (vchAlias theAsset) ->
  Z.of_nat (length (sCategory theAsset)) <= MAX_NAME_LENGTH host ->
  Z.of_nat (length (vchPubData theAsset)) <= MAX_VALUE_LENGTH host ->
  CheckAssetInputs host tx op vvchArgs vvchAliasArgs fJustCheck nHeight
                   dontaddtodb node msg = Returned false ERR_2021 node.
Proof.
  intros Hj Ha Hu Ht Hadb Hdb Hv Hdata Hparse Hargs Halias Hc Hp.
  unfold CheckAssetInputs.
  destruct (paliasdb node); [|contradiction].
  destruct (passetdb node); [|contradiction].
  rewrite (read_candidate_accepts node msg data hash theAsset);
    try assumption.
  2:{ rewrite Hj. cbn [negb]. now rewrite andb_false_r. }
  2:{ intros _. exact Hargs. }
  simpl. unfold strict_checks. rewrite Hj.
  destruct (Z.gtb_spec (Z.of_nat (length (sCategory theAsset)))
              (MAX_NAME_LENGTH host)); [lia|].
  destruct (Z.gtb_spec (Z.of_nat (length (vchPubData theAsset)))
              (MAX_VALUE_LENGTH host)); [lia|].
  destruct (Z.eqb_spec op (OP_ASSET_ACTIVATE host)); [contradiction|].
  destruct (Z.eqb_spec op (OP_ASSET_UPDATE host)); [contradiction|].
  destruct (Z.eqb_spec op (OP_ASSET_TRANSFER host)); [contradiction|].
  reflexivity.
Qed.

(** X16. At block connection the same operation is applied like an
    update, and without the owner check: for a stored asset under no
    settlement lock, at a height not below the stored one, the call
    returns true and the current record becomes the candidate with the
    inherited fields, owned by the alias of the candidate whoever owned
    the stored record. *)
Theorem unknown_operation_skips_owner_check node adb db msg data hash
    theAsset stored :
  fJustCheck = false ->
  dontaddtodb = false ->
  op <> OP_ASSET_ACTIVATE host ->
  op <> OP_ASSET_UPDATE host ->
  op <> OP_ASSET_TRANSFER host ->
  paliasdb node = Some adb ->
  passetdb node = Some db ->
  writable db = true ->
  IsCoinBase tx = false ->
  nVersion tx = SYSCOIN_TX_VERSION host ->
  SyscoinData tx = Some (data, hash) ->
  UnserializeFromData host data hash = (true, theAsset) ->
  vvchAliasArgs !! 0%nat = Some (vchAlias theAsset) ->
  GetAsset node (vchAsset theAsset) nullAsset = (true, stored) ->
  ReadISLock db (vchAsset theAsset) <> Some true ->
  Codec.nHeight stored <= to_uint64 nHeight ->
  exists adb' db' r,
    CheckAssetInputs host tx op vvchArgs vvchAliasArgs fJustCheck nHeight
                     dontaddtodb node msg
    = Returned true msg (mkNode (medianTimePast node) (Some adb') (Some db'))
    /\ asseti db' = <[vchAsset theAsset := r]> (asseti db)
    /\ r = stamped tx nHeight (with_inherited theAsset stored)
    /\ vchAlias r = vchAlias theAsset.
Proof.
  intros Hj Hd Ha Hu Ht Hadb Hdb Hw Hcb Hv Hdata Hparse Halias Hget Hlock Hh.
  destruct (accepted_operation_writes node adb db msg theAsset stored adb db
              (with_inherited theAsset stored) Hadb Hdb)
    as (adb' & db' & Hrun & Hrec); try assumption.
  - apply (read_candidate_accepts node msg data hash theAsset);
      try assumption.
    + now rewrite Hcb.
    + rewrite Hj. discriminate.
  - apply strict_checks_skipped, Hj.
  - apply load_stored_plain; [|now right|exact Hh].
    now rewrite (node_eta node adb db Hadb Hdb).
  - unfold apply_operation, flow_bind.
    destruct (Z.eqb_spec op (OP_ASSET_ACTIVATE host)); [contradiction|].
    destruct (Z.eqb_spec op (OP_ASSET_UPDATE host)); [contradiction|].
    destruct (Z.eqb_spec op (OP_ASSET_TRANSFER host)); [contradiction|].
    reflexivity.
  - exists adb', db', (stamped tx nHeight (with_inherited theAsset stored)).
    repeat split; assumption.
Qed.

(** *** Activations *)

(** X17. A well-formed activation of an id the store does not hold is
    accepted in strict mode: with the hash of the payload as the only
    script argument, the owner as the alias input, no link alias, a name
    within the bound, a category that starts with the asset prefix, and a
    store that takes the write, the call returns true, leaves the error
    message alone and writes the stamped candidate, and no other record. *)
Theorem activation_is_accepted node adb db msg data hash theAsset :
  fJustCheck = true ->
  dontaddtodb = false ->
  op = OP_ASSET_ACTIVATE host ->
  paliasdb node = Some adb ->
  passetdb node = Some db ->
  writable db = true ->
  nVersion tx = SYSCOIN_TX_VERSION host ->
  SyscoinData tx = Some (data, hash) ->
  UnserializeFromData host data hash = (true, theAsset) ->
  vvchArgs = [hash] ->
  vvchAliasArgs !! 0%nat = Some (vchAlias theAsset) ->
  Z.of_nat (length (sCategory theAsset)) <= MAX_NAME_LENGTH host ->
  Z.of_nat (length (vchPubData theAsset)) <= MAX_VALUE_LENGTH host ->
  vchLinkAlias theAsset = [] ->
  vchName theAsset <> [] ->
  Z.of_nat (length (vchName theAsset)) <= MAX_ID_LENGTH host ->
  starts_with (sCategory theAsset) assets_prefix = true ->
  ReadAsset db (vchAsset theAsset) = None ->
  exists adb' db',
    CheckAssetInputs host tx op vvchArgs vvchAliasArgs fJustCheck nHeight
                     dontaddtodb node msg
    = Returned true msg (mkNode (medianTimePast node) (Some adb') (Some db'))
    /\ asseti db'
       = <[vchAsset theAsset := stamped tx nHeight theAsset]> (asseti db).
Proof.
  intros Hj Hd Hop Hadb Hdb Hw Hv Hdata Hparse Hargs Halias Hc Hp Hl Hn Hn'
    Hs Habs.
  apply (accepted_operation_writes node adb db msg theAsset nullAsset adb db
           theAsset Hadb Hdb); try assumption.
  - apply (read_candidate_accepts node msg data hash theAsset);
      try assumption.
    + rewrite Hj. cbn [negb]. now rewrite andb_false_r.
    + intros _. exact Hargs.
  - apply strict_checks_activation; assumption.
  - apply load_stored_activation; [exact Hop|].
    apply (GetAsset_absent _ db); [reflexivity|exact Habs].
  - unfold apply_operation. rewrite Hop, Z.eqb_refl, Hj. cbn [negb].
    rewrite (GetAsset_absent
               (mkNode (medianTimePast node) (Some adb) (Some db)) db
               _ theAsset eq_refl Habs).
    reflexivity.
Qed.

(** X18. In strict mode the existence check of an activation reads the
    stored record into the candidate itself: when the store still holds
    an expired record under the id, the read fails and nulls the
    candidate, and the call then returns true and writes a stamped null
    record under the empty id, while the expired record stays where it
    was. *)
Theorem activation_over_expired_record node adb db msg data hash theAsset
    old :
  fJustCheck = true ->
  dontaddtodb = false ->
  op = OP_ASSET_ACTIVATE host ->
  paliasdb node = Some adb ->
  passetdb node = Some db ->
  writable db = true ->
  nVersion tx = SYSCOIN_TX_VERSION host ->
  SyscoinData tx = Some (data, hash) ->
  UnserializeFromData host data hash = (true, theAsset) ->
  vvchArgs = [hash] ->
  vvchAliasArgs !! 0%nat = Some (vchAlias theAsset) ->
  Z.of_nat (length (sCategory theAsset)) <= MAX_NAME_LENGTH host ->
  Z.of_nat (length (vchPubData theAsset)) <= MAX_VALUE_LENGTH host ->
  vchLinkAlias theAsset = [] ->
  vchName theAsset <> [] ->
  Z.of_nat (length (vchName theAsset)) <= MAX_ID_LENGTH host ->
  starts_with (sCategory theAsset) assets_prefix = true ->
  vchAsset theAsset <> [] ->
  ReadAsset db (vchAsset theAsset) = Some old ->
  GetAsset node (vchAsset theAsset) nullAsset = (false, nullAsset) ->
  exists adb' db',
    CheckAssetInputs host tx op vvchArgs vvchAliasArgs fJustCheck nHeight
                     dontaddtodb node msg
    = Returned true msg (mkNode (medianTimePast node) (Some adb') (Some db'))
    /\ ReadAsset db' [] = Some (stamped tx nHeight nullAsset)
    /\ ReadAsset db' (vchAsset theAsset) = Some old.
Proof.
  intros Hj Hd Hop Hadb Hdb Hw Hv Hdata Hparse Hargs Halias Hc Hp Hl Hn Hn'
    Hs Hid Hold Hexp.
  destruct (accepted_operation_writes node adb db msg theAsset nullAsset
              adb db nullAsset Hadb Hdb)
    as (adb' & db' & Hrun & Hrec); try assumption.
  - apply (read_candidate_accepts node msg data hash theAsset);
      try assumption.
    + rewrite Hj. cbn [negb]. now rewrite andb_false_r.
    + intros _. exact Hargs.
  - apply strict_checks_activation; assumption.
  - apply load_stored_activation; [exact Hop|].
    now rewrite (node_eta node adb db Hadb Hdb).
  - unfold apply_operation. rewrite Hop, Z.eqb_refl, Hj. cbn [negb].
    rewrite (node_eta node adb db Hadb Hdb).
    rewrite (GetAsset_stored node db _ old theAsset nullAsset Hdb Hold).
    rewrite Hexp. reflexivity.
  - exists adb', db'. split; [exact Hrun|]. unfold ReadAsset.
    rewrite Hrec. cbn [vchAsset nullAsset]. split.
    + apply lookup_insert_eq.
    + rewrite lookup_insert_ne by congruence. exact Hold.
Qed.

(** *** What a call can do to the current records *)

(** X19. A call changes at most one current record and erases none. When
    it returns false, sets an error message, or is told not to write,
    the current records are what they were; a record that does change
    is written under the id of the candidate (or, by the existence check
    of a strict-mode activation, under the empty id) and carries the hash
    of the validating transaction and no link alias. *)
Theorem call_changes_at_most_one_record node msg ret msg' node' db db' :
  CheckAssetInputs host tx op vvchArgs vvchAliasArgs fJustCheck nHeight
                   dontaddtodb node msg = Returned ret msg' node' ->
  passetdb node = Some db ->
  passetdb node' = Some db' ->
  (ret = false \/ msg' <> msg \/ dontaddtodb = true ->
   asseti db' = asseti db)
  /\ forall id,
       asseti db' !! id <> asseti db !! id ->
       (exists r,
          asseti db' !! id = Some r
          /\ txHash r = GetHash tx
          /\ vchLinkAlias r = [])
       /\ (forall id', id' <> id -> asseti db' !! id' = asseti db !! id')
       /\ exists data hash theAsset,
            SyscoinData tx = Some (data, hash)
            /\ UnserializeFromData host data hash = (true, theAsset)
            /\ (id = vchAsset theAsset
                \/ (id = [] /\ fJustCheck = true
                    /\ op = OP_ASSET_ACTIVATE host)).
Proof.
  intros Hrun Hdb Hdb'.
  destruct (call_asseti node msg ret msg' node' db db' Hrun Hdb Hdb')
    as [Hsame|(theAsset & base & node1 & adb1 & applied & Hread & Happly
               & Hrec & -> & -> & Hd)].
  - split; [intros _; exact Hsame|].
    intros id Hne. rewrite Hsame in Hne. contradiction.
  - split.
    { intros [Hf|[Hm|Ht]]; [discriminate|contradiction|congruence]. }
    intros id Hne. rewrite Hrec in Hne |- *.
    destruct (decide (vchAsset applied = id)) as [<-|Hid].
    2:{ rewrite lookup_insert_ne in Hne by exact Hid. contradiction. }
    split.
    { eexists. split; [apply lookup_insert_eq|]. split; reflexivity. }
    split.
    { intros id' Hid'. apply lookup_insert_ne. congruence. }
    apply read_candidate_continue in Hread as (data & hash & Hdata & Hu & _).
    exists data, hash, theAsset. split; [exact Hdata|]. split; [exact Hu|].
    apply apply_operation_id in Happly as [Heq|(Hj & Hop & ->)].
    + now left.
    + right. auto.
Qed.

(** *** Refusals that leave the chain state alone *)

(** The call, once the candidate is read, the strict checks are passed
    and the stored version is loaded without reconciliation. *)
Lemma call_after_load node adb db msg theAsset base :
  paliasdb node = Some adb ->
  passetdb node = Some db ->
  read_candidate host tx vvchArgs vvchAliasArgs fJustCheck dontaddtodb
                 node msg = Continue theAsset ->
  strict_checks host op fJustCheck node theAsset = Continue tt ->
  load_stored host tx op fJustCheck nHeight dontaddtodb
              (medianTimePast node) adb db msg theAsset
  = Continue (base, adb, db) ->
  CheckAssetInputs host tx op vvchArgs vvchAliasArgs fJustCheck nHeight
                   dontaddtodb node msg
  = finish (applied <~ apply_operation host op fJustCheck node adb
                                       theAsset base ;;
            Continue (commit host tx op fJustCheck nHeight dontaddtodb
                        (medianTimePast node) adb db msg
                        (vchAlias theAsset)
                        (if (op =? OP_ASSET_TRANSFER host)
                            && negb (bool_decide (vchLinkAlias theAsset = []))
                         then vchLinkAlias theAsset else [])
                        [] applied base)).
Proof.
  intros Hadb Hdb Hread Hstrict Hload. unfold CheckAssetInputs.
  rewrite Hadb, Hdb, Hread. simpl. rewrite Hstrict. simpl.
  rewrite Hload. simpl. now rewrite (node_eta node adb db Hadb Hdb).
Qed.

(** X26. A transfer to an alias the registry does not know, or to one
    that has not opted in to receiving assets, is a soft failure: for a
    stored asset under no settlement lock, at a height not below the
    stored one, the call returns true with error 2024, respectively 2025,
    and the chain state is what it was. *)
Theorem transfer_to_unfit_alias_is_refused node adb db msg theAsset stored :
  op = OP_ASSET_TRANSFER host ->
  paliasdb node = Some adb ->
  passetdb node = Some db ->
  read_candidate host tx vvchArgs vvchAliasArgs fJustCheck dontaddtodb
                 node msg = Continue theAsset ->
  strict_checks host op fJustCheck node theAsset = Continue tt ->
  GetAsset node (vchAsset theAsset) nullAsset = (true, stored) ->
  fJustCheck = true \/ ReadISLock db (vchAsset theAsset) <> Some true ->
  Codec.nHeight stored <= to_uint64 nHeight ->
  (GetAlias adb (vchLinkAlias theAsset) = None ->
   CheckAssetInputs host tx op vvchArgs vvchAliasArgs fJustCheck nHeight
                    dontaddtodb node msg = Returned true ERR_2024 node)
  /\ (forall alias,
        GetAlias adb (vchLinkAlias theAsset) = Some alias ->
        ~ accepts_asset_transfers host alias ->
        CheckAssetInputs host tx op vvchArgs vvchAliasArgs fJustCheck nHeight
                         dontaddtodb node msg = Returned true ERR_2025 node).
Proof.
  intros Hop Hadb Hdb Hread Hstrict Hget Hplain Hh.
  assert (Hload : load_stored host tx op fJustCheck nHeight dontaddtodb
                    (medianTimePast node) adb db msg theAsset
                  = Continue (stored, adb, db)).
  { apply load_stored_plain; [|exact Hplain|exact Hh].
    now rewrite (node_eta node adb db Hadb Hdb). }
  rewrite (call_after_load node adb db msg theAsset stored
             Hadb Hdb Hread Hstrict Hload).
  destruct (tags_distinct host) as (_ & Hat & _).
  unfold apply_operation, flow_bind. rewrite Hop.
  destruct (Z.eqb_spec (OP_ASSET_TRANSFER host) (OP_ASSET_ACTIVATE host));
    [congruence|].
  rewrite Z.eqb_refl. cbn [negb with_inherited vchLinkAlias].
  split.
  - intros ->. reflexivity.
  - intros alias -> Hno. unfold accepts_asset_transfers in Hno.
    destruct (Z.eqb_spec (Z.land (nAcceptTransferFlags alias)
                                 (ACCEPT_TRANSFER_ASSETS host)) 0);
      [reflexivity|contradiction].
Qed.

(** X27. An update signed by an alias other than the stored owner is a
    soft failure: for a stored asset under no settlement lock, at a
    height not below the stored one, the call returns true with the
    owner-must-sign-off error 2026 and the chain state is what it was. *)
Theorem update_by_another_alias_is_refused node adb db msg theAsset stored :
  op = OP_ASSET_UPDATE host ->
  paliasdb node = Some adb ->
  passetdb node = Some db ->
  read_candidate host tx vvchArgs vvchAliasArgs fJustCheck dontaddtodb
                 node msg = Continue theAsset ->
  strict_checks host op fJustCheck node theAsset = Continue tt ->
  GetAsset node (vchAsset theAsset) nullAsset = (true, stored) ->
  fJustCheck = true \/ ReadISLock db (vchAsset theAsset) <> Some true ->
  Codec.nHeight stored <= to_uint64 nHeight ->
  vchAlias stored <> vchAlias theAsset ->
  CheckAssetInputs host tx op vvchArgs vvchAliasArgs fJustCheck nHeight
                   dontaddtodb node msg = Returned true ERR_2026_owner node.
Proof.
  intros Hop Hadb Hdb Hread Hstrict Hget Hplain Hh Howner.
  assert (Hload : load_stored host tx op fJustCheck nHeight dontaddtodb
                    (medianTimePast node) adb db msg theAsset
                  = Continue (stored, adb, db)).
  { apply load_stored_plain; [|exact Hplain|exact Hh].
    now rewrite (node_eta node adb db Hadb Hdb). }
  rewrite (call_after_load node adb db msg theAsset stored
             Hadb Hdb Hread Hstrict Hload).
  destruct (tags_distinct host) as (Hau & _ & Hut).
  unfold apply_operation, flow_bind. rewrite Hop.
  destruct (Z.eqb_spec (OP_ASSET_UPDATE host) (OP_ASSET_ACTIVATE host));
    [congruence|].
  destruct (Z.eqb_spec (OP_ASSET_UPDATE host) (OP_ASSET_TRANSFER host));
    [congruence|].
  rewrite Z.eqb_refl. cbn [negb orb with_inherited vchAlias].
  rewrite (bool_decide_eq_true_2 _ Howner). reflexivity.
Qed.

(** X28. An update, a transfer or any operation other than an activation
    of an asset that does not read back, because the store does not hold
    it or because it has expired while the store still holds it, is a
    soft failure: the call returns true with error 2022 and the chain
    state is what it was. *)
Theorem operation_on_unreadable_asset_is_refused node adb db msg theAsset x :
  op <> OP_ASSET_ACTIVATE host ->
  paliasdb node = Some adb ->
  passetdb node = Some db ->
  read_candidate host tx vvchArgs vvchAliasArgs fJustCheck dontaddtodb
                 node msg = Continue theAsset ->
  strict_checks host op fJustCheck node theAsset = Continue tt ->
  GetAsset node (vchAsset theAsset) nullAsset = (false, x) ->
  CheckAssetInputs host tx op vvchArgs vvchAliasArgs fJustCheck nHeight
                   dontaddtodb node msg = Returned true ERR_2022 node.
Proof.
  intros Hop Hadb Hdb Hread Hstrict Hget. unfold CheckAssetInputs.
  rewrite Hadb, Hdb, Hread. simpl. rewrite Hstrict. simpl.
  unfold load_stored. rewrite (node_eta node adb db Hadb Hdb), Hget.
  cbn [negb].
  destruct (Z.eqb_spec op (OP_ASSET_ACTIVATE host)); [contradiction|].
  reflexivity.
Qed.

(** X29. In strict mode the activation of an asset that reads back from
    the store, at a height not below the stored one, is a soft failure:
    the call returns true with error 2027 and the chain state is what it
    was. *)
Theorem activation_of_live_asset_is_refused node adb db msg theAsset stored :
  fJustCheck = true ->
  op = OP_ASSET_ACTIVATE host ->
  paliasdb node = Some adb ->
  passetdb node = Some db ->
  read_candidate host tx vvchArgs vvchAliasArgs fJustCheck dontaddtodb
                 node msg = Continue theAsset ->
  strict_checks host op fJustCheck node theAsset = Continue tt ->
  GetAsset node (vchAsset theAsset) nullAsset = (true, stored) ->
  Codec.nHeight stored <= to_uint64 nHeight ->
  CheckAssetInputs host tx op vvchArgs vvchAliasArgs fJustCheck nHeight
                   dontaddtodb node msg = Returned true ERR_2027 node.
Proof.
  intros Hj Hop Hadb Hdb Hread Hstrict Hget Hh.
  assert (Hload : load_stored host tx op fJustCheck nHeight dontaddtodb
                    (medianTimePast node) adb db msg theAsset
                  = Continue (stored, adb, db)).
  { apply load_stored_plain; [|now left|exact Hh].
    now rewrite (node_eta node adb db Hadb Hdb). }
  rewrite (call_after_load node adb db msg theAsset stored
             Hadb Hdb Hread Hstrict Hload).
  unfold apply_operation. rewrite Hop, Z.eqb_refl, Hj. cbn [negb].
  destruct (GetAsset_found _ _ _ _ Hget) as (db0 & Hdb0 & Hrec).
  rewrite (GetAsset_stored node db0 _ stored theAsset nullAsset Hdb0 Hrec).
  rewrite Hget. reflexivity.
Qed.

End Call.

End CallFacts.

(** ** What the RPC layer shows *)

Module RpcFacts.

Import Codec Validator Rpc LeaseFacts.

Lemma to_int64_small (z : Z) : 0 <= z < 2 ^ 63 -> to_int64 z = z.
Proof.
  intros Hz. unfold to_int64. rewrite Z.mod_small by lia. lia.
Qed.

Lemma find_value_last (o : UniObject) (key : string) (v : UniValue) :
  find_value o key = None ->
  find_value (o ++ [(key, v)]) key = Some v.
Proof.
  induction o as [|[k w] o IH]; cbn.
  - now rewrite String.eqb_refl.
  - destruct (String.eqb k key); [discriminate|exact IH].
Qed.

(** X20. [assetinfo] reads the store directly, not through [GetAsset]:
    it answers for every stored asset, expired or not, and the [expired]
    flag of its answer is set exactly when [GetAsset] would not return
    the asset, as long as the expiration fits a signed 64-bit number. *)
Theorem assetinfo_flags_what_GetAsset_hides (chainActive : CChain)
    (node : Node) (db : CAssetDB) (id : vch) (more : list vch)
    (record txPos : CAsset) :
  0 <= medianTimePast node < 2 ^ 63 - 1 ->
  0 <= GetAssetExpiration node record < 2 ^ 63 ->
  passetdb node = Some db ->
  ReadAsset db id = Some record ->
  exists oAsset,
    assetinfo chainActive node (id :: more) false = Done oAsset
    /\ find_value oAsset "expired"
       = Some (VBOOL (negb (GetAsset node id txPos).1))
    /\ find_value oAsset "expires_on"
       = Some (VNUM (GetAssetExpiration node record)).
Proof.
  intros Ht He Hdb Hrec. unfold assetinfo.
  assert (Hn : (1 >? Z.of_nat (length (id :: more))) = false).
  { cbn [length]. rewrite Z.gtb_ltb. apply Z.ltb_ge. lia. }
  rewrite Hn. cbn [orb].
  change (default [] ((id :: more) !! 0%nat)) with id.
  rewrite Hdb, Hrec.
  unfold BuildAssetJson. cbn [negb app].
  eexists. split; [reflexivity|].
  rewrite (to_int64_small _ He).
  split; [|reflexivity].
  cbn [find_value String.eqb Ascii.eqb Bool.eqb].
  unfold GetAsset. rewrite Hdb, Hrec.
  rewrite to_uint64_small by lia.
  destruct (Z.leb_spec (GetAssetExpiration node record) (medianTimePast node));
    destruct (Z.geb_spec (medianTimePast node)
                (GetAssetExpiration node record)); try lia; reflexivity.
Qed.

End RpcFacts.

(** ** Further runs on the concrete chain *)

Module MoreScenarios.

Import Codec Validator LeaseSpec Example MoreExamples.

(** *** Scripts *)

Lemma asset_script_decodes_witness :
  exists s d,
    ScriptTx.asset_script example_host 1 (commitment activate_y) pay_to_hash
    = Script.Returns s
    /\ Script.DecodeAssetScript example_host s 0 = Script.Returns d
    /\ Script.d_ret d = true
    /\ Script.d_op d = 1
    /\ Script.d_vvch d = [commitment activate_y].
Proof.
  apply (ScriptTxFacts.asset_script_decodes example_host 1
           (commitment activate_y) pay_to_hash 0).
  - simpl. lia.
  - lia.
  - reflexivity.
  - vm_compute. reflexivity.
Defined.

Lemma RemoveAssetScriptPrefix_restores_witness :
  exists s,
    ScriptTx.asset_script example_host 1 (commitment activate_y) pay_to_hash
    = Script.Returns s
    /\ ScriptTx.RemoveAssetScriptPrefix example_host s []
       = Script.Returns (true, pay_to_hash).
Proof.
  apply (ScriptTxFacts.RemoveAssetScriptPrefix_restores example_host 1
           (commitment activate_y) x76 pay_to_hash_tail []).
  - simpl. lia.
  - lia.
  - reflexivity.
  - vm_compute. reflexivity.
  - vm_compute. reflexivity.
  - vm_compute. discriminate.
  - vm_compute. discriminate.
Defined.

Lemma RemoveAssetScriptPrefix_steps_back_one_byte_witness :
  (exists s,
     ScriptTx.asset_script example_host 1 (commitment activate_y)
       (ScriptTx.push_data ([x02; x11] ++ [x22]) ++ [xac])
     = Script.Returns s
     /\ ScriptTx.RemoveAssetScriptPrefix example_host s []
        = Script.Returns (true, [x22; xac]))
  /\ (exists s,
        ScriptTx.asset_script example_host 1 (commitment activate_y) []
        = Script.Returns s
        /\ ScriptTx.RemoveAssetScriptPrefix example_host s []
           = Script.Returns (true, [byte_of Script.OP_DROP])).
Proof.
  apply (ScriptTxFacts.RemoveAssetScriptPrefix_steps_back_one_byte
           example_host 1 (commitment activate_y) [x02; x11] x22 [xac] []).
  - simpl. lia.
  - lia.
  - reflexivity.
  - vm_compute. reflexivity.
  - vm_compute. reflexivity.
Defined.

(** *** Payloads *)

Lemma UnserializeFromData_ignores_trailing_bytes_witness :
  UnserializeFromData example_host (Serialize stored_x ++ [x00; x01])
                      (HashHex example_host (Serialize stored_x))
  = (true, stored_x).
Proof.
  apply (TxCodecFacts.UnserializeFromData_ignores_trailing_bytes
           example_host stored_x [x00; x01]).
  unfold valid_asset, MAX_SIZE. simpl. lia.
Defined.

Lemma DecodeAndParseAssetTx_accepts_built_witness :
  TxCodec.DecodeAndParseAssetTx example_host example_ASSET
    (tx_carrying 23 activate_y) ([] ++ activate_y_script :: []) 0 0 [] 0
  = Script.Returns
      (true,
       ScriptTx.mkDecodedTx true 1 (Z.of_nat (length (@nil Script.CScript)))
         [HashHex example_host (Serialize activate_y)],
       example_ASSET).
Proof.
  apply (TxCodecFacts.DecodeAndParseAssetTx_accepts_built
           example_host example_ASSET (tx_carrying 23 activate_y)
           activate_y 1 pay_to_hash activate_y_script [] [] 0 0 [] 0).
  - simpl. lia.
  - lia.
  - reflexivity.
  - unfold valid_asset, MAX_SIZE. simpl. lia.
  - vm_compute. reflexivity.
  - reflexivity.
  - vm_compute. reflexivity.
  - constructor.
Defined.

Lemma Serialize_prefix_free_witness :
  stored_x = stored_x /\ [x00] = [x00].
Proof.
  apply (FormatFacts.Serialize_prefix_free stored_x stored_x [x00] [x00]).
  - unfold valid_asset, MAX_SIZE. simpl. lia.
  - unfold valid_asset, MAX_SIZE. simpl. lia.
  - reflexivity.
Defined.

Lemma istarts_with_relaxes_starts_with_witness :
  istarts_with (sCategory stored_x) assets_prefix = true.
Proof.
  apply (FormatFacts.istarts_with_relaxes_starts_with
           (sCategory stored_x) assets_prefix).
  vm_compute. reflexivity.
Defined.

(** *** Expiration *)

Lemma GetAsset_without_lease_witness :
  GetAssetExpiration sweep_node unleased_z = 3000 + 1
  /\ GetAsset sweep_node asset_z nullAsset = (true, unleased_z).
Proof.
  apply (ExpirationFacts.GetAsset_without_lease sweep_node sweep_assetdb
           asset_z unleased_z nullAsset).
  - simpl. lia.
  - reflexivity.
  - vm_compute. reflexivity.
  - vm_compute. reflexivity.
Defined.

(** *** The sweep *)

Lemma sweep_cursor_visits_all : Sweep.visits_all sweep_cursor sweep_assetdb.
Proof.
  intros id [r Hr]. unfold sweep_assetdb in Hr. cbn [asseti] in Hr.
  apply lookup_insert_Some in Hr as [[<- _]|[_ Hr]].
  - exists (quiet ("asseti"%string, asset_x)). split; [now left|reflexivity].
  - apply lookup_singleton_Some in Hr as [<- _].
    exists (quiet ("asseti"%string, asset_z)).
    split; [right; now left|reflexivity].
Defined.

Lemma sweep_cursor_undisturbed : Sweep.undisturbed sweep_cursor.
Proof.
  intros v [<-|[<-|[<-|[]]]]; split; reflexivity.
Defined.

(** The asset of carol, who holds no lease, survives the sweep, also when
    the sweep is interrupted, and the asset of alice can only be left if
    it reads back. *)
Lemma CleanupDatabase_keeps_what_reads_back_witness :
  ReadAsset swept_assetdb asset_z = Some unleased_z
  /\ (forall r,
        ReadAsset swept_assetdb asset_x = Some r ->
        GetAsset sweep_node asset_x nullAsset = (true, r))
  /\ (forall db' n',
        Sweep.left_behind
          (Sweep.CleanupDatabase 3000 (Some example_aliasdb)
                                 interrupted_cursor sweep_assetdb 0)
        = Some (db', n') ->
        ReadAsset db' asset_z = Some unleased_z).
Proof.
  destruct (SweepFacts.CleanupDatabase_keeps_what_reads_back
              3000 (Some example_aliasdb) sweep_cursor sweep_assetdb 0
              swept_assetdb 1) as (Hkept & _ & Hexact).
  - vm_compute. reflexivity.
  - split; [|split].
    + apply (Hkept asset_z unleased_z nullAsset). vm_compute. reflexivity.
    + intros r Hr.
      apply (Hexact ltac:(vm_compute; reflexivity) eq_refl
                    sweep_cursor_visits_all asset_x r nullAsset).
      exact Hr.
    + intros db' n' Hleft.
      destruct (SweepFacts.CleanupDatabase_keeps_what_reads_back
                  3000 (Some example_aliasdb) interrupted_cursor
                  sweep_assetdb 0 db' n' Hleft) as (Hkept' & _).
      apply (Hkept' asset_z unleased_z nullAsset). vm_compute. reflexivity.
Defined.

(** The sweep of the example counts one record; it overflows when the
    counter comes in at [INT_MAX]; and the counter is raised by one when
    the erase of the first record raises. *)
Lemma CleanupDatabase_counts_unreadable_witness :
  (exists db',
     Sweep.CleanupDatabase 3000 (Some example_aliasdb) sweep_cursor
                           sweep_assetdb 0
     = Sweep.Done true db' 1)
  /\ Sweep.CleanupDatabase 3000 (Some example_aliasdb) sweep_cursor
                           sweep_assetdb Sweep.INT_MAX
     = Sweep.Overflow
  /\ Sweep.CleanupDatabase 3000 (Some example_aliasdb) failing_cursor
                           sweep_assetdb 0
     <> Sweep.Overflow.
Proof.
  assert (Hcount : Sweep.to_sweep 3000 (Some example_aliasdb) sweep_assetdb
                                  sweep_cursor = 1)
    by (vm_compute; reflexivity).
  assert (Hfail : Sweep.to_sweep 3000 (Some example_aliasdb) sweep_assetdb
                                 failing_cursor = 1)
    by (vm_compute; reflexivity).
  split; [|split].
  - destruct (SweepFacts.CleanupDatabase_counts_unreadable
                3000 (Some example_aliasdb) sweep_cursor sweep_assetdb 0)
      as (_ & _ & _ & Hquiet).
    specialize (Hquiet sweep_cursor_undisturbed
                       ltac:(vm_compute; discriminate)).
    rewrite Hcount in Hquiet. exact Hquiet.
  - destruct (SweepFacts.CleanupDatabase_counts_unreadable
                3000 (Some example_aliasdb) sweep_cursor sweep_assetdb
                Sweep.INT_MAX)
      as (_ & _ & _ & Hquiet).
    specialize (Hquiet sweep_cursor_undisturbed
                       ltac:(vm_compute; discriminate)).
    rewrite Hcount in Hquiet. exact Hquiet.
  - destruct (SweepFacts.CleanupDatabase_counts_unreadable
                3000 (Some example_aliasdb) failing_cursor sweep_assetdb 0)
      as (Hroom & _).
    apply Hroom. rewrite Hfail. vm_compute. discriminate.
Defined.


(** *** The validator *)

Lemma dry_run_leaves_chain_state_witness :
  node_after dry_update_run = example_node.
Proof.
  apply (CallFacts.dry_run_leaves_chain_state
           example_host (tx_carrying 22 update_x) 2
           [commitment update_x] [alice] false 101 true
           example_node EmptyString true EmptyString
           (node_after dry_update_run)).
  - reflexivity.
  - vm_compute. reflexivity.
Defined.

Lemma block_connection_fails_on_storage_only_witness :
  paliasdb readonly_node = None \/ passetdb readonly_node = None
  \/ ERR_2028 = ERR_1096_lock \/ ERR_2028 = ERR_1096_prev
  \/ ERR_2028 = ERR_2028.
Proof.
  apply (CallFacts.block_connection_fails_on_storage_only
           example_host (tx_carrying 22 update_x) 2
           [commitment update_x] [alice] false 101 false
           readonly_node EmptyString ERR_2028
           (node_after readonly_update_run)).
  - reflexivity.
  - vm_compute. reflexivity.
Defined.

(** The mint operation, in strict mode. *)
Lemma unknown_operation_is_refused_in_strict_mode_witness :
  CheckAssetInputs example_host (tx_carrying 22 update_x) 4
                   [commitment update_x] [alice] true 101 false
                   example_node EmptyString
  = Returned false ERR_2021 example_node.
Proof.
  apply (CallFacts.unknown_operation_is_refused_in_strict_mode
           example_host (tx_carrying 22 update_x) 4
           [commitment update_x] [alice] true 101 false
           example_node EmptyString
           (Serialize update_x) (commitment update_x) update_x).
  - reflexivity.
  - discriminate.
  - discriminate.
  - discriminate.
  - discriminate.
  - discriminate.
  - reflexivity.
  - reflexivity.
  - vm_compute. reflexivity.
  - reflexivity.
  - reflexivity.
  - simpl. lia.
  - simpl. lia.
Defined.

(** The mint operation at block connection: bob signs, and the asset of
    alice becomes his. *)
Lemma unknown_operation_skips_owner_check_witness :
  exists adb' db' r,
    CheckAssetInputs example_host (tx_carrying 24 claim_by_bob) 4
                     [commitment claim_by_bob] [bob] false 101 false
                     example_node EmptyString
    = Returned true EmptyString
        (mkNode (medianTimePast example_node) (Some adb') (Some db'))
    /\ asseti db' = <[vchAsset claim_by_bob := r]> (asseti example_assetdb)
    /\ r = stamped (tx_carrying 24 claim_by_bob) 101
             (with_inherited claim_by_bob stored_x)
    /\ vchAlias r = vchAlias claim_by_bob.
Proof.
  apply (CallFacts.unknown_operation_skips_owner_check
           example_host (tx_carrying 24 claim_by_bob) 4
           [commitment claim_by_bob] [bob] false 101 false
           example_node example_aliasdb example_assetdb EmptyString
           (Serialize claim_by_bob) (commitment claim_by_bob)
           claim_by_bob stored_x).
  - reflexivity.
  - reflexivity.
  - discriminate.
  - discriminate.
  - discriminate.
  - reflexivity.
  - reflexivity.
  - reflexivity.
  - reflexivity.
  - reflexivity.
  - reflexivity.
  - vm_compute. reflexivity.
  - reflexivity.
  - vm_compute. reflexivity.
  - vm_compute. discriminate.
  - vm_compute. discriminate.
Defined.

Lemma activation_is_accepted_witness :
  exists adb' db',
    CheckAssetInputs example_host (tx_carrying 23 activate_y) 1
                     [commitment activate_y] [alice] true 101 false
                     example_node EmptyString
    = Returned true EmptyString
        (mkNode (medianTimePast example_node) (Some adb') (Some db'))
    /\ asseti db'
       = <[vchAsset activate_y
           := stamped (tx_carrying 23 activate_y) 101 activate_y]>
           (asseti example_assetdb).
Proof.
  apply (CallFacts.activation_is_accepted
           example_host (tx_carrying 23 activate_y) 1
           [commitment activate_y] [alice] true 101 false
           example_node example_aliasdb example_assetdb EmptyString
           (Serialize activate_y) (commitment activate_y) activate_y).
  - reflexivity.
  - reflexivity.
  - reflexivity.
  - reflexivity.
  - reflexivity.
  - reflexivity.
  - reflexivity.
  - reflexivity.
  - vm_compute. reflexivity.
  - reflexivity.
  - reflexivity.
  - simpl. lia.
  - simpl. lia.
  - reflexivity.
  - discriminate.
  - simpl. lia.
  - vm_compute. reflexivity.
  - vm_compute. reflexivity.
Defined.

(** After the lease of alice has run out, the strict-mode activation of
    the id of her asset. *)
Lemma activation_over_expired_record_witness :
  exists adb' db',
    CheckAssetInputs example_host (tx_carrying 25 reactivate_x) 1
                     [commitment reactivate_x] [alice] true 101 false
                     late_node EmptyString
    = Returned true EmptyString
        (mkNode (medianTimePast late_node) (Some adb') (Some db'))
    /\ ReadAsset db' []
       = Some (stamped (tx_carrying 25 reactivate_x) 101 nullAsset)
    /\ ReadAsset db' (vchAsset reactivate_x) = Some stored_x.
Proof.
  apply (CallFacts.activation_over_expired_record
           example_host (tx_carrying 25 reactivate_x) 1
           [commitment reactivate_x] [alice] true 101 false
           late_node example_aliasdb example_assetdb EmptyString
           (Serialize reactivate_x) (commitment reactivate_x) reactivate_x
           stored_x).
  - reflexivity.
  - reflexivity.
  - reflexivity.
  - reflexivity.
  - reflexivity.
  - reflexivity.
  - reflexivity.
  - reflexivity.
  - vm_compute. reflexivity.
  - reflexivity.
  - reflexivity.
  - simpl. lia.
  - simpl. lia.
  - reflexivity.
  - discriminate.
  - simpl. lia.
  - vm_compute. reflexivity.
  - discriminate.
  - vm_compute. reflexivity.
  - vm_compute. reflexivity.
Defined.

(** The update of scenario B changes the record of the asset and no
    other. *)
Lemma call_changes_at_most_one_record_witness :
  exists r,
    asseti (assetdb_of (node_after update_run)) !! asset_x = Some r
    /\ txHash r = GetHash (tx_carrying 22 update_x)
    /\ vchLinkAlias r = [].
Proof.
  destruct (CallFacts.call_changes_at_most_one_record
              example_host (tx_carrying 22 update_x) 2
              [commitment update_x] [alice] false 101 false
              example_node EmptyString true EmptyString
              (node_after update_run)
              example_assetdb (assetdb_of (node_after update_run)))
    as [_ Hchanged].
  - vm_compute. reflexivity.
  - reflexivity.
  - vm_compute. reflexivity.
  - destruct (Hchanged asset_x) as [Hr _]; [|exact Hr].
    vm_compute. discriminate.
Defined.

(** The transfer to carol. *)
Lemma transfer_to_unfit_alias_is_refused_witness :
  CheckAssetInputs example_host (tx_carrying 26 transfer_to_carol) 3
                   [commitment transfer_to_carol] [alice] false 101 false
                   example_node EmptyString
  = Returned true ERR_2024 example_node.
Proof.
  apply (CallFacts.transfer_to_unfit_alias_is_refused
           example_host (tx_carrying 26 transfer_to_carol) 3
           [commitment transfer_to_carol] [alice] false 101 false
           example_node example_aliasdb example_assetdb EmptyString
           transfer_to_carol stored_x).
  - reflexivity.
  - reflexivity.
  - reflexivity.
  - vm_compute. reflexivity.
  - reflexivity.
  - vm_compute. reflexivity.
  - right. vm_compute. discriminate.
  - vm_compute. discriminate.
  - vm_compute. reflexivity.
Defined.

(** bob signs an update of the asset of alice. *)
Lemma update_by_another_alias_is_refused_witness :
  CheckAssetInputs example_host (tx_carrying 24 claim_by_bob) 2
                   [commitment claim_by_bob] [bob] false 101 false
                   example_node EmptyString
  = Returned true ERR_2026_owner example_node.
Proof.
  apply (CallFacts.update_by_another_alias_is_refused
           example_host (tx_carrying 24 claim_by_bob) 2
           [commitment claim_by_bob] [bob] false 101 false
           example_node example_aliasdb example_assetdb EmptyString
           claim_by_bob stored_x).
  - reflexivity.
  - reflexivity.
  - reflexivity.
  - vm_compute. reflexivity.
  - reflexivity.
  - vm_compute. reflexivity.
  - right. vm_compute. discriminate.
  - vm_compute. discriminate.
  - vm_compute. discriminate.
Defined.

(** The update of the asset of alice after her lease has run out. *)
Lemma operation_on_unreadable_asset_is_refused_witness :
  CheckAssetInputs example_host (tx_carrying 22 update_x) 2
                   [commitment update_x] [alice] false 101 false
                   late_node EmptyString
  = Returned true ERR_2022 late_node.
Proof.
  apply (CallFacts.operation_on_unreadable_asset_is_refused
           example_host (tx_carrying 22 update_x) 2
           [commitment update_x] [alice] false 101 false
           late_node example_aliasdb example_assetdb EmptyString
           update_x nullAsset).
  - discriminate.
  - reflexivity.
  - reflexivity.
  - vm_compute. reflexivity.
  - reflexivity.
  - vm_compute. reflexivity.
Defined.

(** The strict-mode activation of the id of a live asset. *)
Lemma activation_of_live_asset_is_refused_witness :
  CheckAssetInputs example_host (tx_carrying 25 reactivate_x) 1
                   [commitment reactivate_x] [alice] true 101 false
                   example_node EmptyString
  = Returned true ERR_2027 example_node.
Proof.
  apply (CallFacts.activation_of_live_asset_is_refused
           example_host (tx_carrying 25 reactivate_x) 1
           [commitment reactivate_x] [alice] true 101 false
           example_node example_aliasdb example_assetdb EmptyString
           reactivate_x stored_x).
  - reflexivity.
  - reflexivity.
  - reflexivity.
  - reflexivity.
  - vm_compute. reflexivity.
  - vm_compute. reflexivity.
  - vm_compute. reflexivity.
  - vm_compute. discriminate.
Defined.

(** *** The RPC layer *)

(** Late on the chain the asset of alice is still shown, flagged as
    expired. *)
Lemma assetinfo_flags_what_GetAsset_hides_witness :
  exists oAsset,
    Rpc.assetinfo [900; 950; 3000] late_node (asset_x :: []) false
    = Rpc.Done oAsset
    /\ Rpc.find_value oAsset "expired"
       = Some (Rpc.VBOOL (negb (GetAsset late_node asset_x nullAsset).1))
    /\ Rpc.find_value oAsset "expires_on"
       = Some (Rpc.VNUM (GetAssetExpiration late_node stored_x)).
Proof.
  apply (RpcFacts.assetinfo_flags_what_GetAsset_hides
           [900; 950; 3000] late_node example_assetdb asset_x []
           stored_x nullAsset).
  - simpl. lia.
  - vm_compute. split; [discriminate|reflexivity].
  - reflexivity.
  - vm_compute. reflexivity.
Defined.

End MoreScenarios.
